(** * PharmaDocs AI, browser-side controllers: a shallow embedding

    The JavaScript controllers of the repository (dashboard, document
    creation, AMV form, file upload) are embedded as Rocq functions
    over explicit models of the pieces of browser state they touch:
    form fields, check boxes, local storage, pending network requests.

    JavaScript numbers are IEEE-754 binary64 values; they are modelled
    by Rocq's primitive floats, which are the same format with the same
    round-to-nearest-even arithmetic; where a property speaks of the
    exact value of a number, that value is a rational.  Strings are
    sequences of code units below 256. *)

From Stdlib Require Import ZArith Floats String Ascii List Bool Lia DecimalString.
From Stdlib Require Import QArith Qround Qabs.
From stdpp Require Import gmap strings.

Close Scope Q_scope.
Open Scope string_scope.
Open Scope Z_scope.

(** ** The parts of the JavaScript runtime the controllers call *)

(** [Number::toString] (shortest round-trip decimal) is the one runtime
    service that is not spelled out below; the controllers only use it
    to splice numbers into messages. *)
Class JSRuntime := { Number_toString : float -> string }.

Module JS.

(** *** Strings *)

(** White space and line terminators, as [String.prototype.trim] and
    [parseFloat] skip them. *)
Definition is_white_space (c : ascii) : bool :=
  let n := Z.of_N (N_of_ascii c) in
  ((9 <=? n) && (n <=? 13)) || (n =? 32) || (n =? 160).

Fixpoint trimStart (s : string) : string :=
  match s with
  | String c s' => if is_white_space c then trimStart s' else s
  | EmptyString => EmptyString
  end.

Fixpoint rev_string (s acc : string) : string :=
  match s with
  | String c s' => rev_string s' (String c acc)
  | EmptyString => acc
  end.

Definition trimEnd (s : string) : string :=
  rev_string (trimStart (rev_string s "")) "".

Definition trim (s : string) : string := trimEnd (trimStart s).

(** Truthiness of a string: only the empty string is falsy. *)
Definition truthy_string (s : string) : bool :=
  match s with EmptyString => false | String _ _ => true end.

(** Truthiness of an optional string ([undefined] and [null] are falsy). *)
Definition truthy_opt (o : option string) : bool :=
  match o with Some s => truthy_string s | None => false end.

(** [Array.prototype.join]. *)
Fixpoint join (sep : string) (l : list string) : string :=
  match l with
  | [] => ""
  | [x] => x
  | x :: l' => x ++ sep ++ join sep l'
  end.

(** [String.prototype.includes]. *)
Fixpoint includes (s sub : string) : bool :=
  String.prefix sub s ||
  match s with
  | String _ s' => includes s' sub
  | EmptyString => false
  end.

Definition toUpperCase_char (c : ascii) : ascii :=
  let n := N_of_ascii c in
  if ((97 <=? n) && (n <=? 122))%N then ascii_of_N (n - 32) else c.

(** [String.prototype.toUpperCase] on the ASCII letters. *)
Fixpoint toUpperCase (s : string) : string :=
  match s with
  | String c s' => String (toUpperCase_char c) (toUpperCase s')
  | EmptyString => EmptyString
  end.

(** Decimal digits of a non-negative integer. *)
Definition decimal (n : Z) : string :=
  NilZero.string_of_uint (N.to_uint (Z.to_N n)).

(** *** Numbers *)

Definition isNaN (x : float) : bool := PrimFloat.is_nan x.

(** Truthiness of a number: [0], [-0] and [NaN] are falsy. *)
Definition truthy_number (x : float) : bool :=
  negb (PrimFloat.is_nan x || PrimFloat.is_zero x).

(** The Number value of [±d × 10^e] for an integer [d >= 0]: the
    nearest binary64 value, ties to even, overflowing to infinity.  It
    is the quotient of the two integers [d × 10^e] (or [d]) and [1] (or
    [10^-e]), rounded once by the division of the floating-point
    specification. *)
Definition Number_of_decimal (neg : bool) (d e : Z) : float :=
  if d =? 0 then (if neg then PrimFloat.neg_zero else PrimFloat.zero)
  else
    let p := Z.to_pos (d * 10 ^ Z.max e 0) in
    let q := Z.to_pos (10 ^ Z.max (- e) 0) in
    SF2Prim (SFdiv prec emax (S754_finite neg p 0) (S754_finite false q 0)).

(** *** parseFloat *)

Definition digit_of (c : ascii) : option Z :=
  let n := Z.of_N (N_of_ascii c) in
  if (48 <=? n) && (n <=? 57) then Some (n - 48) else None.

(** Reads the longest run of decimal digits: the value accumulated on
    [acc], the number of digits read added to [cnt], and the rest. *)
Fixpoint DecimalDigits (s : string) (acc cnt : Z) : Z * Z * string :=
  match s with
  | String c s' =>
      match digit_of c with
      | Some d => DecimalDigits s' (10 * acc + d) (cnt + 1)
      | None => (acc, cnt, s)
      end
  | EmptyString => (acc, cnt, s)
  end.

(** An exponent part counts only when it is complete: the indicator,
    an optional sign and at least one digit. *)
Definition ExponentPart (s : string) : Z :=
  match s with
  | String c s1 =>
      if (Ascii.eqb c "e" || Ascii.eqb c "E")%bool then
        let '(sgn, s2) :=
          match s1 with
          | String "+"%char s2 => (1, s2)
          | String "-"%char s2 => (-1, s2)
          | _ => (1, s1)
          end in
        let '(v, n, _) := DecimalDigits s2 0 0 in
        if n =? 0 then 0 else sgn * v
      else 0
  | EmptyString => 0
  end.

(** The longest prefix that is a [StrUnsignedDecimalLiteral] other than
    [Infinity], as a pair [(d, e)] standing for [d × 10^e]. *)
Definition StrUnsignedDecimalLiteral (s : string) : option (Z * Z) :=
  let '(ip, ni, s1) := DecimalDigits s 0 0 in
  match s1 with
  | String "."%char s2 =>
      let '(dv, nf, s3) := DecimalDigits s2 ip 0 in
      if (ni =? 0) && (nf =? 0) then None
      else Some (dv, ExponentPart s3 - nf)
  | _ => if ni =? 0 then None else Some (ip, ExponentPart s1)
  end.

Definition parseFloat (s : string) : float :=
  let t := trimStart s in
  let '(neg, u) :=
    match t with
    | String "-"%char u => (true, u)
    | String "+"%char u => (false, u)
    | _ => (false, t)
    end in
  if String.prefix "Infinity" u then (if neg then PrimFloat.neg_infinity else PrimFloat.infinity)
  else
    match StrUnsignedDecimalLiteral u with
    | Some (d, e) => Number_of_decimal neg d e
    | None => PrimFloat.nan
    end.

(** *** Number.prototype.toFixed *)

(** The integer [n] for which [n / 10^fd - m × 2^e] is closest to zero,
    the larger one when there are two. *)
Definition nearest_scaled (m : positive) (e : Z) (fd : nat) : Z :=
  let num := Z.pos m * 10 ^ Z.of_nat fd in
  if 0 <=? e then num * 2 ^ e
  else let q := 2 ^ (- e) in (2 * num + q) / (2 * q).

Fixpoint zeros (k : nat) : string :=
  match k with O => "" | S k' => String "0" (zeros k') end.

(** The digits of [n] with a decimal point before the last [fd]. *)
Definition fixed_digits (fd : nat) (n : Z) : string :=
  let ds := decimal n in
  match fd with
  | O => ds
  | S _ =>
      let k := String.length ds in
      let padded := if (k <=? fd)%nat then zeros (fd + 1 - k) ++ ds else ds in
      let k' := String.length padded in
      substring 0 (k' - fd) padded ++ "." ++ substring (k' - fd) fd padded
  end.

Definition toFixed `{JSRuntime} (fd : nat) (x : float) : string :=
  match Prim2SF x with
  | S754_nan => "NaN"
  | S754_infinity s => if s then "-Infinity" else "Infinity"
  | S754_zero _ => fixed_digits fd 0
  | S754_finite s m e =>
      let sign := if s then "-" else "" in
      if (1e21 <=? PrimFloat.abs x)%float then sign ++ Number_toString (PrimFloat.abs x)
      else sign ++ fixed_digits fd (nearest_scaled m e fd)
  end.

(** *** Exact values *)

(** The exact value of the finite number [±m × 2^e]. *)
Definition exact (s : bool) (m : positive) (e : Z) : Q :=
  let v := if 0 <=? e then inject_Z (Z.pos m * 2 ^ e)
           else Qmake (Z.pos m) (Z.to_pos (2 ^ (- e))) in
  if s then Qopp v else v.

(** The exact value of a number; [NaN] and the infinities have none. *)
Definition value_of (x : float) : option Q :=
  match Prim2SF x with
  | S754_zero _ => Some 0%Q
  | S754_finite s m e => Some (exact s m e)
  | S754_infinity _ | S754_nan => None
  end.

(** The exact value of [±d × 10^e]. *)
Definition exact_decimal (neg : bool) (d e : Z) : Q :=
  let v := if 0 <=? e then inject_Z (d * 10 ^ e)
           else Qmake d (Z.to_pos (10 ^ (- e))) in
  if neg then Qopp v else v.

(** The number a text denotes, read as [parseFloat] reads it but
    without the rounding to binary64; [None] when [parseFloat] gives
    [NaN] or an infinity. *)
Definition parse_exact (s : string) : option Q :=
  let t := trimStart s in
  let '(neg, u) :=
    match t with
    | String "-"%char u => (true, u)
    | String "+"%char u => (false, u)
    | _ => (false, t)
    end in
  if String.prefix "Infinity" u then None
  else
    match StrUnsignedDecimalLiteral u with
    | Some (d, e) => Some (exact_decimal neg d e)
    | None => None
    end.

(** A rational rounded to [fd] decimals in exact arithmetic, a half
    going away from zero, and written as a decimal: the sign, then the
    digits of the integer nearest to [|q| × 10^fd] with the decimal
    point before the last [fd] of them. *)
Definition rounded_text (fd : nat) (q : Q) : string :=
  let n := Qfloor (Qabs q * inject_Z (10 ^ Z.of_nat fd) + (1 # 2))%Q in
  (if Qle_bool 0 q then "" else "-") ++ fixed_digits fd n.

(** *** Objects *)

(** The members every object inherits from [Object.prototype], each
    with its [length]: the number of parameters of the function.
    [__proto__] is an object and has no [length]. *)
Definition inherited_members : list (string * option nat) :=
  [("constructor", Some 1%nat); ("__defineGetter__", Some 2%nat);
   ("__defineSetter__", Some 2%nat); ("hasOwnProperty", Some 1%nat);
   ("__lookupGetter__", Some 1%nat); ("__lookupSetter__", Some 1%nat);
   ("isPrototypeOf", Some 1%nat); ("propertyIsEnumerable", Some 1%nat);
   ("toString", Some 0%nat); ("valueOf", Some 0%nat); ("__proto__", None);
   ("toLocaleString", Some 0%nat)].

End JS.

(** ** AMV form controller (class [AMVManager]) *)

Module AMV.
Section Controller.
Context `{JSRuntime}.

(** *** Derived concentrations *)

(** The form as [document.querySelector('[name="..."]')] sees it: for
    each field name the value of the first element carrying it; a name
    without an element is absent from the map.  Value sanitisation by
    the input type is not modelled. *)
Abbreviation Form := (gmap string string).

(** [parseFloat(element?.value || 0)]: an absent element and an empty
    value both fall back to the number [0], which [parseFloat] reads
    through its string form. *)
Definition parseFloat_or_0 (v : option string) : float :=
  if JS.truthy_opt v then JS.parseFloat (default "" v) else JS.parseFloat "0".

Definition calculateUVConcentrations (doc : Form) : Form :=
  let weightStandard := parseFloat_or_0 (doc !! "uv_weight_standard") in
  let weightSample := parseFloat_or_0 (doc !! "uv_weight_sample") in
  let finalConcStandard := parseFloat_or_0 (doc !! "uv_final_concentration_standard") in
  if ((0 <? weightStandard) && (0 <? finalConcStandard))%float then
    let sampleConc := ((weightSample / weightStandard) * finalConcStandard)%float in
    match doc !! "uv_final_concentration_sample" with
    | Some v =>
        if negb (JS.truthy_string v)
        then <["uv_final_concentration_sample" := JS.toFixed 3 sampleConc]> doc
        else doc
    | None => doc
    end
  else doc.

Definition calculateHPLCConcentrations (doc : Form) : Form :=
  let weightStandard := parseFloat_or_0 (doc !! "hplc_weight_standard") in
  let weightSample := parseFloat_or_0 (doc !! "hplc_weight_sample") in
  let finalConcStandard := parseFloat_or_0 (doc !! "hplc_final_concentration_standard") in
  if ((0 <? weightStandard) && (0 <? finalConcStandard))%float then
    let sampleConc := ((weightSample / weightStandard) * finalConcStandard)%float in
    match doc !! "hplc_final_concentration_sample" with
    | Some v =>
        if negb (JS.truthy_string v)
        then <["hplc_final_concentration_sample" := JS.toFixed 3 sampleConc]> doc
        else doc
    | None => doc
    end
  else doc.

(** *** Wavelength fields *)

(** An input element: its value and its attributes. *)
Record Input := { el_value : string; el_attributes : gmap string string }.

(** [getAttribute] answers [null] for an attribute that is not set. *)
Definition getAttribute (f : Input) (a : string) : option string :=
  f.(el_attributes) !! a.

(** What the validator does to the inline feedback of the field. *)
Inductive Feedback :=
| showFieldError (message : string)
| clearFieldError.

(** [parseFloat(field.getAttribute(a))]: a missing attribute is [null],
    which does not start with a number. *)
Definition parseFloat_attribute (a : option string) : float :=
  match a with
  | Some s => JS.parseFloat s
  | None => PrimFloat.nan
  end.

Definition validateWavelengthField (field : option Input) : bool * list Feedback :=
  match field with
  | None => (true, [])
  | Some f =>
      let value := JS.parseFloat f.(el_value) in
      let min := parseFloat_attribute (getAttribute f "min") in
      let max := parseFloat_attribute (getAttribute f "max") in
      if negb (JS.truthy_string (JS.trim f.(el_value))) then (true, [])
      else if JS.isNaN value then
        (false, [showFieldError "Please enter a valid number"])
      else if (JS.truthy_number min && (value <? min)%float) then
        (false, [showFieldError ("Value must be at least " ++ Number_toString min)])
      else if (JS.truthy_number max && (max <? value)%float) then
        (false, [showFieldError ("Value must be no more than " ++ Number_toString max)])
      else (true, [clearFieldError])
  end.

(** *** Default validation parameters per instrument *)

(** The entries the object literal [validationParameters] defines. *)
Definition validationParameters : gmap string (list string) :=
  list_to_map [
    ("uv", [
       "specificity";
       "system_suitability";
       "system_precision";
       "method_precision";
       "intermediate_precision";
       "linearity";
       "lod_loq";
       "lod_loq_precision";
       "range";
       "recovery";
       "robustness" ]);
    ("aas", [
       "specificity";
       "system_suitability";
       "system_precision";
       "method_precision";
       "intermediate_precision";
       "linearity";
       "lod_loq";
       "lod_loq_precision";
       "range";
       "recovery";
       "robustness" ]);
    ("hplc", [
       "specificity";
       "system_suitability";
       "system_precision";
       "method_precision";
       "intermediate_precision";
       "linearity";
       "lod_loq";
       "lod_loq_precision";
       "range";
       "recovery";
       "robustness" ]);
    ("uplc", [
       "specificity";
       "system_suitability";
       "system_precision";
       "method_precision";
       "intermediate_precision";
       "linearity";
       "lod_loq";
       "lod_loq_precision";
       "range";
       "recovery";
       "robustness" ]);
    ("gc", [
       "specificity";
       "system_suitability";
       "system_precision";
       "method_precision";
       "intermediate_precision";
       "linearity";
       "lod_loq";
       "lod_loq_precision";
       "range";
       "recovery";
       "robustness" ]);
    ("titration", [
       "specificity";
       "system_suitability";
       "system_precision";
       "method_precision";
       "intermediate_precision";
       "linearity";
       "lod_loq";
       "lod_loq_precision";
       "range";
       "recovery";
       "robustness" ])
  ].

(** A check box named [val_params]. *)
Record Checkbox := { cb_value : string; checked : bool }.

(** The part of the page the auto-selection touches: the [val_params]
    check boxes in document order, the notification banner (absent, or
    hidden or not) and the info messages shown so far.  The timers that
    hide the banner and the messages again are not modelled. *)
Record Page := {
  val_params : list Checkbox;
  notification_hidden : option bool;
  info_messages : list string
}.

Definition set_checked (b : bool) (c : Checkbox) : Checkbox :=
  {| cb_value := c.(cb_value); checked := b |}.

(** [querySelector('input[name="val_params"][value="v"]')] followed by
    [checked = true]: the first check box with that value, if any. *)
Fixpoint check_first (v : string) (cbs : list Checkbox) : list Checkbox :=
  match cbs with
  | [] => []
  | c :: cbs' =>
      if String.eqb c.(cb_value) v then set_checked true c :: cbs'
      else c :: check_first v cbs'
  end.

(** What [validationParameters[instrumentType] || []] is: a list of
    the table; the empty list for a name that is not there; or, for a
    name every object inherits, the inherited member, which is truthy
    and is no array. *)
Inductive TableValue :=
| Parameters (selectedParams : list string)
| InheritedMember (length : option nat).

Definition selectedParams_of (instrumentType : string) : TableValue :=
  match validationParameters !! instrumentType with
  | Some selectedParams => Parameters selectedParams
  | None =>
      match (list_to_map JS.inherited_members : gmap string (option nat))
              !! instrumentType with
      | Some length => InheritedMember length
      | None => Parameters []
      end
  end.

(** [autoSelectValidationParameters]: the page afterwards, and whether
    the call throws.  An inherited function with parameters passes the
    test [selectedParams.length > 0]; the boxes are then unchecked and
    the call of [selectedParams.forEach], which no function has,
    throws.  An inherited function without parameters and the
    inherited object, whose [length] is [undefined], fail the test. *)
Definition autoSelectValidationParameters (instrumentType : string) (p : Page)
  : Page * bool :=
  match selectedParams_of instrumentType with
  | Parameters selectedParams =>
      if (0 <? length selectedParams)%nat then
        let unchecked := map (set_checked false) p.(val_params) in
        let selected := fold_left (fun cbs paramValue => check_first paramValue cbs)
                                  selectedParams unchecked in
        ({| val_params := selected;
            notification_hidden := (fun _ => false) <$> p.(notification_hidden);
            info_messages :=
              app p.(info_messages)
                ["Auto-selected " ++ JS.decimal (Z.of_nat (length selectedParams))
                   ++ " validation parameters for " ++ JS.toUpperCase instrumentType] |},
         false)
      else (p, false)
  | InheritedMember (Some parameters) =>
      if (0 <? parameters)%nat then
        ({| val_params := map (set_checked false) p.(val_params);
            notification_hidden := p.(notification_hidden);
            info_messages := p.(info_messages) |},
         true)
      else (p, false)
  | InheritedMember None => (p, false)
  end.

(** [removeAttribute]. *)
Definition removeAttribute (f : Input) (a : string) : Input :=
  {| el_value := f.(el_value); el_attributes := delete a f.(el_attributes) |}.

(** The values of the checked [val_params] boxes. *)
Definition checked_values (cbs : list Checkbox) : gset string :=
  list_to_set (cb_value <$> filter (fun c => checked c = true) cbs).

End Controller.

(** The property that the concentration written is the quotient and
    product of the numbers the fields denote, computed and rounded to
    three decimals in exact arithmetic. *)
Definition concentration_is_exact_rounding : Prop :=
  forall (rt : JSRuntime) (doc : gmap string string)
         (weightStandard weightSample finalConcStandard : Q),
    doc !! "uv_weight_standard" ≫= JS.parse_exact = Some weightStandard ->
    doc !! "uv_weight_sample" ≫= JS.parse_exact = Some weightSample ->
    doc !! "uv_final_concentration_standard" ≫= JS.parse_exact = Some finalConcStandard ->
    (0 < weightStandard)%Q -> (0 < finalConcStandard)%Q ->
    doc !! "uv_final_concentration_sample" = Some "" ->
    calculateUVConcentrations doc !! "uv_final_concentration_sample"
    = Some (JS.rounded_text 3 (weightSample / weightStandard * finalConcStandard)%Q).

(** The property that every declared bound is enforced: a numeric
    value outside the declared [min, max] is rejected. *)
Definition declared_bounds_enforced : Prop :=
  forall (rt : JSRuntime) (f : Input),
    is_Some (getAttribute f "min") -> is_Some (getAttribute f "max") ->
    JS.trim f.(el_value) <> "" ->
    JS.isNaN (JS.parseFloat f.(el_value)) = false ->
    (JS.parseFloat f.(el_value) <? parseFloat_attribute (getAttribute f "min"))%float = true
    \/ (parseFloat_attribute (getAttribute f "max") <? JS.parseFloat f.(el_value))%float = true ->
    (validateWavelengthField (Some f)).1 = false.

(** The property that the selection is replaced whatever the
    instrument type: afterwards exactly the parameters listed for the
    instrument (none, for an instrument without a list) are checked,
    on a page that has a check box for each of them. *)
Definition selection_replaced_for_every_instrument : Prop :=
  forall (instrumentType : string) (p : Page),
    let listed := default [] (validationParameters !! instrumentType) in
    (forall v, v ∈ listed -> v ∈ cb_value <$> p.(val_params)) ->
    checked_values (autoSelectValidationParameters instrumentType p).1.(val_params)
    = list_to_set listed.

End AMV.

(** ** File upload validator (class [FileUploadManager]) *)

Module FileUpload.

(** A file input of the page: its name, whether it carries the class
    [file-input] and the attribute [required], the names of the files
    selected in it ([None] when the element has no file list), and the
    text of the label of the enclosing [.mb-3] group, if there is one. *)
Record FileInput := {
  name : string;
  file_input_class : bool;
  required : bool;
  files : option (list string);
  group_label : option string
}.

(** [!input.files || !input.files[0]] *)
Definition no_file (input : FileInput) : bool :=
  match input.(files) with
  | Some (_ :: _) => false
  | _ => true
  end.

(** [input.closest('.mb-3')?.querySelector('label')?.textContent || input.name] *)
Definition label_of (input : FileInput) : string :=
  if JS.truthy_opt input.(group_label)
  then default "" input.(group_label)
  else input.(name).

(** [validateRequiredFiles]: the result, and the messages handed to
    [showError] during the call. *)
Definition validateRequiredFiles (document : list FileInput) : bool * list string :=
  let requiredInputs :=
    filter (fun input => input.(file_input_class) && input.(required) = true) document in
  let missing :=
    fold_left (fun (missing : list string) input =>
                 if no_file input then app missing [label_of input] else missing)
              requiredInputs [] in
  if (0 <? length missing)%nat then
    (false,
     ["Please upload the following required files: " ++ JS.join ", " missing])
  else (true, []).

(** The required inputs that have no file, in document order. *)
Definition missing_inputs (document : list FileInput) : list FileInput :=
  filter (fun input =>
            input.(file_input_class) && input.(required) && no_file input = true)
         document.

End FileUpload.

(** ** Dashboard (class [DashboardManager]) *)

Module Dashboard.
Section Controller.
Context `{JSRuntime}.

(** What the chart library hands to a tooltip callback: the label of
    the slice, its value and the data of the whole data set. *)
Record TooltipContext := {
  label : string;
  parsed : float;
  dataset_data : list float
}.

(** The [total] of the tooltip callback:
    [context.dataset.data.reduce((a, b) => a + b, 0)]. *)
Definition total (context : TooltipContext) : float :=
  fold_left (fun a b => (a + b)%float) context.(dataset_data) 0%float.

(** The [percentage] of the tooltip callback. *)
Definition percentage (context : TooltipContext) : string :=
  JS.toFixed 1 ((context.(parsed) * 100) / total context)%float.

(** The tooltip callback of the document-type chart. *)
Definition tooltip_label (context : TooltipContext) : string :=
  context.(label) ++ ": " ++ Number_toString context.(parsed)
    ++ " (" ++ percentage context ++ "%)".

(** The chart [updateDocumentTypeChart] builds from a distribution
    (an object, as its entries in key order): labels, data and the
    colours of the slices. *)
Record Chart := {
  labels : list string;
  data : list float;
  backgroundColor : list string
}.

Definition colors : list string :=
  ["#007bff"; "#28a745"; "#ffc107"; "#dc3545"; "#6f42c1"].

(** Nothing is drawn without the canvas or without the chart library. *)
Definition updateDocumentTypeChart (canvas chart_library : bool)
    (distribution : list (string * float)) : option Chart :=
  if negb canvas || negb chart_library then None
  else
    let labels := fst <$> distribution in
    let data := snd <$> distribution in
    Some {| labels := labels; data := data;
            backgroundColor := take (length labels) colors |}.

(** The contexts the chart library calls the tooltip callback with, one
    per slice. *)
Definition tooltip_contexts (c : Chart) : list TooltipContext :=
  (fun '(l, v) => {| label := l; parsed := v; dataset_data := c.(data) |})
    <$> zip c.(labels) c.(data).

End Controller.

(** The exact sum of the data of the data set. *)
Definition exact_total (context : TooltipContext) : option Q :=
  fold_right Qplus 0%Q <$> mapM JS.value_of context.(dataset_data).

(** The property that the percentage shown is [100 * value / sum]
    computed and rounded to one decimal in exact arithmetic. *)
Definition percentage_is_exact_rounding : Prop :=
  forall (rt : JSRuntime) (context : TooltipContext) (value total : Q),
    Forall (fun x => (0 <=? x)%float = true) context.(dataset_data) ->
    JS.value_of context.(parsed) = Some value ->
    exact_total context = Some total ->
    (0 < total)%Q ->
    percentage context = JS.rounded_text 1 (100 * value / total)%Q.

End Dashboard.

(** ** Document creation (class [DocumentCreationManager]) *)

Module DocumentCreation.

(** The value of a form entry: a text, or the file a named file input
    contributes. *)
Inductive FormDataEntryValue :=
| Text (s : string)
| FileEntry (file_name : string).

(** A property of [this.formData]: the value of a form entry, or the
    array of keys kept under [files]. *)
Inductive Property :=
| Entry (value : FormDataEntryValue)
| Keys (keys : list string).

(** What [JSON.stringify] followed by [JSON.parse] makes of a
    property: a text stays as it is; a file, which has no enumerable
    property of its own, becomes the empty object; an array of keys
    stays an array of texts. *)
Inductive JSONValue :=
| JSONString (s : string)
| JSONEmptyObject
| JSONStrings (l : list string).

Definition JSON_of (v : Property) : JSONValue :=
  match v with
  | Entry (Text s) => JSONString s
  | Entry (FileEntry _) => JSONEmptyObject
  | Keys keys => JSONStrings keys
  end.

(** A draft as it is read back from storage. *)
Record DraftRecord := {
  timestamp : Z;
  documentType : string;
  formData : gmap string JSONValue
}.

(** A text kept in local storage: the JSON text of a draft record, kept
    in parsed form, or some other text, which [JSON.parse] rejects. *)
Inductive StoredText :=
| DraftJSON (d : DraftRecord)
| Unparseable (raw : string).

(** [localStorage]: its items, and whether [setItem] succeeds (it throws
    when the quota is exceeded or storage is disabled). *)
Record Storage := {
  items : gmap string StoredText;
  writable : bool
}.

Definition getItem (st : Storage) (key : string) : option StoredText :=
  st.(items) !! key.

Definition setItem (st : Storage) (key : string) (v : StoredText) : option Storage :=
  if st.(writable)
  then Some {| items := <[key := v]> st.(items); writable := st.(writable) |}
  else None.

Definition removeItem (st : Storage) (key : string) : Storage :=
  {| items := delete key st.(items); writable := st.(writable) |}.

(** A stored text is falsy when it is the empty string. *)
Definition truthy_text (t : StoredText) : bool :=
  match t with
  | DraftJSON _ => true
  | Unparseable raw => JS.truthy_string raw
  end.

Definition JSON_parse (t : StoredText) : option DraftRecord :=
  match t with
  | DraftJSON d => Some d
  | Unparseable _ => None
  end.

(** The page: the value of the element with a given id, the entries of
    the form [createDocumentForm] in order ([None] when the page has no
    such form) and the keys of the files selected in the upload areas. *)
Record Page := {
  elements : gmap string string;
  form_entries : option (list (string * FormDataEntryValue));
  uploaded_files : list string
}.

(** The manager: [this.currentDocumentType] and the properties of
    [this.formData]. *)
Record Manager := {
  currentDocumentType : string;
  mgr_formData : gmap string Property
}.

(** The constructor. *)
Definition new_manager : Manager :=
  {| currentDocumentType := "AMV"; mgr_formData := ∅ |}.

(** The read-only attributes of a file.  An object whose prototype is
    a file inherits them as accessors without a setter. *)
Definition file_attributes : list string :=
  ["name"; "lastModified"; "webkitRelativePath"; "size"; "type"].

(** [this.formData] while the form entries are collected: its own
    properties, whether its prototype has become a file, and whether
    an assignment has thrown. *)
Record Collecting := {
  own : gmap string Property;
  inherits_file : bool;
  thrown : bool
}.

(** [this.formData[key] = value], in the strict code of a class.
    Assigning to [__proto__] adds no property: a file becomes the
    prototype of the object, a text is ignored.  Assigning to a
    read-only attribute that the object inherits from a file and does
    not have itself throws. *)
Definition assign (c : Collecting) (entry : string * FormDataEntryValue) : Collecting :=
  if c.(thrown) then c
  else if String.eqb entry.1 "__proto__" then
    {| own := c.(own);
       inherits_file :=
         match entry.2 with FileEntry _ => true | Text _ => c.(inherits_file) end;
       thrown := false |}
  else if c.(inherits_file) && existsb (String.eqb entry.1) file_attributes
          && match c.(own) !! entry.1 with Some _ => false | None => true end
  then {| own := c.(own); inherits_file := c.(inherits_file); thrown := true |}
  else {| own := <[entry.1 := Entry entry.2]> c.(own);
          inherits_file := c.(inherits_file); thrown := false |}.

(** [updateFormData]: the manager afterwards, and whether the call
    throws. *)
Definition updateFormData (page : Page) (this : Manager) : Manager * bool :=
  match page.(form_entries) with
  | None => (this, false)
  | Some form =>
      let collected :=
        fold_left assign form {| own := ∅; inherits_file := false; thrown := false |} in
      if collected.(thrown) then
        ({| currentDocumentType := this.(currentDocumentType);
            mgr_formData := collected.(own) |}, true)
      else
        ({| currentDocumentType := this.(currentDocumentType);
            mgr_formData := <["files" := Keys page.(uploaded_files)]> collected.(own) |},
         false)
  end.

(** The value of the last entry of the form with the key [key]. *)
Fixpoint submitted (key : string) (form : list (string * FormDataEntryValue))
  : option FormDataEntryValue :=
  match form with
  | [] => None
  | entry :: form' =>
      match submitted key form' with
      | Some value => Some value
      | None => if String.eqb entry.1 key then Some entry.2 else None
      end
  end.

Definition hasFormData (page : Page) : bool :=
  let title := page.(elements) !! "title" in
  let companyId := page.(elements) !! "company_id" in
  JS.truthy_opt title || JS.truthy_opt companyId.

(** [autoSaveDraft] at time [now] (milliseconds, as [Date.now()]).
    [updateFormData] is called outside the [try]: when it throws,
    nothing is written. *)
Definition autoSaveDraft (now : Z) (page : Page) (this : Manager) (st : Storage)
  : Manager * Storage :=
  if negb (hasFormData page) then (this, st)
  else
    let '(this, thrown) := updateFormData page this in
    if thrown then (this, st)
    else
      match setItem st "documentDraft"
              (DraftJSON {| timestamp := now;
                            documentType := this.(currentDocumentType);
                            formData := JSON_of <$> this.(mgr_formData) |}) with
      | Some st' => (this, st')
      | None => (this, st)
      end.

(** The two triggers [bindDraftSaving] installs. *)
Inductive AutoSaveTrigger := Timer30s | BeforeUnload.

Definition on_trigger (t : AutoSaveTrigger) (now : Z) (page : Page)
    (this : Manager) (st : Storage) : Manager * Storage :=
  match t with
  | Timer30s => autoSaveDraft now page this st
  | BeforeUnload => autoSaveDraft now page this st
  end.

Definition clearDraft (st : Storage) : Storage := removeItem st "documentDraft".

(** What [loadDraft] does besides touching storage. *)
Inductive Event :=
| Confirm (message : string)
| RestoreDraft (draftData : DraftRecord)
| ConsoleError.

Record LoadResult := {
  returned : bool;
  storage_after : Storage;
  events : list Event
}.

(** [loadDraft] at time [now]; [confirm] is the user's answer to a
    confirmation dialog. *)
Definition loadDraft (now : Z) (confirm : string -> bool) (st : Storage) : LoadResult :=
  match getItem st "documentDraft" with
  | None => {| returned := false; storage_after := st; events := [] |}
  | Some draft =>
      if negb (truthy_text draft)
      then {| returned := false; storage_after := st; events := [] |}
      else
        match JSON_parse draft with
        | None => {| returned := false; storage_after := st; events := [ConsoleError] |}
        | Some draftData =>
            let age := now - draftData.(timestamp) in
            if 24 * 60 * 60 * 1000 <? age then
              {| returned := false; storage_after := clearDraft st; events := [] |}
            else
              let message := "A draft document was found. Would you like to restore it?" in
              if confirm message then
                {| returned := true; storage_after := st;
                   events := [Confirm message; RestoreDraft draftData] |}
              else
                {| returned := false; storage_after := st;
                   events := [Confirm message] |}
        end
  end.

(** *** Document numbers *)

Record Request := {
  url : string;
  company_id : string;
  document_type : string
}.

(** How the request ends: the promise is rejected, or a response
    arrives, OK or not, whose body is a JSON object with a
    [document_number] ([None] when reading the body throws). *)
Inductive FetchOutcome :=
| Rejected
| Response (ok : bool) (document_number : option string).

(** The user typing [value] into the element with identifier [id]. *)
Definition type_into (page : Page) (edit : string * string) : Page :=
  {| elements := alter (fun _ => edit.2) edit.1 page.(elements);
     form_entries := page.(form_entries);
     uploaded_files := page.(uploaded_files) |}.

(** [generateDocumentNumber] up to the [await]: the request it issues,
    if it does. *)
Definition generateDocumentNumber_request (this : Manager) (page : Page) : option Request :=
  let companyId := page.(elements) !! "company_id" in
  let documentType := this.(currentDocumentType) in
  let documentNumberInput := page.(elements) !! "document_number" in
  match documentNumberInput with
  | None => None
  | Some value =>
      if negb (JS.truthy_opt companyId) || negb (JS.truthy_string documentType) then None
      else if JS.truthy_string (JS.trim value) then None
      else Some {| url := "/api/generate-document-number";
                   company_id := default "" companyId;
                   document_type := documentType |}
  end.

(** [generateDocumentNumber] after the [await], on the page as it is
    when the request ends. *)
Definition generateDocumentNumber_resume (outcome : FetchOutcome) (page : Page) : Page :=
  match outcome with
  | Response true (Some document_number) =>
      {| elements := alter (fun _ => document_number) "document_number" page.(elements);
         form_entries := page.(form_entries);
         uploaded_files := page.(uploaded_files) |}
  | _ => page
  end.

(** A whole run: the call, the user's edits while the request is
    pending, and the end of the request. *)
Definition generateDocumentNumber (this : Manager) (page : Page)
    (edits : list (string * string)) (outcome : FetchOutcome)
  : option Request * Page :=
  match generateDocumentNumber_request this page with
  | None => (None, page)
  | Some request =>
      (Some request,
       generateDocumentNumber_resume outcome (fold_left type_into edits page))
  end.

(** The property that a value typed while the request is pending
    survives the end of the request. *)
Definition response_spares_edits : Prop :=
  forall (this : Manager) (page : Page) (edits : list (string * string))
         (outcome : FetchOutcome) (v : string),
    (fold_left type_into edits page).(elements) !! "document_number" = Some v ->
    v <> "" ->
    (generateDocumentNumber this page edits outcome).2.(elements) !! "document_number"
      = Some v.

End DocumentCreation.

(** A runtime to run the controllers on concrete pages: numbers are
    spliced into messages as a placeholder. *)
Definition plain_runtime : JSRuntime := {| Number_toString := fun _ => "#" |}.

(** ** Sample pages and stores, for running the controllers *)

Module Samples.
Import DocumentCreation.

Definition sample_draft : DraftRecord :=
  {| timestamp := 1700000000000;
     documentType := "AMV";
     formData := {["title" := JSONString "Assay of tablets"; "files" := JSONStrings []]} |}.

Definition sample_storage : Storage :=
  {| items := {["documentDraft" := DraftJSON sample_draft]}; writable := true |}.

Definition sample_page : Page :=
  {| elements := {["title" := "Assay of tablets"; "company_id" := ""]};
     form_entries := Some [("title", Text "Assay of tablets"); ("company_id", Text "");
                           ("stp_file", FileEntry "")];
     uploaded_files := [] |}.

Definition blank_page : Page :=
  {| elements := {["title" := ""; "company_id" := ""]};
     form_entries := Some [("title", Text ""); ("company_id", Text "")];
     uploaded_files := [] |}.

Definition empty_storage : Storage := {| items := ∅; writable := true |}.

Definition numbering_page : Page :=
  {| elements := {["company_id" := "7"; "document_number" := ""]};
     form_entries := Some [("company_id", Text "7"); ("document_number", Text "")];
     uploaded_files := [] |}.

(** Three required file inputs, two of them without a file. *)
Definition upload_page : list FileUpload.FileInput :=
  [ {| FileUpload.name := "stp_file"; FileUpload.file_input_class := true;
       FileUpload.required := true; FileUpload.files := Some [];
       FileUpload.group_label := Some "STP File" |};
    {| FileUpload.name := "raw_data_file"; FileUpload.file_input_class := true;
       FileUpload.required := true; FileUpload.files := Some [];
       FileUpload.group_label := None |};
    {| FileUpload.name := "logo"; FileUpload.file_input_class := true;
       FileUpload.required := true; FileUpload.files := Some ["logo.png"];
       FileUpload.group_label := Some "Logo" |} ].

(** The UV fields of the AMV form: standard 10 at concentration 100,
    sample 5, sample concentration [target]. *)
Definition uv_form (target : string) : gmap string string :=
  {[ "uv_weight_standard" := "10";
     "uv_weight_sample" := "5";
     "uv_final_concentration_standard" := "100";
     "uv_final_concentration_sample" := target ]}.

(** A sample weight whose nearest binary64 value lies below it. *)
Definition tie_form : gmap string string :=
  {[ "uv_weight_standard" := "1";
     "uv_weight_sample" := "1.1115";
     "uv_final_concentration_standard" := "1";
     "uv_final_concentration_sample" := "" ]}.

(** Standard 3 at concentration 100, sample 2. *)
Definition thirds_form : gmap string string :=
  {[ "uv_weight_standard" := "3";
     "uv_weight_sample" := "2";
     "uv_final_concentration_standard" := "100";
     "uv_final_concentration_sample" := "" ]}.

(** The slice of 3 documents among 2000. *)
Definition small_slice : Dashboard.TooltipContext :=
  {| Dashboard.label := "A"; Dashboard.parsed := 3%float;
     Dashboard.dataset_data := [3%float; 1997%float] |}.

Definition wavelength_field (value : string) (attributes : gmap string string)
  : AMV.Input :=
  {| AMV.el_value := value; AMV.el_attributes := attributes |}.

(** A page with two check boxes, the first of them checked by hand. *)
Definition params_page : AMV.Page :=
  {| AMV.val_params :=
       [ {| AMV.cb_value := "accuracy"; AMV.checked := true |};
         {| AMV.cb_value := "range"; AMV.checked := false |} ];
     AMV.notification_hidden := Some true;
     AMV.info_messages := [] |}.

End Samples.

(** ** More of the runtime: text *)

Module JSText.

Definition toLowerCase_char (c : ascii) : ascii :=
  let n := N_of_ascii c in
  if ((65 <=? n) && (n <=? 90))%N then ascii_of_N (n + 32) else c.

(** [String.prototype.toLowerCase] on the ASCII letters. *)
Fixpoint toLowerCase (s : string) : string :=
  match s with
  | String c s' => String (toLowerCase_char c) (toLowerCase s')
  | EmptyString => EmptyString
  end.

(** [String.prototype.split] with a separator of one character. *)
Fixpoint split (sep : ascii) (s : string) : list string :=
  match s with
  | EmptyString => [""]
  | String c s' =>
      let r := split sep s' in
      if Ascii.eqb c sep then "" :: r
      else match r with
           | seg :: rest => String c seg :: rest
           | [] => [String c ""]
           end
  end.

(** Whether the character [sep] occurs in [s]. *)
Fixpoint occurs (sep : ascii) (s : string) : bool :=
  match s with
  | String c s' => Ascii.eqb c sep || occurs sep s'
  | EmptyString => false
  end.

(** Whether every character of [s] satisfies [p]. *)
Fixpoint every (p : ascii -> bool) (s : string) : bool :=
  match s with
  | String c s' => p c && every p s'
  | EmptyString => true
  end.

(** How often the character [c] occurs in [s]. *)
Fixpoint count (c : ascii) (s : string) : nat :=
  match s with
  | String c' s' => (if Ascii.eqb c' c then 1 else 0) + count c s'
  | EmptyString => 0
  end.

(** [Array.prototype.pop] on an array of strings: its last element. *)
Definition pop (l : list string) : string := List.last l "".

(** [Array.prototype.includes] on an array of strings. *)
Definition array_includes (l : list string) (x : string) : bool :=
  existsb (String.eqb x) l.

(** The names every object inherits from [Object.prototype].  Looking
    one of them up in an object literal that does not define it gives
    a function (for [__proto__], an object), never [undefined]. *)
Definition inherited : list string := map fst JS.inherited_members.

(** [table[key] || []] for an object literal whose values are arrays:
    the array of the key, the empty array for a key that is not there,
    and [None] for an inherited name, whose value is truthy and is no
    array. *)
Definition array_or_empty (table : gmap string (list string)) (key : string)
  : option (list string) :=
  match table !! key with
  | Some l => Some l
  | None => if array_includes inherited key then None else Some []
  end.

Fixpoint drop_chars (n : nat) (s : string) : string :=
  match n, s with
  | S n', String _ s' => drop_chars n' s'
  | _, _ => s
  end.

(** [String.prototype.replace] with a string pattern: the first
    occurrence of [pat] is replaced by [repl]. *)
Fixpoint replace (pat repl s : string) : string :=
  if String.prefix pat s then repl ++ drop_chars (String.length pat) s
  else match s with
       | String c s' => String c (replace pat repl s')
       | EmptyString => EmptyString
       end.

(** Word characters, as [\w] in a regular expression. *)
Definition is_word_char (c : ascii) : bool :=
  let n := N_of_ascii c in
  (((48 <=? n) && (n <=? 57)) || ((65 <=? n) && (n <=? 90))
   || ((97 <=? n) && (n <=? 122)) || (n =? 95))%N.

(** [s.replace(/\b\w/g, l => l.toUpperCase())]: every word character
    that starts a word is put in upper case; [prev] tells whether the
    character before is a word character. *)
Fixpoint capitalize_words_from (prev : bool) (s : string) : string :=
  match s with
  | String c s' =>
      let w := is_word_char c in
      String (if w && negb prev then JS.toUpperCase_char c else c)
             (capitalize_words_from w s')
  | EmptyString => EmptyString
  end.

Definition capitalize_words (s : string) : string := capitalize_words_from false s.

End JSText.

(** ** File upload: file checks and the selected files *)

Module Uploads.
Import FileUpload.

(** A file: its name and its size in bytes. *)
Record File := { file_name : string; file_size : Z }.

Definition maxFileSize : Z := 10 * 1024 * 1024.

Definition allowedTypes : gmap string (list string) :=
  list_to_map [
    ("stp_file", [".doc"; ".docx"]);
    ("raw_data_file", [".csv"; ".xlsx"; ".xls"]);
    ("logo", [".jpg"; ".jpeg"; ".png"; ".svg"]);
    ("signature", [".jpg"; ".jpeg"; ".png"; ".svg"])
  ].

(** ['.' + file.name.split('.').pop().toLowerCase()] *)
Definition extension_of (file_name : string) : string :=
  "." ++ JSText.toLowerCase (JSText.pop (JSText.split "." file_name)).

Section Checks.
(** [formatFileSize] goes through [Math.log] and is left abstract; it
    only renders the limit in the message. *)
Variable formatFileSize : Z -> string.

(** [validateFile]: the result and the messages handed to [showError].
    [fileType] is what [getFileTypeFromInput] gives: a kind of the
    table, or [null]. *)
Definition validateFile (file : File) (fileType : option string) : bool * list string :=
  if maxFileSize <? file.(file_size) then
    (false, ["File size must be less than " ++ formatFileSize maxFileSize])
  else
    match (if JS.truthy_opt fileType then allowedTypes !! default "" fileType else None) with
    | Some allowed =>
        let extension := extension_of file.(file_name) in
        if negb (JSText.array_includes allowed extension) then
          (false, ["Invalid file type. Allowed types: " ++ JS.join ", " allowed])
        else (true, [])
    | None => (true, [])
    end.

End Checks.

(** [getFileTypeFromInput], on the [id] and the [name] of the input. *)
Definition getFileTypeFromInput (input_id input_name : string) : option string :=
  let id := if JS.truthy_string input_id then input_id else input_name in
  if JS.includes id "stp" then Some "stp_file"
  else if JS.includes id "raw_data" || JS.includes id "data" then Some "raw_data_file"
  else if JS.includes id "logo" then Some "logo"
  else if JS.includes id "signature" then Some "signature"
  else None.

(** A file input together with its [id]. *)
Record FileElement := { input : FileInput; input_id : string }.

(** [input.name || input.id] *)
Definition key_of (el : FileElement) : string :=
  if JS.truthy_string el.(input).(name) then el.(input).(name) else el.(input_id).

(** One turn of the loop of [getUploadedFiles].  Assigning to the key
    [__proto__] sets the prototype of the object and adds no key. *)
Definition add_uploaded (files : gmap string string) (el : FileElement)
  : gmap string string :=
  if el.(input).(file_input_class) then
    match el.(input).(FileUpload.files) with
    | Some (file :: _) =>
        if String.eqb (key_of el) "__proto__" then files
        else <[key_of el := file]> files
    | _ => files
    end
  else files.

(** [getUploadedFiles]: for each input of class [file-input] that has a
    file, the first file under the key [name || id]; a later input
    with the same key replaces an earlier one. *)
Definition getUploadedFiles (document : list FileElement) : gmap string string :=
  fold_left add_uploaded document ∅.

(** [input.value = ''] on a file input empties its file list. *)
Definition clear_value (i : FileInput) : FileInput :=
  {| name := i.(name);
     file_input_class := i.(file_input_class);
     required := i.(required);
     FileUpload.files := (fun _ => []) <$> i.(FileUpload.files);
     group_label := i.(group_label) |}.

(** [resetAllFiles], on the file inputs of the page: those of class
    [file-input] go through [removeFile], the others are cleared
    directly; either way the value is emptied. *)
Definition resetAllFiles (document : list FileElement) : list FileElement :=
  map (fun el =>
         if el.(input).(file_input_class)
         then {| input := clear_value el.(input); input_id := el.(input_id) |}
         else match el.(input).(FileUpload.files) with
              | Some _ => {| input := clear_value el.(input); input_id := el.(input_id) |}
              | None => el
              end)
      document.

End Uploads.

(** ** Document creation: the form and its validation *)

Module CreationForm.

Inductive Tag := input_tag | select_tag | textarea_tag.

(** A control of the page: its tag, [id] and [name] (empty when not
    set), its value, whether it has the attribute [required] and the
    class [is-invalid], the text of the label of the enclosing [.mb-3]
    group, and whether it lies inside [#documentParameters]. *)
Record Element := {
  tag : Tag;
  id : string;
  name : string;
  value : string;
  required : bool;
  is_invalid : bool;
  group_label : option string;
  in_parameters : bool
}.

(** The page: its controls in document order, and whether it has the
    container [#documentParameters]. *)
Record FormPage := {
  elements : list Element;
  parameters_container : bool
}.

Definition set_invalid (b : bool) (e : Element) : Element :=
  {| tag := e.(tag); id := e.(id); name := e.(name); value := e.(value);
     required := e.(required); is_invalid := b;
     group_label := e.(group_label); in_parameters := e.(in_parameters) |}.

Definition set_required (b : bool) (e : Element) : Element :=
  {| tag := e.(tag); id := e.(id); name := e.(name); value := e.(value);
     required := b; is_invalid := e.(is_invalid);
     group_label := e.(group_label); in_parameters := e.(in_parameters) |}.

(** Applies [f] to the first element that satisfies [p]. *)
Fixpoint update_first (p : Element -> bool) (f : Element -> Element)
    (els : list Element) : list Element :=
  match els with
  | [] => []
  | e :: els' => if p e then f e :: els' else e :: update_first p f els'
  end.


Definition blank (e : Element) : bool := negb (JS.truthy_string (JS.trim e.(value))).



(** [input[required], select[required]] inside the container. *)
Definition required_parameter (e : Element) : bool :=
  e.(in_parameters) && e.(required)
  && match e.(tag) with input_tag | select_tag => true | textarea_tag => false end.

Definition label_of (e : Element) : string :=
  if JS.truthy_opt e.(group_label) then default "" e.(group_label) else e.(name).

(** [validateDocumentTypeFields]: the errors and the page afterwards. *)
Definition validateDocumentTypeFields (currentDocumentType : string) (page : FormPage)
  : list string * FormPage :=
  if negb page.(parameters_container) then ([], page)
  else
    let errors :=
      fold_left
        (fun (errors : list string) field =>
           if required_parameter field && blank field then
             app errors [label_of field ++ " is required for "
                           ++ currentDocumentType ++ " documents"]
           else errors)
        page.(elements) [] in
    (errors,
     {| elements :=
          map (fun field =>
                 if required_parameter field then set_invalid (blank field) field
                 else field)
              page.(elements);
        parameters_container := page.(parameters_container) |}).

(** How the manager shows an error: through the upload manager when
    the page has one, in an alert otherwise. *)
Inductive Shown := ShowError (message : string) | Alert (message : string).



(** The fields each document type requires. *)
Definition requirements : gmap string (list string) :=
  list_to_map [
    ("AMV", ["active_ingredient"; "analytical_method"]);
    ("PV", ["process_name"; "batch_size"]);
    ("Stability", ["study_type"; "storage_conditions"]);
    ("Degradation", ["degradation_type"; "stress_conditions"]);
    ("Compatibility", ["drug_name"; "excipients"; "storage_conditions"; "duration"])
  ].

Definition is_input_or_select (e : Element) : bool :=
  match e.(tag) with input_tag | select_tag => true | textarea_tag => false end.

(** [setDocumentTypeRequirements].  A document type that is an
    inherited name of objects has no rule either; the call then throws
    at the second loop, leaving the page as the first loop made it,
    which is the page given here. *)
Definition setDocumentTypeRequirements (currentDocumentType : string) (page : FormPage)
  : FormPage :=
  if negb page.(parameters_container) then page
  else
    let currentReqs := default [] (requirements !! currentDocumentType) in
    let cleared :=
      map (fun field =>
             if field.(in_parameters) && is_input_or_select field
             then set_required false field else field)
          page.(elements) in
    {| elements :=
         fold_left
           (fun els fieldName =>
              update_first
                (fun e => e.(in_parameters) && String.eqb e.(name) fieldName)
                (set_required true) els)
           currentReqs cleared;
       parameters_container := page.(parameters_container) |}.



(** What [setDocumentTypeRequirements] does to one element when the
    rule of the type is [reqs]. *)
Definition apply_requirements (reqs : list string) (e : Element) : Element :=
  if e.(in_parameters) then
    if bool_decide (e.(name) ∈ reqs) then set_required true e
    else if is_input_or_select e then set_required false e else e
  else e.

End CreationForm.

(** ** Document creation: submission *)

Module Submission.
Import DocumentCreation.

(** The double quote, for the markup of the button. *)
Definition dq : string := String "034" "".

(** The JSON body of the answer of [/documents/create]; [document_id]
    is kept as the template literal renders it. *)
Record Result := {
  success : bool;
  redirect_url : option string;
  document_id : string;
  error : option string
}.


Record Button := { disabled : bool; innerHTML : string }.

Inductive Effect :=
| Shown (s : CreationForm.Shown)
| SetLoading (isLoading : bool)
| ShowProgress (status : string) (progress : Z)
| HideProgress
| Post (url : string)
| ConsoleError
| NavigateLater (url : string).





End Submission.

(** ** AMV form: more of the controller *)

Module AMVForm.
Import AMV.

(** *** Regular expressions of the shape used for e-mail addresses *)

(** A piece of a pattern: one literal character, or one or more
    characters of a class. *)
Inductive Piece :=
| Lit (c : ascii)
| Plus (class : ascii -> bool).

(** [new RegExp('^' + pieces + '$').test(s)], by backtracking. *)
Fixpoint regex_test (pieces : list Piece) (s : string) : bool :=
  match pieces with
  | [] => match s with EmptyString => true | String _ _ => false end
  | Lit c :: rest =>
      match s with
      | String c' s' => Ascii.eqb c' c && regex_test rest s'
      | EmptyString => false
      end
  | Plus class :: rest =>
      (fix plus (s : string) : bool :=
         match s with
         | String c s' => class c && (regex_test rest s' || plus s')
         | EmptyString => false
         end) s
  end.

(** [[^\s@]] *)
Definition not_space_or_at (c : ascii) : bool :=
  negb (JS.is_white_space c || Ascii.eqb c "@").

(** [/^[^\s@]+@[^\s@]+\.[^\s@]+$/] *)
Definition emailRegex : list Piece :=
  [Plus not_space_or_at; Lit "@"; Plus not_space_or_at; Lit "."; Plus not_space_or_at].

Section Controller.
Context `{JSRuntime}.

(** *** Required fields per instrument *)

Definition getRequiredFieldsForInstrument (instrumentType : string)
  : option (list string) :=
  JSText.array_or_empty
    (list_to_map [
       ("uv", ["uv_wavelength"]);
       ("aas", ["uv_wavelength"]);
       ("hplc", ["hplc_wavelength"; "hplc_flow_rate"]);
       ("gc", ["hplc_wavelength"; "hplc_flow_rate"]);
       ("titration", ["titration_reference_volume"])
     ])
    instrumentType.

Definition labels : gmap string string :=
  list_to_map [
    ("document_title", "Document Title");
    ("product_name", "Product Name");
    ("label_claim", "Label Claim");
    ("active_ingredient", "Active Ingredient");
    ("stp_file", "STP File");
    ("method_analysis_file", "Method Analysis File");
    ("uv_wavelength", "Wavelength");
    ("hplc_wavelength", "Wavelength");
    ("hplc_flow_rate", "Flow Rate");
    ("titration_reference_volume", "Reference Volume")
  ].

(** [getFieldLabel], for a field name that is no inherited name. *)
Definition getFieldLabel (fieldName : string) : string :=
  match labels !! fieldName with
  | Some label => label
  | None => JSText.capitalize_words (JSText.replace "_" " " fieldName)
  end.

(** A field of a parameter section: the input, and whether it is
    hidden ([offsetParent === null]). *)
Record ParamField := { input : Input; hidden : bool }.

(** One turn of the loop of [validateInstrumentParameters]: the errors
    so far and the feedback given to fields, by name. *)
Definition check_parameter (instrumentType : string)
    (paramSection : gmap string ParamField)
    (st : list string * list (string * Feedback)) (fieldName : string)
  : list string * list (string * Feedback) :=
  let '(errors, feedback) := st in
  match paramSection !! fieldName with
  | Some field =>
      if field.(hidden) then st
      else if JS.includes fieldName "wavelength" then
        let '(valid, shown) := validateWavelengthField (Some field.(input)) in
        (if negb valid then
           app errors [getFieldLabel fieldName ++ " is invalid for "
                         ++ JS.toUpperCase instrumentType]
         else errors,
         app feedback (pair fieldName <$> shown))
      else if negb (JS.truthy_string (JS.trim field.(input).(el_value))) then
        (app errors [getFieldLabel fieldName ++ " is required for "
                       ++ JS.toUpperCase instrumentType],
         app feedback [(fieldName, showFieldError "This field is required")])
      else st
  | None => st
  end.

(** [validateInstrumentParameters]: the errors and the feedback given
    to fields, by name.  [sections] maps the id of a parameter section
    to its fields, by name.  [None] when the call throws: the required
    fields are no array. *)
Definition validateInstrumentParameters (instrumentType : string)
    (sections : gmap string (gmap string ParamField))
  : option (list string * list (string * Feedback)) :=
  match sections !! (instrumentType ++ "-params") with
  | None => Some ([], [])
  | Some paramSection =>
      match getRequiredFieldsForInstrument instrumentType with
      | Some requiredFields =>
          Some (fold_left (check_parameter instrumentType paramSection)
                  requiredFields ([], []))
      | None => None
      end
  end.

(** *** Validation of one field on blur *)

(** A field as [validateField] reads it. *)
Record TypedField := {
  t_value : string;
  t_name : string;
  t_type : string;
  t_required : bool
}.

Definition validateField (field : TypedField) : bool * list Feedback :=
  let value := JS.trim field.(t_value) in
  if field.(t_required) && negb (JS.truthy_string value) then
    (false, [showFieldError "This field is required"])
  else
    let number_error :=
      if String.eqb field.(t_type) "number" && JS.truthy_string value then
        let num := JS.parseFloat value in
        if JS.isNaN num then Some "Please enter a valid number"
        else if (num <? 0)%float
                && negb (JS.includes field.(t_name) "weight")
                && negb (JS.includes field.(t_name) "volume")
        then Some "Value must be positive"
        else None
      else None in
    match number_error with
    | Some message => (false, [showFieldError message])
    | None =>
        if String.eqb field.(t_type) "email" && JS.truthy_string value
           && negb (regex_test emailRegex value)
        then (false, [showFieldError "Please enter a valid email address"])
        else (true, [clearFieldError])
    end.

(** *** Parameters extracted from the method file *)

(** A value of the [parameters] object: a number, a string, or
    anything else. *)
Inductive ParamValue :=
| PNumber (x : float)
| PString (s : string)
| POther.

(** [getFieldMapping], read at the keys of the extracted parameters.
    A key that is an inherited name of objects gives a value whose
    text names no field, as a key that is not there. *)
Definition getFieldMapping (currentInstrument : option string) : gmap string string :=
  let hplc := bool_decide (currentInstrument = Some "hplc") in
  list_to_map [
    ("wavelength", if hplc then "hplc_wavelength" else "uv_wavelength");
    ("flow_rate", "hplc_flow_rate");
    ("injection_volume", "hplc_injection_volume");
    ("weight_standard", if hplc then "hplc_weight_standard" else "uv_weight_standard");
    ("weight_sample", if hplc then "hplc_weight_sample" else "uv_weight_sample");
    ("concentration",
     if hplc then "hplc_final_concentration_standard"
     else "uv_final_concentration_standard")
  ].

(** The text a field receives from a value. *)
Definition value_text (v : ParamValue) : option string :=
  match v with
  | PNumber x => Some (Number_toString x)
  | PString s => Some s
  | POther => None
  end.

(** The value a field holds after [field.value = text]: the text
    itself in a text input; a number input or a select may hold
    something else, so this is left to the page. *)
Variable assigned : string -> string -> string.

(** One turn of the loop of [populateExtractedParameters].  [doc] gives
    the value of the first element of each name. *)
Definition populate_entry (currentInstrument : option string)
    (doc : gmap string string) (entry : string * ParamValue) : gmap string string :=
  match value_text entry.2 with
  | Some text =>
      match getFieldMapping currentInstrument !! entry.1 with
      | Some fieldName =>
          match doc !! fieldName with
          | Some v =>
              if negb (JS.truthy_string v)
              then <[fieldName := assigned fieldName text]> doc
              else doc
          | None => doc
          end
      | None => doc
      end
  | None => doc
  end.

Definition populateExtractedParameters (currentInstrument : option string)
    (parameters : list (string * ParamValue)) (doc : gmap string string)
  : gmap string string :=
  fold_left (populate_entry currentInstrument) parameters doc.

End Controller.

(** *** Files chosen in the AMV form *)

(** A chosen file: name, size in bytes and MIME type. *)
Record ChosenFile := { file : Uploads.File; mime : string }.

Definition getAllowedFileTypes (fieldName : string) : option (list string) :=
  JSText.array_or_empty
    (list_to_map [
       ("stp_file", [".doc"; ".docx"]);
       ("method_analysis_file", [".pdf"]);
       ("raw_data_file", [".csv"; ".xls"; ".xlsx"])
     ])
    fieldName.

Definition isAllowedExtension (filename : string) (allowedTypes : list string) : bool :=
  JSText.array_includes allowedTypes (Uploads.extension_of filename).

(** What [handleFileUpload] leaves behind: the files still in the
    input, the feedback on it, the file written into the placeholder
    next to the input and whether the form data was saved. *)
Record Uploaded := {
  files_after : list ChosenFile;
  feedback : list Feedback;
  placeholder : option ChosenFile;
  saved : bool
}.

(** [handleFileUpload], on the name of the input and its files.
    [None] when the call throws: the allowed types are no array. *)
Definition handleFileUpload (input_name : string) (files : list ChosenFile)
  : option Uploaded :=
  match files with
  | [] => Some {| files_after := files; feedback := []; placeholder := None;
                  saved := false |}
  | f :: _ =>
      match getAllowedFileTypes input_name with
      | None => None
      | Some allowedTypes =>
          if negb (JSText.array_includes allowedTypes f.(mime))
             && negb (isAllowedExtension f.(file).(Uploads.file_name) allowedTypes)
          then Some {| files_after := [];
                       feedback := [showFieldError "Invalid file type"];
                       placeholder := None; saved := false |}
          else if 10 * 1024 * 1024 <? f.(file).(Uploads.file_size)
          then Some {| files_after := [];
                       feedback := [showFieldError "File size must be less than 10MB"];
                       placeholder := None; saved := false |}
          else Some {| files_after := files; feedback := [clearFieldError];
                       placeholder := Some f; saved := true |}
      end
  end.

End AMVForm.

(** ** The login page *)

Module Login.

(** The double quote, for the markup of the button. *)
Definition dq : string := String "034" "".

(** The answer of [/auth/verify] as the handlers read it: whether
    [success] is truthy, and [error]: [None] when it is falsy, else
    the text it converts to. *)
Record Result := { success : bool; error : option string }.

(** How far a login gets.  A step that fails throws a value; what is
    kept of it is its [message], if it has one.  The answer counts as
    unreadable when reading the body throws or its value has no
    properties. *)
Inductive Attempt :=
| SignInFailed (message : option string)
| TokenFailed (message : option string)
| VerifyUnreachable (idToken : string) (message : option string)
| AnswerUnreadable (idToken : string) (message : option string)
| Answer (idToken : string) (result : Result).

Record Button := { disabled : bool; innerHTML : string }.

(** The parts of the page the handlers write. *)
Record Page := {
  loginBtn : Button;
  loginError_hidden : bool;
  errorMessage : string
}.

Inductive Effect :=
| SignInWithEmailAndPassword (email password : string)
| SignInWithPopup
| GetIdToken
| Post (url idToken : string)
| Navigate (url : string).

Definition loading : Button :=
  {| disabled := true;
     innerHTML := "<i class=" ++ dq ++ "fas fa-spinner fa-spin mr-2" ++ dq
                    ++ "></i>Logging in..." |}.

Definition ready : Button :=
  {| disabled := false;
     innerHTML := "<i class=" ++ dq ++ "fas fa-sign-in-alt mr-2" ++ dq
                    ++ "></i>Login" |}.

(** The [try] block after the sign-in call: the calls made, and the
    message of the error thrown, if any. *)
Definition verify (attempt : Attempt) : list Effect * option (option string) :=
  match attempt with
  | SignInFailed message => ([], Some message)
  | TokenFailed message => ([GetIdToken], Some message)
  | VerifyUnreachable idToken message =>
      ([GetIdToken; Post "/auth/verify" idToken], Some message)
  | AnswerUnreadable idToken message =>
      ([GetIdToken; Post "/auth/verify" idToken], Some message)
  | Answer idToken result =>
      if result.(success) then
        ([GetIdToken; Post "/auth/verify" idToken; Navigate "/dashboard/"], None)
      else
        ([GetIdToken; Post "/auth/verify" idToken],
         Some (Some (default "Login failed" result.(error))))
  end.

(** The [submit] handler of the login form. *)
Definition loginForm_submit (email password : string) (attempt : Attempt) (page : Page)
  : Page * list Effect :=
  let '(calls, thrown) := verify attempt in
  let page :=
    {| loginBtn := loading; loginError_hidden := true;
       errorMessage := page.(errorMessage) |} in
  let page :=
    match thrown with
    | Some message =>
        {| loginBtn := page.(loginBtn); loginError_hidden := false;
           errorMessage := if JS.truthy_opt message then default "" message
                           else "Login failed. Please try again." |}
    | None => page
    end in
  ({| loginBtn := ready; loginError_hidden := page.(loginError_hidden);
      errorMessage := page.(errorMessage) |},
   SignInWithEmailAndPassword email password :: calls).

(** The [click] handler of the Google button. *)
Definition googleLogin_click (attempt : Attempt) (page : Page) : Page * list Effect :=
  let '(calls, thrown) := verify attempt in
  (match thrown with
   | Some _ =>
       {| loginBtn := page.(loginBtn); loginError_hidden := false;
          errorMessage := "Google login failed. Please try again." |}
   | None => page
   end,
   SignInWithPopup :: calls).

End Login.

(** ** More sample pages *)

Module MoreSamples.

Definition creation_page : CreationForm.FormPage :=
  {| CreationForm.elements :=
       [ {| CreationForm.tag := CreationForm.input_tag; CreationForm.id := "title";
            CreationForm.name := "title"; CreationForm.value := "Assay of tablets";
            CreationForm.required := false; CreationForm.is_invalid := false;
            CreationForm.group_label := Some "Title"; CreationForm.in_parameters := false |};
         {| CreationForm.tag := CreationForm.select_tag; CreationForm.id := "company_id";
            CreationForm.name := "company_id"; CreationForm.value := "";
            CreationForm.required := false; CreationForm.is_invalid := false;
            CreationForm.group_label := Some "Company"; CreationForm.in_parameters := false |};
         {| CreationForm.tag := CreationForm.input_tag; CreationForm.id := "";
            CreationForm.name := "process_name"; CreationForm.value := "";
            CreationForm.required := false; CreationForm.is_invalid := false;
            CreationForm.group_label := Some "Process Name"; CreationForm.in_parameters := true |};
         {| CreationForm.tag := CreationForm.input_tag; CreationForm.id := "";
            CreationForm.name := "active_ingredient"; CreationForm.value := "";
            CreationForm.required := true; CreationForm.is_invalid := false;
            CreationForm.group_label := None; CreationForm.in_parameters := true |} ];
     CreationForm.parameters_container := true |}.


Definition extracted : list (string * AMVForm.ParamValue) :=
  [ ("wavelength", AMVForm.PString "254");
    ("flow_rate", AMVForm.PString "1.0");
    ("column", AMVForm.PString "C18");
    ("validated", AMVForm.POther) ].

Definition hplc_form : gmap string string :=
  {[ "hplc_wavelength" := ""; "hplc_flow_rate" := "0.8"; "uv_wavelength" := "" ]}.

Definition uv_sections : gmap string (gmap string AMVForm.ParamField) :=
  {[ "uv-params" :=
       {[ "uv_wavelength" :=
            {| AMVForm.input := {| AMV.el_value := "";
                                   AMV.el_attributes := {["min" := "190"; "max" := "800"]} |};
               AMVForm.hidden := false |} ]} ]}.


End MoreSamples.

(** * Properties *)

(** ** Runtime facts *)

Lemma truthy_string_false (s : string) : JS.truthy_string s = false <-> s = "".
Proof. destruct s; simpl; split; congruence. Qed.

Lemma truthy_string_true (s : string) : JS.truthy_string s = true <-> s <> "".
Proof. destruct s; simpl; split; congruence. Qed.

Lemma truthy_opt_false (o : option string) :
  JS.truthy_opt o = false <-> o = None \/ o = Some "".
Proof.
  destruct o as [s|]; simpl.
  - rewrite truthy_string_false. split.
    + intros ->. now right.
    + intros [?|?]; congruence.
  - split; auto.
Qed.

Lemma truthy_opt_true (o : option string) :
  JS.truthy_opt o = true <-> exists s, o = Some s /\ s <> "".
Proof.
  destruct o as [s|]; simpl.
  - rewrite truthy_string_true. split.
    + intros Hs. now exists s.
    + intros (s' & [= ->] & Hs). exact Hs.
  - split; [discriminate | intros (s & ? & _); discriminate].
Qed.

(** ** Document creation: drafts *)

Section DraftFacts.
Import DocumentCreation Samples.

(** C1. A stored draft record older than 24 hours is removed and
    [loadDraft] answers [false] without asking; a record of at most 24
    hours is offered to the user through the confirmation dialog, is
    restored exactly when the user accepts, and stays in storage. *)
Theorem loadDraft_age_gate (now : Z) (confirm : string -> bool)
    (st : Storage) (d : DraftRecord) :
  getItem st "documentDraft" = Some (DraftJSON d) ->
  let r := loadDraft now confirm st in
  let message := "A draft document was found. Would you like to restore it?" in
  (now - d.(timestamp) > 24 * 60 * 60 * 1000 ->
     returned r = false /\ events r = [] /\
     storage_after r = clearDraft st /\
     getItem (storage_after r) "documentDraft" = None) /\
  (now - d.(timestamp) <= 24 * 60 * 60 * 1000 ->
     storage_after r = st /\
     getItem (storage_after r) "documentDraft" = Some (DraftJSON d) /\
     returned r = confirm message /\
     events r = Confirm message :: (if confirm message then [RestoreDraft d] else [])).
Proof.
  intros Hget r message. subst r. unfold loadDraft. rewrite Hget. simpl.
  split; intros Hage.
  - apply Z.gt_lt, Z.ltb_lt in Hage. rewrite Hage. simpl.
    repeat split. unfold getItem, clearDraft, removeItem. simpl.
    apply lookup_delete_eq.
  - apply Z.ltb_ge in Hage. rewrite Hage.
    fold message. destruct (confirm message); simpl; repeat split; exact Hget.
Qed.

Lemma loadDraft_age_gate_witness :
  getItem sample_storage "documentDraft" = Some (DraftJSON sample_draft) /\
  returned (loadDraft (1700000000000 + 86400001) (fun _ => true) sample_storage) = false /\
  returned (loadDraft (1700000000000 + 86400000) (fun _ => true) sample_storage) = true.
Proof.
  assert (Hget : getItem sample_storage "documentDraft" = Some (DraftJSON sample_draft))
    by reflexivity.
  split; [exact Hget|]. split.
  - destruct (loadDraft_age_gate (1700000000000 + 86400001) (fun _ => true)
                sample_storage sample_draft Hget) as [Hold _].
    apply Hold. simpl. lia.
  - destruct (loadDraft_age_gate (1700000000000 + 86400000) (fun _ => true)
                sample_storage sample_draft Hget) as [_ Hfresh].
    apply Hfresh. simpl. lia.
Defined.

(** Collecting the form entries throws only after a file has been
    assigned to [__proto__]. *)
Lemma assign_without_prototype (form : list (string * FormDataEntryValue))
    (c : Collecting) :
  (forall f, ("__proto__", FileEntry f) ∉ form) ->
  thrown c = false -> inherits_file c = false ->
  thrown (fold_left assign form c) = false
  /\ inherits_file (fold_left assign form c) = false
  /\ forall key,
       own (fold_left assign form c) !! key
       = if String.eqb key "__proto__" then own c !! key
         else match submitted key form with
              | Some value => Some (Entry value)
              | None => own c !! key
              end.
Proof.
  revert c. induction form as [|[k v] form IH]; intros c Hnone Ht Hi.
  - repeat split; try assumption. intros key. simpl. now destruct (String.eqb key _).
  - assert (Hrest : forall f, ("__proto__", FileEntry f) ∉ form).
    { intros f Hin. apply (Hnone f). now right. }
    cbn [fold_left]. unfold assign at 2 4 6. rewrite Ht, Hi. cbn [fst snd andb].
    destruct (String.eqb k "__proto__") eqn:Hk.
    + apply String.eqb_eq in Hk as ->.
      destruct v as [text|f]; [|exfalso; apply (Hnone f); now left].
      destruct (IH {| own := own c; inherits_file := false; thrown := false |}
                  Hrest eq_refl eq_refl) as (Hthrown & Hfile & Hown).
      repeat split; try assumption.
      intros key. rewrite Hown. cbn [own submitted fst snd].
      destruct (String.eqb key "__proto__") eqn:Hkey; [reflexivity|].
      destruct (submitted key form); [reflexivity|].
      rewrite String.eqb_sym, Hkey. reflexivity.
    + destruct (IH {| own := <[k := Entry v]> (own c); inherits_file := false;
                      thrown := false |} Hrest eq_refl eq_refl)
        as (Hthrown & Hfile & Hown).
      repeat split; try assumption.
      intros key. rewrite Hown. cbn [own submitted fst snd].
      destruct (String.eqb key "__proto__") eqn:Hkey.
      * apply String.eqb_eq in Hkey as ->. apply String.eqb_neq in Hk.
        now rewrite lookup_insert_ne.
      * destruct (submitted key form); [reflexivity|].
        destruct (String.eqb k key) eqn:Hkk.
        -- apply String.eqb_eq in Hkk as ->. now rewrite lookup_insert_eq.
        -- apply String.eqb_neq in Hkk. now rewrite lookup_insert_ne.
Qed.

Lemma updateFormData_returns (page : Page) (this : Manager) :
  (forall form f, form_entries page = Some form -> ("__proto__", FileEntry f) ∉ form) ->
  (updateFormData page this).2 = false.
Proof.
  intros Hnone. unfold updateFormData.
  destruct (form_entries page) as [form|]; [|reflexivity].
  destruct (assign_without_prototype form
              {| own := ∅; inherits_file := false; thrown := false |}
              (fun f => Hnone form f eq_refl) eq_refl eq_refl) as (-> & _).
  reflexivity.
Qed.

(** C7. Whichever trigger fires, the 30-second timer or the unload
    hook, a draft is written only when the title or the company
    identifier is non-empty; when both are empty or absent nothing is
    written and the manager is left as it was.  When there is content
    and storage accepts the write, the record is stored, with the form
    data as JSON keeps them; the one exception is a form in which
    collecting the entries throws, which takes a file input named
    [__proto__], and then storage is left as it was. *)
Theorem autoSave_requires_content (t : AutoSaveTrigger) (now : Z)
    (page : Page) (this : Manager) (st : Storage) :
  let title := page.(elements) !! "title" in
  let companyId := page.(elements) !! "company_id" in
  let r := on_trigger t now page this st in
  ((title = None \/ title = Some "") -> (companyId = None \/ companyId = Some "") ->
     r = (this, st)) /\
  (r.2 <> st ->
     exists s, s <> "" /\ (title = Some s \/ companyId = Some s)) /\
  ((exists s, s <> "" /\ (title = Some s \/ companyId = Some s)) ->
     writable st = true ->
     getItem r.2 "documentDraft" =
       if (updateFormData page this).2 then getItem st "documentDraft"
       else
         Some (DraftJSON {| timestamp := now;
                            documentType := this.(currentDocumentType);
                            formData :=
                              JSON_of <$> (updateFormData page this).1.(mgr_formData) |})) /\
  ((forall form f, form_entries page = Some form -> ("__proto__", FileEntry f) ∉ form) ->
     (updateFormData page this).2 = false).
Proof.
  intros title companyId r.
  assert (Hr : r = autoSaveDraft now page this st) by (subst r; now destruct t).
  clearbody r. subst r. unfold autoSaveDraft, hasFormData. fold title companyId.
  split; [|split; [|split]].
  - intros Ht Hc. apply truthy_opt_false in Ht, Hc. now rewrite Ht, Hc.
  - intros Hne.
    destruct (JS.truthy_opt title) eqn:Ht.
    + apply truthy_opt_true in Ht as (s & Hs & Hn). exists s. auto.
    + destruct (JS.truthy_opt companyId) eqn:Hc.
      * apply truthy_opt_true in Hc as (s & Hs & Hn). exists s. auto.
      * simpl in Hne. now contradiction Hne.
  - intros (s & Hn & Hs) Hw.
    assert (Hcontent : JS.truthy_opt title || JS.truthy_opt companyId = true).
    { apply orb_true_iff. destruct Hs as [Hs|Hs]; [left|right];
        apply truthy_opt_true; now exists s. }
    rewrite Hcontent. cbn [negb].
    assert (Htype : currentDocumentType (updateFormData page this).1
                    = currentDocumentType this).
    { unfold updateFormData. destruct (form_entries page); [|reflexivity].
      now destruct (thrown _). }
    destruct (updateFormData page this) as [m thrown] eqn:Hupdate.
    cbn [fst snd] in *. destruct thrown; [reflexivity|].
    unfold setItem. rewrite Hw. cbn [snd]. unfold getItem. cbn [items].
    now rewrite lookup_insert_eq, Htype.
  - apply updateFormData_returns.
Qed.

Lemma autoSave_requires_content_witness :
  on_trigger BeforeUnload 1700000000000 blank_page new_manager empty_storage
    = (new_manager, empty_storage) /\
  is_Some (getItem
    (on_trigger Timer30s 1700000000000 sample_page new_manager empty_storage).2
    "documentDraft").
Proof.
  split.
  - apply (autoSave_requires_content BeforeUnload 1700000000000 blank_page
             new_manager empty_storage); right; reflexivity.
  - destruct (autoSave_requires_content Timer30s 1700000000000 sample_page
                new_manager empty_storage) as (_ & _ & Hsave & _).
    rewrite Hsave.
    + eexists. reflexivity.
    + exists "Assay of tablets". split; [discriminate | left; reflexivity].
    + reflexivity.
Defined.

End DraftFacts.

(** ** Document creation: document numbers *)

Section NumberingFacts.
Import DocumentCreation Samples.

Lemma type_into_lookup_is_Some (edits : list (string * string)) (page : Page) (id : string) :
  is_Some ((fold_left type_into edits page).(elements) !! id)
  <-> is_Some (page.(elements) !! id).
Proof.
  revert page. induction edits as [|edit edits IH]; intros page; simpl.
  - reflexivity.
  - rewrite IH. unfold type_into. simpl.
    destruct (decide (edit.1 = id)) as [->|Hne].
    + rewrite lookup_alter_eq. apply fmap_is_Some.
    + now rewrite lookup_alter_ne.
Qed.

(** C3, as amended.  A request is issued only when a company
    identifier and a document type are set and the document-number
    field is empty (blank) at the time of the call; the request carries
    that company and type.  Without a request the page is untouched.
    When an OK response with a number arrives, the field is set to that
    number whatever it holds by then; any other end of the request
    leaves the page as the user has it. *)
Theorem generateDocumentNumber_spec (this : Manager) (page : Page)
    (edits : list (string * string)) (outcome : FetchOutcome) :
  let pending := fold_left type_into edits page in
  let run := generateDocumentNumber this page edits outcome in
  (forall request, generateDocumentNumber_request this page = Some request ->
     exists companyId value,
       page.(elements) !! "company_id" = Some companyId /\ companyId <> "" /\
       this.(currentDocumentType) <> "" /\
       page.(elements) !! "document_number" = Some value /\ JS.trim value = "" /\
       request = {| url := "/api/generate-document-number";
                    company_id := companyId;
                    document_type := this.(currentDocumentType) |}) /\
  (generateDocumentNumber_request this page = None -> run = (None, page)) /\
  (forall request n,
     generateDocumentNumber_request this page = Some request ->
     outcome = Response true (Some n) ->
     run.1 = Some request /\ run.2.(elements) !! "document_number" = Some n) /\
  (forall request,
     generateDocumentNumber_request this page = Some request ->
     (forall n, outcome <> Response true (Some n)) ->
     run = (Some request, pending)).
Proof.
  intros pending run. subst run pending. unfold generateDocumentNumber.
  split; [|split; [|split]].
  - intros request. unfold generateDocumentNumber_request.
    destruct (elements page !! "document_number") as [value|] eqn:Hnum; [|discriminate].
    destruct (JS.truthy_opt (elements page !! "company_id")) eqn:Hc; [|discriminate].
    destruct (JS.truthy_string (currentDocumentType this)) eqn:Ht; [|discriminate].
    destruct (JS.truthy_string (JS.trim value)) eqn:Hv; [discriminate|].
    simpl. intros [= <-].
    apply truthy_opt_true in Hc as (companyId & Hcid & Hne).
    exists companyId, value. rewrite Hcid. simpl.
    repeat split; try assumption.
    + now apply truthy_string_true.
    + now apply truthy_string_false.
  - now intros ->.
  - intros request n Hreq ->. rewrite Hreq. simpl. split; [reflexivity|].
    rewrite lookup_alter_eq.
    assert (Hsome : is_Some (elements (fold_left type_into edits page)
                               !! "document_number")).
    { apply type_into_lookup_is_Some.
      unfold generateDocumentNumber_request in Hreq.
      destruct (elements page !! "document_number"); [eauto | discriminate]. }
    destruct Hsome as [v ->]. reflexivity.
  - intros request Hreq Hout. rewrite Hreq. f_equal.
    destruct outcome as [|[] [n|]]; try reflexivity.
    now contradiction (Hout n).
Qed.

Lemma generateDocumentNumber_spec_witness :
  generateDocumentNumber_request new_manager numbering_page
    = Some {| url := "/api/generate-document-number";
              company_id := "7"; document_type := "AMV" |} /\
  (generateDocumentNumber new_manager numbering_page
     [("document_number", "QC/2025/014")] (Response true (Some "AMV-0001"))).2.(elements)
    !! "document_number" = Some "AMV-0001".
Proof.
  assert (Hreq : generateDocumentNumber_request new_manager numbering_page
                 = Some {| url := "/api/generate-document-number";
                           company_id := "7"; document_type := "AMV" |})
    by reflexivity.
  split; [exact Hreq|].
  destruct (generateDocumentNumber_spec new_manager numbering_page
              [("document_number", "QC/2025/014")] (Response true (Some "AMV-0001")))
    as (_ & _ & Hok & _).
  apply (Hok _ _ Hreq eq_refl).
Defined.

(** C3, as stated, fails: a number typed while the request is pending
    is replaced by the number the server returns. *)
Lemma generateDocumentNumber_overwrites_edit : ~ response_spares_edits.
Proof.
  intros Hspares.
  specialize (Hspares new_manager numbering_page
                [("document_number", "QC/2025/014")]
                (Response true (Some "AMV-0001")) "QC/2025/014").
  vm_compute in Hspares.
  specialize (Hspares eq_refl ltac:(discriminate)). discriminate.
Qed.

End NumberingFacts.

(** ** File upload: required files *)

Section StringFacts.

Lemma prefix_app (a b : string) : String.prefix a (a ++ b) = true.
Proof.
  induction a as [|c a IH]; simpl.
  - now destruct b.
  - destruct (ascii_dec c c) as [_|Hne]; [exact IH | now contradiction Hne].
Qed.

Lemma append_empty_r (a : string) : a ++ "" = a.
Proof.
  induction a as [|c a IH]; [reflexivity|].
  change (String c (a ++ "") = String c a). now rewrite IH.
Qed.

Lemma includes_unfold (s sub : string) :
  JS.includes s sub
  = String.prefix sub s
    || match s with String _ s' => JS.includes s' sub | EmptyString => false end.
Proof. now destruct s. Qed.

Lemma includes_prefix (sub t : string) : JS.includes (sub ++ t) sub = true.
Proof. now rewrite includes_unfold, prefix_app. Qed.

Lemma includes_self (s : string) : JS.includes s s = true.
Proof. rewrite <- (append_empty_r s) at 1. apply includes_prefix. Qed.

Lemma includes_skip (a s sub : string) :
  JS.includes s sub = true -> JS.includes (a ++ s) sub = true.
Proof.
  intros Hs. induction a as [|c a IH].
  - exact Hs.
  - change (String c a ++ s) with (String c (a ++ s)).
    rewrite includes_unfold, IH. apply orb_true_r.
Qed.

Lemma join_includes (sep x : string) (l : list string) :
  x ∈ l -> JS.includes (JS.join sep l) x = true.
Proof.
  induction l as [|y l IH]; intros Hin.
  - now apply elem_of_nil in Hin.
  - apply elem_of_cons in Hin as [->|Hin].
    + destruct l; simpl; [apply includes_self | apply includes_prefix].
    + specialize (IH Hin). destruct l as [|z l].
      * now apply elem_of_nil in Hin.
      * change (JS.join sep (y :: z :: l)) with (y ++ sep ++ JS.join sep (z :: l)).
        now do 2 apply includes_skip.
Qed.

End StringFacts.

Section UploadFacts.
Import FileUpload Samples.

(** The loop that pushes the labels of the inputs without a file. *)
Lemma push_missing_labels (inputs : list FileInput) (acc : list string) :
  fold_left (fun (missing : list string) input =>
               if no_file input then app missing [label_of input] else missing)
            inputs acc
  = app acc (label_of <$> filter (fun input => no_file input = true) inputs).
Proof.
  revert acc. induction inputs as [|input inputs IH]; intros acc; simpl.
  - now rewrite app_nil_r.
  - rewrite IH, filter_cons. destruct (no_file input) eqn:Hn.
    + rewrite decide_True by reflexivity. simpl. now rewrite <- app_assoc.
    + rewrite decide_False by discriminate. reflexivity.
Qed.

Lemma required_without_file (document : list FileInput) :
  filter (fun input => no_file input = true)
    (filter (fun input => input.(file_input_class) && input.(required) = true) document)
  = missing_inputs document.
Proof.
  unfold missing_inputs. rewrite list_filter_filter.
  apply list_filter_iff. intros input.
  rewrite !andb_true_iff. tauto.
Qed.

(** C4. With [n >= 1] required inputs lacking a file,
    [validateRequiredFiles] answers [false] and hands [showError] one
    message, which lists the labels of all [n] of them; with none
    lacking a file it answers [true] and reports nothing. *)
Theorem validateRequiredFiles_reports_all_missing (document : list FileInput) :
  let missing := missing_inputs document in
  let message := "Please upload the following required files: "
                   ++ JS.join ", " (label_of <$> missing) in
  (missing <> [] ->
     validateRequiredFiles document = (false, [message]) /\
     forall input, input ∈ missing -> JS.includes message (label_of input) = true) /\
  (missing = [] -> validateRequiredFiles document = (true, [])).
Proof.
  intros missing message. subst message.
  unfold validateRequiredFiles.
  rewrite push_missing_labels, required_without_file. fold missing. simpl app.
  split.
  - intros Hne. destruct missing as [|m missing'] eqn:E; [now contradiction Hne|].
    split; [reflexivity|].
    intros input Hin. apply includes_skip, join_includes.
    now apply list_elem_of_fmap_2.
  - intros ->. reflexivity.
Qed.

Lemma validateRequiredFiles_reports_all_missing_witness :
  missing_inputs upload_page <> [] /\
  validateRequiredFiles upload_page
    = (false, ["Please upload the following required files: STP File, raw_data_file"]).
Proof.
  assert (Hne : missing_inputs upload_page <> []) by (vm_compute; discriminate).
  split; [exact Hne|].
  destruct (validateRequiredFiles_reports_all_missing upload_page) as [Hmissing _].
  destruct (Hmissing Hne) as [Hresult _]. exact Hresult.
Defined.

End UploadFacts.

(** ** Numbers *)

Section NumberFacts.

Lemma Prim2SF_nan (x : float) : PrimFloat.is_nan x = true -> Prim2SF x = S754_nan.
Proof. intros Hx. unfold Prim2SF. now rewrite Hx. Qed.

(** No number is below [NaN]. *)
Lemma ltb_nan_r (x y : float) : JS.isNaN y = true -> (x <? y)%float = false.
Proof.
  intros Hy. rewrite FloatAxioms.ltb_spec, (Prim2SF_nan y Hy).
  unfold SFltb, SFcompare. now destruct (Prim2SF x).
Qed.

(** Neither zero is above zero. *)
Lemma ltb_zero_r (x : float) : PrimFloat.is_zero x = true -> (0 <? x)%float = false.
Proof.
  unfold PrimFloat.is_zero. rewrite FloatAxioms.eqb_spec, FloatAxioms.ltb_spec.
  change (Prim2SF PrimFloat.zero) with (S754_zero false).
  change (Prim2SF 0%float) with (S754_zero false).
  unfold SFeqb, SFltb, SFcompare.
  destruct (Prim2SF x) as [[]|[]| |[] m e]; simpl; congruence.
Qed.

(** Multiplication of numbers commutes. *)
Lemma mul_comm (x y : float) : (x * y)%float = (y * x)%float.
Proof.
  rewrite <- (SF2Prim_Prim2SF (x * y)), <- (SF2Prim_Prim2SF (y * x)).
  rewrite !FloatAxioms.mul_spec. f_equal. unfold SF64mul, SFmul.
  destruct (Prim2SF x) as [sx|sx| |sx mx ex], (Prim2SF y) as [sy|sy| |sy my ey];
    try reflexivity; try (now rewrite xorb_comm).
  now rewrite xorb_comm, Pos.mul_comm, Z.add_comm.
Qed.

(** The integer [toFixed] prints is a nearest one: it is within one
    half of the scaled value, and exact when the value is an integer
    multiple of the scale. *)
Lemma nearest_scaled_spec (m : positive) (e : Z) (fd : nat) :
  let n := JS.nearest_scaled m e fd in
  let num := Z.pos m * 10 ^ Z.of_nat fd in
  (0 <= e -> n = num * 2 ^ e) /\
  (e < 0 -> 2 * num - 2 ^ (- e) < 2 * (n * 2 ^ (- e)) <= 2 * num + 2 ^ (- e)).
Proof.
  intros n num. subst n. unfold JS.nearest_scaled. fold num.
  split; intros He.
  - apply Z.leb_le in He. now rewrite He.
  - assert (Hlt : (0 <=? e) = false) by (apply Z.leb_gt; exact He).
    rewrite Hlt.
    assert (Hq : 0 < 2 ^ (- e)) by (apply Z.pow_pos_nonneg; lia).
    set (q := 2 ^ (- e)) in *.
    pose proof (Z.div_mod (2 * num + q) (2 * q) ltac:(lia)) as Hdm.
    pose proof (Z.mod_pos_bound (2 * num + q) (2 * q) ltac:(lia)) as Hb.
    nia.
Qed.

(** [toFixed] on a finite number [±m × 2^e] below [10^21]: the sign
    and the digits of that nearest integer, with the decimal point
    before the last [fd] of them. *)
Lemma toFixed_rounds `{JSRuntime} (fd : nat) (x : float)
    (s : bool) (m : positive) (e : Z) :
  Prim2SF x = S754_finite s m e ->
  (1e21 <=? PrimFloat.abs x)%float = false ->
  JS.toFixed fd x
  = (if s then "-" else "") ++ JS.fixed_digits fd (JS.nearest_scaled m e fd).
Proof. intros Hx Hlt. unfold JS.toFixed. now rewrite Hx, Hlt. Qed.

Lemma exact_sign (s : bool) (m : positive) (e : Z) :
  Qle_bool 0 (JS.exact s m e) = negb s.
Proof.
  unfold JS.exact. destruct (0 <=? e) eqn:He.
  - apply Z.leb_le in He.
    assert (Hp : 0 < 2 ^ e) by (apply Z.pow_pos_nonneg; lia).
    destruct s; unfold Qle_bool, Qopp, inject_Z; simpl Qnum; simpl Qden; simpl negb.
    + apply Z.leb_gt. nia.
    + apply Z.leb_le. nia.
  - destruct s; reflexivity.
Qed.

(** The integer [toFixed] prints is the exact magnitude scaled by
    [10^fd], plus one half, rounded down. *)
Lemma exact_magnitude (s : bool) (m : positive) (e : Z) (fd : nat) :
  Qfloor (Qabs (JS.exact s m e) * inject_Z (10 ^ Z.of_nat fd) + (1 # 2))%Q
  = JS.nearest_scaled m e fd.
Proof.
  unfold JS.exact, JS.nearest_scaled.
  assert (Hten : 0 < 10 ^ Z.of_nat fd) by (apply Z.pow_pos_nonneg; lia).
  set (T := 10 ^ Z.of_nat fd) in *.
  destruct (0 <=? e) eqn:He.
  - apply Z.leb_le in He.
    assert (Hp : 0 < 2 ^ e) by (apply Z.pow_pos_nonneg; lia).
    set (P := 2 ^ e) in *.
    assert (Habs : Qabs (if s then (- inject_Z (Z.pos m * P))%Q else inject_Z (Z.pos m * P))
                   = inject_Z (Z.pos m * P)).
    { destruct s; unfold Qabs, Qopp, inject_Z; simpl; f_equal; lia. }
    rewrite Habs. unfold Qfloor, Qplus, Qmult, inject_Z. simpl Qnum. simpl Qden.
    change (Z.pos (1 * 1 * 2)) with 2.
    symmetry. apply (Z.div_unique _ _ _ 1); lia.
  - apply Z.leb_gt in He.
    assert (Hq : 0 < 2 ^ (- e)) by (apply Z.pow_pos_nonneg; lia).
    set (q := 2 ^ (- e)) in *.
    assert (Habs : Qabs (if s then (- (Z.pos m # Z.to_pos q)) else (Z.pos m # Z.to_pos q))%Q
                   = (Z.pos m # Z.to_pos q)%Q).
    { destruct s; reflexivity. }
    rewrite Habs. unfold Qfloor, Qplus, Qmult, inject_Z. simpl Qnum. simpl Qden.
    rewrite !Pos2Z.inj_mul, Z2Pos.id by lia.
    f_equal; lia.
Qed.

(** [toFixed] rounds the exact value of the number it is given: for a
    finite number below [10^21] it prints that value rounded to [fd]
    decimals, a half going away from zero. *)
Lemma toFixed_rounds_exactly `{JSRuntime} (fd : nat) (x : float) (q : Q) :
  JS.value_of x = Some q ->
  (1e21 <=? PrimFloat.abs x)%float = false ->
  JS.toFixed fd x = JS.rounded_text fd q.
Proof.
  unfold JS.value_of, JS.toFixed, JS.rounded_text.
  destruct (Prim2SF x) as [z|i| |s m e]; try discriminate; intros [= <-] Hbig.
  - reflexivity.
  - rewrite Hbig, exact_magnitude, exact_sign. now destruct s.
Qed.

(** What [toFixed] prints for a number without an exact value. *)
Lemma toFixed_not_finite `{JSRuntime} (fd : nat) (x : float) :
  JS.value_of x = None ->
  JS.toFixed fd x = "NaN" \/ JS.toFixed fd x = "Infinity" \/ JS.toFixed fd x = "-Infinity".
Proof.
  unfold JS.value_of, JS.toFixed.
  destruct (Prim2SF x) as [z|[]| |s m e]; try discriminate; auto.
Qed.

End NumberFacts.

(** ** AMV form: derived concentrations *)

Section ConcentrationFacts.
Context `{JSRuntime}.
Import AMV.

(** C2, as amended.  With a positive standard weight and standard
    concentration, the sample concentration is the number
    (sample weight / standard weight) x standard concentration as
    binary64 arithmetic gives it, printed by [toFixed(3)]: when that
    number is finite and below [10^21] the text is its exact value
    rounded to three decimals, a half going away from zero, and
    otherwise it is [NaN] or an infinity.  The text is written into
    the sample-concentration field when that field is empty, and a
    field that already holds a value is left as it is. *)
Theorem calculateUVConcentrations_fills_empty_field (doc : gmap string string) (target : string) :
  let weightStandard := parseFloat_or_0 (doc !! "uv_weight_standard") in
  let weightSample := parseFloat_or_0 (doc !! "uv_weight_sample") in
  let finalConcStandard := parseFloat_or_0 (doc !! "uv_final_concentration_standard") in
  let sampleConc := ((weightSample / weightStandard) * finalConcStandard)%float in
  (0 <? weightStandard)%float = true ->
  (0 <? finalConcStandard)%float = true ->
  doc !! "uv_final_concentration_sample" = Some target ->
  (target = "" ->
     calculateUVConcentrations doc
     = <["uv_final_concentration_sample" := JS.toFixed 3 sampleConc]> doc) /\
  (target <> "" ->
     calculateUVConcentrations doc = doc /\
     calculateUVConcentrations doc !! "uv_final_concentration_sample" = Some target) /\
  (forall q, JS.value_of sampleConc = Some q ->
     (1e21 <=? PrimFloat.abs sampleConc)%float = false ->
     JS.toFixed 3 sampleConc = JS.rounded_text 3 q) /\
  (JS.value_of sampleConc = None ->
     JS.toFixed 3 sampleConc = "NaN" \/ JS.toFixed 3 sampleConc = "Infinity"
     \/ JS.toFixed 3 sampleConc = "-Infinity").
Proof.
  intros weightStandard weightSample finalConcStandard sampleConc Hw Hc Htarget.
  unfold calculateUVConcentrations.
  fold weightStandard weightSample finalConcStandard.
  rewrite Hw, Hc, Htarget. simpl.
  split; [|split; [|split]].
  - intros ->. reflexivity.
  - intros Hne. apply truthy_string_true in Hne. rewrite Hne. simpl.
    split; [reflexivity | exact Htarget].
  - intros q. apply toFixed_rounds_exactly.
  - apply toFixed_not_finite.
Qed.

(** C10. When the parsed standard weight or the parsed standard
    concentration is not strictly positive, neither calculation
    computes or writes anything: the form is left as it is.  So a
    form that changes had a strictly positive divisor. *)
Theorem concentrations_need_positive_standard (doc : gmap string string) :
  let not_positive (v : option string) := (0 <? parseFloat_or_0 v)%float = false in
  (not_positive (doc !! "uv_weight_standard")
   \/ not_positive (doc !! "uv_final_concentration_standard") ->
   calculateUVConcentrations doc = doc) /\
  (not_positive (doc !! "hplc_weight_standard")
   \/ not_positive (doc !! "hplc_final_concentration_standard") ->
   calculateHPLCConcentrations doc = doc) /\
  (calculateUVConcentrations doc <> doc ->
   (0 <? parseFloat_or_0 (doc !! "uv_weight_standard"))%float = true) /\
  (calculateHPLCConcentrations doc <> doc ->
   (0 <? parseFloat_or_0 (doc !! "hplc_weight_standard"))%float = true).
Proof.
  intros not_positive. subst not_positive. simpl.
  unfold calculateUVConcentrations, calculateHPLCConcentrations.
  repeat split.
  - intros [Hn|Hn]; rewrite Hn; [reflexivity | now rewrite andb_false_r].
  - intros [Hn|Hn]; rewrite Hn; [reflexivity | now rewrite andb_false_r].
  - destruct (0 <? parseFloat_or_0 (doc !! "uv_weight_standard"))%float;
      [reflexivity | intros Hne; now contradiction Hne].
  - destruct (0 <? parseFloat_or_0 (doc !! "hplc_weight_standard"))%float;
      [reflexivity | intros Hne; now contradiction Hne].
Qed.

(** The contents that make a field not strictly positive: no element,
    an empty value, a value that is not a number, a zero. *)
Lemma not_positive_contents (v : option string) :
  v = None \/ v = Some ""
  \/ (exists s, v = Some s /\
        (JS.isNaN (JS.parseFloat s) = true \/ PrimFloat.is_zero (JS.parseFloat s) = true)) ->
  (0 <? parseFloat_or_0 v)%float = false.
Proof.
  intros [->|[->|(s & -> & Hs)]]; try reflexivity.
  unfold parseFloat_or_0. simpl. destruct (JS.truthy_string s); simpl; [|reflexivity].
  destruct Hs as [Hs|Hs]; [now apply ltb_nan_r | now apply ltb_zero_r].
Qed.

End ConcentrationFacts.

Section ConcentrationRuns.
Import AMV Samples.

Lemma calculateUVConcentrations_fills_empty_field_witness :
  @calculateUVConcentrations plain_runtime (uv_form "") = uv_form "50.000" /\
  @calculateUVConcentrations plain_runtime (uv_form "42") = uv_form "42" /\
  @calculateUVConcentrations plain_runtime thirds_form
    !! "uv_final_concentration_sample" = Some "66.667" /\
  @calculateUVConcentrations plain_runtime tie_form
    !! "uv_final_concentration_sample" = Some "1.111".
Proof.
  split; [|split; [|split]].
  - destruct (@calculateUVConcentrations_fills_empty_field plain_runtime
                (uv_form "") "" eq_refl eq_refl eq_refl) as (Hempty & _).
    rewrite (Hempty eq_refl). vm_compute. reflexivity.
  - destruct (@calculateUVConcentrations_fills_empty_field plain_runtime
                (uv_form "42") "42" eq_refl eq_refl eq_refl) as (_ & Hheld & _).
    apply Hheld. discriminate.
  - destruct (@calculateUVConcentrations_fills_empty_field plain_runtime
                thirds_form "" eq_refl eq_refl eq_refl) as (Hempty & _ & Hrounds & _).
    rewrite (Hempty eq_refl), lookup_insert_eq.
    rewrite (Hrounds _ eq_refl eq_refl). vm_compute. reflexivity.
  - destruct (@calculateUVConcentrations_fills_empty_field plain_runtime
                tie_form "" eq_refl eq_refl eq_refl) as (Hempty & _ & Hrounds & _).
    rewrite (Hempty eq_refl), lookup_insert_eq.
    rewrite (Hrounds _ eq_refl eq_refl). vm_compute. reflexivity.
Defined.

(** C2, as stated, fails: with standard weight 1, concentration 1 and
    sample weight 1.1115 the exact result 1.1115 rounds to 1.112, but
    the number nearest to 1.1115 lies below it and 1.111 is written. *)
Lemma binary_weight_rounds_down : ~ concentration_is_exact_rounding.
Proof.
  intros Hexact.
  specialize (Hexact plain_runtime tie_form _ _ _
                eq_refl eq_refl eq_refl eq_refl eq_refl eq_refl).
  vm_compute in Hexact. discriminate.
Qed.

Lemma concentrations_need_positive_standard_witness :
  @calculateUVConcentrations plain_runtime
     {[ "uv_weight_standard" := "0"; "uv_weight_sample" := "5";
        "uv_final_concentration_standard" := "100";
        "uv_final_concentration_sample" := "" ]}
  = {[ "uv_weight_standard" := "0"; "uv_weight_sample" := "5";
       "uv_final_concentration_standard" := "100";
       "uv_final_concentration_sample" := "" ]} /\
  @calculateHPLCConcentrations plain_runtime
     {[ "hplc_weight_standard" := "10"; "hplc_weight_sample" := "5";
        "hplc_final_concentration_standard" := "abc";
        "hplc_final_concentration_sample" := "" ]}
  = {[ "hplc_weight_standard" := "10"; "hplc_weight_sample" := "5";
       "hplc_final_concentration_standard" := "abc";
       "hplc_final_concentration_sample" := "" ]}.
Proof.
  split.
  - apply (@concentrations_need_positive_standard plain_runtime). left. reflexivity.
  - apply (@concentrations_need_positive_standard plain_runtime). right. reflexivity.
Defined.

End ConcentrationRuns.

(** ** AMV form: wavelength fields *)

Section WavelengthFacts.
Context `{JSRuntime}.
Import AMV.

(** The five ways through the validator. *)
Lemma wavelength_blank (f : Input) :
  JS.trim f.(el_value) = "" -> validateWavelengthField (Some f) = (true, []).
Proof. intros Hb. unfold validateWavelengthField. now rewrite Hb. Qed.

Lemma wavelength_not_a_number (f : Input) :
  JS.trim f.(el_value) <> "" -> JS.isNaN (JS.parseFloat f.(el_value)) = true ->
  validateWavelengthField (Some f)
  = (false, [showFieldError "Please enter a valid number"]).
Proof.
  intros Hb Hn. unfold validateWavelengthField.
  apply truthy_string_true in Hb. now rewrite Hb, Hn.
Qed.

Lemma wavelength_below_min (f : Input) :
  let value := JS.parseFloat f.(el_value) in
  let min := parseFloat_attribute (getAttribute f "min") in
  JS.trim f.(el_value) <> "" -> JS.isNaN value = false ->
  JS.truthy_number min = true -> (value <? min)%float = true ->
  validateWavelengthField (Some f)
  = (false, [showFieldError ("Value must be at least " ++ Number_toString min)]).
Proof.
  intros value min Hb Hn Ht Hlt. unfold validateWavelengthField. fold value min.
  apply truthy_string_true in Hb. now rewrite Hb, Hn, Ht, Hlt.
Qed.

Lemma wavelength_above_max (f : Input) :
  let value := JS.parseFloat f.(el_value) in
  let max := parseFloat_attribute (getAttribute f "max") in
  JS.trim f.(el_value) <> "" -> JS.isNaN value = false ->
  JS.truthy_number max = true -> (max <? value)%float = true ->
  (validateWavelengthField (Some f)).1 = false.
Proof.
  intros value max Hb Hn Ht Hgt. unfold validateWavelengthField. fold value max.
  apply truthy_string_true in Hb. rewrite Hb, Hn, Ht, Hgt. simpl.
  now destruct (JS.truthy_number _ && _).
Qed.

Lemma wavelength_no_violation (f : Input) :
  let value := JS.parseFloat f.(el_value) in
  let min := parseFloat_attribute (getAttribute f "min") in
  let max := parseFloat_attribute (getAttribute f "max") in
  JS.trim f.(el_value) <> "" -> JS.isNaN value = false ->
  JS.truthy_number min && (value <? min)%float = false ->
  JS.truthy_number max && (max <? value)%float = false ->
  validateWavelengthField (Some f) = (true, [clearFieldError]).
Proof.
  intros value min max Hb Hn Hlo Hhi. unfold validateWavelengthField.
  fold value min max. apply truthy_string_true in Hb. now rewrite Hb, Hn, Hlo, Hhi.
Qed.

(** A bound that is off does not count: the validator answers as on
    the field without the attribute. *)
Lemma wavelength_min_off (f : Input) :
  JS.truthy_number (parseFloat_attribute (getAttribute f "min")) = false ->
  validateWavelengthField (Some f)
  = validateWavelengthField (Some (removeAttribute f "min")).
Proof.
  intros Hoff. unfold validateWavelengthField, removeAttribute, getAttribute in *.
  simpl. rewrite lookup_delete_eq, lookup_delete_ne by discriminate.
  rewrite Hoff. reflexivity.
Qed.

Lemma wavelength_max_off (f : Input) :
  JS.truthy_number (parseFloat_attribute (getAttribute f "max")) = false ->
  validateWavelengthField (Some f)
  = validateWavelengthField (Some (removeAttribute f "max")).
Proof.
  intros Hoff. unfold validateWavelengthField, removeAttribute, getAttribute in *.
  simpl. rewrite lookup_delete_eq, lookup_delete_ne by discriminate.
  rewrite Hoff. reflexivity.
Qed.

(** C5, as amended.  A blank value is valid; a value that is not a
    number is invalid, with the message asking for a valid number; a
    number above a non-zero numeric [max] or below a non-zero numeric
    [min] is invalid; a number that is neither below [min] nor above
    [max] is valid. *)
Theorem validateWavelengthField_spec (f : Input) :
  let value := JS.parseFloat f.(el_value) in
  let min := parseFloat_attribute (getAttribute f "min") in
  let max := parseFloat_attribute (getAttribute f "max") in
  (JS.trim f.(el_value) = "" -> validateWavelengthField (Some f) = (true, [])) /\
  (JS.trim f.(el_value) <> "" -> JS.isNaN value = true ->
     validateWavelengthField (Some f)
     = (false, [showFieldError "Please enter a valid number"])) /\
  (JS.trim f.(el_value) <> "" -> JS.isNaN value = false ->
     JS.truthy_number max = true -> (max <? value)%float = true ->
     (validateWavelengthField (Some f)).1 = false) /\
  (JS.trim f.(el_value) <> "" -> JS.isNaN value = false ->
     JS.truthy_number min = true -> (value <? min)%float = true ->
     validateWavelengthField (Some f)
     = (false, [showFieldError ("Value must be at least " ++ Number_toString min)])) /\
  (JS.trim f.(el_value) <> "" -> JS.isNaN value = false ->
     (value <? min)%float = false -> (max <? value)%float = false ->
     validateWavelengthField (Some f) = (true, [clearFieldError])).
Proof.
  intros value min max.
  split; [|split; [|split; [|split]]].
  - apply wavelength_blank.
  - apply wavelength_not_a_number.
  - apply wavelength_above_max.
  - apply wavelength_below_min.
  - intros Hb Hn Hlo Hhi.
    apply wavelength_no_violation; try assumption; fold value min max.
    + now rewrite Hlo, andb_false_r.
    + now rewrite Hhi, andb_false_r.
Qed.

(** C9. A bound whose attribute is missing or reads as zero is no
    bound: the validator answers as if the attribute were not there,
    so with both bounds off every number, negative ones included, is
    valid.  A non-zero numeric bound is enforced. *)
Theorem zero_or_missing_bound_is_no_bound (f : Input) :
  let value := JS.parseFloat f.(el_value) in
  let min := parseFloat_attribute (getAttribute f "min") in
  let max := parseFloat_attribute (getAttribute f "max") in
  (getAttribute f "min" = None \/ getAttribute f "min" = Some "0" ->
     JS.truthy_number min = false) /\
  (getAttribute f "max" = None \/ getAttribute f "max" = Some "0" ->
     JS.truthy_number max = false) /\
  (JS.truthy_number min = false ->
     validateWavelengthField (Some f)
     = validateWavelengthField (Some (removeAttribute f "min"))) /\
  (JS.truthy_number max = false ->
     validateWavelengthField (Some f)
     = validateWavelengthField (Some (removeAttribute f "max"))) /\
  (JS.truthy_number min = false -> JS.truthy_number max = false ->
     JS.trim f.(el_value) <> "" -> JS.isNaN value = false ->
     validateWavelengthField (Some f) = (true, [clearFieldError])) /\
  (JS.truthy_number min = true ->
     JS.trim f.(el_value) <> "" -> JS.isNaN value = false ->
     (value <? min)%float = true ->
     (validateWavelengthField (Some f)).1 = false) /\
  (JS.truthy_number max = true ->
     JS.trim f.(el_value) <> "" -> JS.isNaN value = false ->
     (max <? value)%float = true ->
     (validateWavelengthField (Some f)).1 = false).
Proof.
  intros value min max.
  split; [|split; [|split; [|split; [|split; [|split]]]]].
  - subst min. intros [->| ->]; reflexivity.
  - subst max. intros [->| ->]; reflexivity.
  - apply wavelength_min_off.
  - apply wavelength_max_off.
  - intros Hlo Hhi Hb Hn.
    apply wavelength_no_violation; try assumption; fold min max.
    + now rewrite Hlo.
    + now rewrite Hhi.
  - intros Hon Hb Hn Hlt. subst value min.
    now rewrite (wavelength_below_min f Hb Hn Hon Hlt).
  - intros Hon Hb Hn Hgt. now apply wavelength_above_max.
Qed.

End WavelengthFacts.

Section WavelengthRuns.
Import AMV Samples.

Lemma validateWavelengthField_spec_witness :
  @validateWavelengthField plain_runtime (Some (wavelength_field "" ∅)) = (true, []) /\
  @validateWavelengthField plain_runtime (Some (wavelength_field "abc" ∅))
    = (false, [showFieldError "Please enter a valid number"]) /\
  (@validateWavelengthField plain_runtime
     (Some (wavelength_field "500" {["max" := "400"]}))).1 = false /\
  @validateWavelengthField plain_runtime
     (Some (wavelength_field "300" {["min" := "200"; "max" := "400"]}))
    = (true, [clearFieldError]).
Proof.
  split; [|split; [|split]].
  - apply (@validateWavelengthField_spec plain_runtime (wavelength_field "" ∅)).
    reflexivity.
  - apply (@validateWavelengthField_spec plain_runtime (wavelength_field "abc" ∅));
      [discriminate | reflexivity].
  - apply (@validateWavelengthField_spec plain_runtime
             (wavelength_field "500" {["max" := "400"]}));
      [discriminate | reflexivity | reflexivity | reflexivity].
  - apply (@validateWavelengthField_spec plain_runtime
             (wavelength_field "300" {["min" := "200"; "max" := "400"]}));
      [discriminate | reflexivity | reflexivity | reflexivity].
Defined.

(** C5, as stated, fails: with [min="0"] the value [-5] is below the
    declared lower bound and is accepted. *)
Lemma zero_min_accepts_negative : ~ declared_bounds_enforced.
Proof.
  intros Henforced.
  specialize (Henforced plain_runtime
                (wavelength_field "-5" {["min" := "0"; "max" := "400"]})).
  assert (Hvalid : (@validateWavelengthField plain_runtime
             (Some (wavelength_field "-5" {["min" := "0"; "max" := "400"]}))).1 = true)
    by reflexivity.
  rewrite Henforced in Hvalid; first discriminate.
  - eexists. reflexivity.
  - eexists. reflexivity.
  - discriminate.
  - reflexivity.
  - left. reflexivity.
Qed.

Lemma zero_or_missing_bound_is_no_bound_witness :
  @validateWavelengthField plain_runtime
     (Some (wavelength_field "-5" {["min" := "0"]}))
  = (true, [clearFieldError]) /\
  (@validateWavelengthField plain_runtime
     (Some (wavelength_field "150" {["min" := "200"; "max" := "400"]}))).1 = false.
Proof.
  split.
  - apply (@zero_or_missing_bound_is_no_bound plain_runtime
             (wavelength_field "-5" {["min" := "0"]}));
      [reflexivity | reflexivity | discriminate | reflexivity].
  - destruct (@zero_or_missing_bound_is_no_bound plain_runtime
                (wavelength_field "150" {["min" := "200"; "max" := "400"]}))
      as (_ & _ & _ & _ & _ & Hmin & _).
    apply Hmin; [reflexivity | discriminate | reflexivity | reflexivity].
Defined.

End WavelengthRuns.

(** ** AMV form: default validation parameters *)

Section SelectionFacts.
Import AMV Samples.

(** Every instrument of the table has a list, and none is empty. *)
Lemma validationParameters_nonempty (instrumentType : string) (listed : list string) :
  validationParameters !! instrumentType = Some listed ->
  (0 <? length listed)%nat = true.
Proof.
  intros Hin. unfold validationParameters in Hin.
  apply elem_of_list_to_map_2 in Hin.
  repeat (apply elem_of_cons in Hin as [Hin|Hin]; [now injection Hin as -> ->|]).
  now apply elem_of_nil in Hin.
Qed.

Lemma checked_values_cons (c : Checkbox) (cbs : list Checkbox) :
  checked_values (c :: cbs)
  = (if checked c then {[cb_value c]} else ∅) ∪ checked_values cbs.
Proof.
  unfold checked_values. rewrite filter_cons.
  destruct (checked c).
  - rewrite decide_True by reflexivity. reflexivity.
  - rewrite decide_False by discriminate. now rewrite union_empty_l_L.
Qed.

Lemma check_first_values (v : string) (cbs : list Checkbox) :
  cb_value <$> check_first v cbs = cb_value <$> cbs.
Proof.
  induction cbs as [|c cbs IH]; [reflexivity|].
  simpl check_first.
  destruct (String.eqb (cb_value c) v); rewrite !fmap_cons; [reflexivity | now rewrite IH].
Qed.

(** Checking the first box with value [v] adds [v] to the checked
    values when the page has such a box, and changes nothing else. *)
Lemma checked_values_check_first (v x : string) (cbs : list Checkbox) :
  x ∈ checked_values (check_first v cbs)
  <-> x ∈ checked_values cbs \/ (x = v /\ v ∈ cb_value <$> cbs).
Proof.
  induction cbs as [|c cbs IH].
  - split; [auto | intros [Hx|[_ Hv]]; [exact Hx | now apply elem_of_nil in Hv]].
  - simpl check_first. rewrite fmap_cons, elem_of_cons.
    destruct (String.eqb (cb_value c) v) eqn:Ev.
    + apply String.eqb_eq in Ev. rewrite !checked_values_cons, !elem_of_union.
      cbn [checked cb_value set_checked]. rewrite Ev.
      destruct (checked c); rewrite ?elem_of_singleton, ?elem_of_empty; tauto.
    + apply String.eqb_neq in Ev. rewrite !checked_values_cons, !elem_of_union, IH.
      assert (Hne : v <> cb_value c) by congruence. tauto.
Qed.

Lemma check_all_values (listed : list string) (cbs : list Checkbox) :
  cb_value <$> fold_left (fun cbs paramValue => check_first paramValue cbs) listed cbs
  = cb_value <$> cbs.
Proof.
  revert cbs. induction listed as [|v listed IH]; intros cbs; simpl; [reflexivity|].
  now rewrite IH, check_first_values.
Qed.

Lemma checked_values_check_all (listed : list string) (x : string) (cbs : list Checkbox) :
  x ∈ checked_values
        (fold_left (fun cbs paramValue => check_first paramValue cbs) listed cbs)
  <-> x ∈ checked_values cbs \/ (x ∈ listed /\ x ∈ cb_value <$> cbs).
Proof.
  revert cbs. induction listed as [|v listed IH]; intros cbs; simpl.
  - split; [auto | intros [Hx|[Hx _]]; [exact Hx | now apply elem_of_nil in Hx]].
  - rewrite IH, checked_values_check_first, check_first_values, elem_of_cons.
    split.
    + intros [[?|[-> ?]]|[? ?]]; auto.
    + intros [?|[[->|?] ?]]; auto.
Qed.

Lemma uncheck_all_values (cbs : list Checkbox) :
  cb_value <$> map (set_checked false) cbs = cb_value <$> cbs.
Proof.
  induction cbs as [|c cbs IH]; [reflexivity|].
  simpl map. rewrite !fmap_cons. now rewrite IH.
Qed.

Lemma uncheck_all_checked_values (cbs : list Checkbox) :
  checked_values (map (set_checked false) cbs) = ∅.
Proof.
  induction cbs as [|c cbs IH]; [reflexivity|].
  simpl map. rewrite checked_values_cons, IH. simpl. now rewrite union_empty_l_L.
Qed.

(** Unchecking every box leaves a list that depends only on the values. *)
Lemma uncheck_all_by_values (cbs cbs' : list Checkbox) :
  cb_value <$> cbs = cb_value <$> cbs' ->
  map (set_checked false) cbs = map (set_checked false) cbs'.
Proof.
  revert cbs'. induction cbs as [|c cbs IH]; intros [|c' cbs']; simpl;
    try discriminate; [reflexivity|].
  intros [= Hv Hrest]. unfold set_checked at 1 3. rewrite Hv.
  f_equal. now apply IH.
Qed.

(** The names every object inherits as a function with parameters. *)
Lemma inherited_with_parameters (instrumentType : string) :
  validationParameters !! instrumentType = None ->
  (instrumentType ∈ ["constructor"; "__defineGetter__"; "__defineSetter__";
                     "hasOwnProperty"; "__lookupGetter__"; "__lookupSetter__";
                     "isPrototypeOf"; "propertyIsEnumerable"] ->
   exists parameters,
     selectedParams_of instrumentType = InheritedMember (Some parameters)
     /\ (0 <? parameters)%nat = true) /\
  (instrumentType ∉ ["constructor"; "__defineGetter__"; "__defineSetter__";
                     "hasOwnProperty"; "__lookupGetter__"; "__lookupSetter__";
                     "isPrototypeOf"; "propertyIsEnumerable"] ->
   selectedParams_of instrumentType = Parameters []
   \/ selectedParams_of instrumentType = InheritedMember (Some 0%nat)
   \/ selectedParams_of instrumentType = InheritedMember None).
Proof.
  intros Hnone. split.
  - intros Hin. apply list_elem_of_In in Hin. simpl in Hin.
    repeat (destruct Hin as [<-|Hin]; [eexists; split; reflexivity|]).
    contradiction.
  - intros Hout. unfold selectedParams_of. rewrite Hnone.
    destruct ((list_to_map JS.inherited_members : gmap string (option nat))
                !! instrumentType) as [member|] eqn:Hmember; [|now left].
    apply elem_of_list_to_map_2 in Hmember. unfold JS.inherited_members in Hmember.
    repeat (apply elem_of_cons in Hmember as [Hmember|Hmember];
            [injection Hmember as -> ->;
             first [ now (right; left) | now (right; right)
                   | exfalso; apply Hout; apply list_elem_of_In; simpl; tauto ]|]).
    now apply elem_of_nil in Hmember.
Qed.

(** C6, as amended.  For an instrument type that has a list in the
    table, the selection is replaced: afterwards the checked parameters
    are exactly the listed ones that have a check box on the page (all
    of the list when the page has a box for each), whatever was checked
    before, and two pages with the same boxes end in the same state.
    For the eight names that every object inherits as a function with
    parameters, every box is unchecked and the call throws, leaving
    the banner and the messages as they were.  For any other
    instrument type nothing is changed. *)
Theorem autoSelect_replaces_selection (instrumentType : string) (p : Page) :
  let r := autoSelectValidationParameters instrumentType p in
  (forall listed, validationParameters !! instrumentType = Some listed ->
     let after := r.1.(val_params) in
     r.2 = false /\
     cb_value <$> after = cb_value <$> p.(val_params) /\
     (forall v, v ∈ checked_values after
                <-> v ∈ listed /\ v ∈ cb_value <$> p.(val_params)) /\
     ((forall v, v ∈ listed -> v ∈ cb_value <$> p.(val_params)) ->
        checked_values after = list_to_set listed) /\
     (forall q, cb_value <$> q.(val_params) = cb_value <$> p.(val_params) ->
        (autoSelectValidationParameters instrumentType q).1.(val_params) = after)) /\
  (validationParameters !! instrumentType = None ->
     (instrumentType ∈ ["constructor"; "__defineGetter__"; "__defineSetter__";
                        "hasOwnProperty"; "__lookupGetter__"; "__lookupSetter__";
                        "isPrototypeOf"; "propertyIsEnumerable"] ->
        r.2 = true /\
        r.1.(val_params) = map (set_checked false) p.(val_params) /\
        checked_values r.1.(val_params) = ∅ /\
        r.1.(notification_hidden) = p.(notification_hidden) /\
        r.1.(info_messages) = p.(info_messages)) /\
     (instrumentType ∉ ["constructor"; "__defineGetter__"; "__defineSetter__";
                        "hasOwnProperty"; "__lookupGetter__"; "__lookupSetter__";
                        "isPrototypeOf"; "propertyIsEnumerable"] ->
        r = (p, false))).
Proof.
  intros r. subst r. split.
  - intros listed Hlisted after. subst after.
    unfold autoSelectValidationParameters, selectedParams_of.
    rewrite Hlisted.
    rewrite (validationParameters_nonempty _ _ Hlisted). cbn [fst snd val_params].
    assert (Hchecked : forall v,
      v ∈ checked_values
            (fold_left (fun cbs paramValue => check_first paramValue cbs) listed
               (map (set_checked false) (val_params p)))
      <-> v ∈ listed /\ v ∈ cb_value <$> val_params p).
    { intros v. rewrite checked_values_check_all, uncheck_all_checked_values,
        uncheck_all_values, elem_of_empty. tauto. }
    split; [reflexivity|]. split; [|split; [|split]].
    + now rewrite check_all_values, uncheck_all_values.
    + exact Hchecked.
    + intros Hboxes. apply set_eq. intros v.
      rewrite Hchecked, elem_of_list_to_set. split; [tauto | auto].
    + intros q Hq. now rewrite (uncheck_all_by_values _ _ Hq).
  - intros Hnone.
    destruct (inherited_with_parameters instrumentType Hnone) as [Hfunction Hother].
    unfold autoSelectValidationParameters. split.
    + intros Hin. destruct (Hfunction Hin) as (parameters & -> & ->).
      cbn [fst snd val_params notification_hidden info_messages].
      repeat split. apply uncheck_all_checked_values.
    + intros Hout. destruct (Hother Hout) as [-> | [-> | ->]]; reflexivity.
Qed.

Lemma autoSelect_replaces_selection_witness :
  ("range" ∈ checked_values (autoSelectValidationParameters "uv" params_page).1.(val_params)
   /\ "accuracy"
        ∉ checked_values (autoSelectValidationParameters "uv" params_page).1.(val_params))
  /\ autoSelectValidationParameters "ftir" params_page = (params_page, false)
  /\ (autoSelectValidationParameters "constructor" params_page).2 = true
  /\ checked_values (autoSelectValidationParameters "constructor" params_page).1.(val_params)
     = ∅.
Proof.
  destruct (autoSelect_replaces_selection "uv" params_page) as [Hlisted _].
  destruct (Hlisted _ eq_refl) as (_ & _ & Hchecked & _).
  destruct (autoSelect_replaces_selection "ftir" params_page) as [_ Hnone].
  destruct (Hnone eq_refl) as [_ Hother].
  destruct (autoSelect_replaces_selection "constructor" params_page) as [_ Hmember].
  destruct (Hmember eq_refl) as [Hfunction _].
  destruct Hfunction as (Hthrown & _ & Hcleared & _);
    [apply list_elem_of_In; simpl; tauto|].
  split; [split|split; [|split]].
  - apply Hchecked. split.
    + apply list_elem_of_In. simpl. tauto.
    + apply list_elem_of_In. simpl. tauto.
  - intros Hin. apply Hchecked in Hin as [Hin _].
    apply list_elem_of_In in Hin. simpl in Hin.
    repeat (destruct Hin as [Hin|Hin]; [discriminate|]). exact Hin.
  - apply Hother. intros Hin. apply list_elem_of_In in Hin. simpl in Hin.
    repeat (destruct Hin as [Hin|Hin]; [discriminate|]). exact Hin.
  - exact Hthrown.
  - exact Hcleared.
Defined.

(** C6, as stated, fails: for an instrument type without a list the
    box checked by hand stays checked. *)
Lemma unlisted_instrument_keeps_selection : ~ selection_replaced_for_every_instrument.
Proof.
  intros Hreplaced. specialize (Hreplaced "ftir" params_page).
  change (autoSelectValidationParameters "ftir" params_page)
    with (params_page, false) in Hreplaced.
  change (default [] (validationParameters !! "ftir")) with (@nil string) in Hreplaced.
  assert (Hin : "accuracy" ∈ checked_values (val_params params_page)).
  { apply elem_of_list_to_set. apply list_elem_of_In. simpl. left. reflexivity. }
  cbn [fst] in Hreplaced. rewrite Hreplaced in Hin.
  - now apply elem_of_empty in Hin.
  - intros v Hv. now apply elem_of_nil in Hv.
Qed.

End SelectionFacts.

(** ** Dashboard: percentages of the distribution chart *)

Section DashboardFacts.
Context `{JSRuntime}.
Import Dashboard.

(** C8, as amended.  Nothing is drawn without the canvas or the chart
    library.  Otherwise, for every distribution, the tooltip of each
    slice shows the percentage [100 * value / sum of all values] as
    binary64 arithmetic gives it, the sum running over the values in
    order from zero, printed by [toFixed(1)]: when that number is
    finite and below [10^21] the text is its exact value rounded to
    one decimal, a half going away from zero. *)
Theorem percentage_of_distribution (canvas chart_library : bool)
    (distribution : list (string * float)) :
  (canvas && chart_library = false ->
     updateDocumentTypeChart canvas chart_library distribution = None) /\
  (canvas && chart_library = true ->
     exists chart,
       updateDocumentTypeChart canvas chart_library distribution = Some chart /\
       length (tooltip_contexts chart) = length distribution /\
       forall (i : nat) (l : string) (v : float),
         distribution !! i = Some (l, v) ->
         let share :=
           ((100 * v) / fold_left (fun a b => a + b) (snd <$> distribution) 0)%float in
         exists context,
           tooltip_contexts chart !! i = Some context /\
           label context = l /\ parsed context = v /\
           percentage context = JS.toFixed 1 share /\
           (forall q, JS.value_of share = Some q ->
              (1e21 <=? PrimFloat.abs share)%float = false ->
              percentage context = JS.rounded_text 1 q) /\
           tooltip_label context
           = l ++ ": " ++ Number_toString v ++ " (" ++ percentage context ++ "%)").
Proof.
  unfold updateDocumentTypeChart. split.
  - intros Hmissing. destruct canvas, chart_library; try discriminate; reflexivity.
  - intros Hboth. apply andb_true_iff in Hboth as [-> ->]. cbn [negb orb].
    eexists. split; [reflexivity|]. unfold tooltip_contexts. cbn [labels data].
    rewrite zip_fst_snd. split; [now rewrite length_fmap|].
    intros i l v Hi.
    set (share := ((100 * v) / fold_left (fun a b => a + b) (snd <$> distribution) 0)%float).
    rewrite list_lookup_fmap, Hi. cbn [fmap option_fmap option_map].
    eexists. split; [reflexivity|]. cbn [label parsed].
    assert (Hshare : percentage
                       {| label := l; parsed := v; dataset_data := snd <$> distribution |}
                     = JS.toFixed 1 share).
    { unfold percentage, total. cbn [parsed dataset_data]. now rewrite (mul_comm v 100). }
    split; [reflexivity|]. split; [reflexivity|]. split; [exact Hshare|].
    split; [|reflexivity].
    intros q Hq Hbig. rewrite Hshare. now apply toFixed_rounds_exactly.
Qed.

End DashboardFacts.

Section DashboardRuns.
Import Dashboard Samples.

Lemma percentage_of_distribution_witness :
  (@percentage plain_runtime) <$>
    tooltip_contexts {| labels := ["A"; "B"]; data := [3%float; 1%float];
                        backgroundColor := ["#007bff"; "#28a745"] |}
  = ["75.0"; "25.0"].
Proof.
  destruct (@percentage_of_distribution plain_runtime true true
              [("A", 3%float); ("B", 1%float)]) as [_ Hdrawn].
  destruct (Hdrawn eq_refl) as (chart & [= <-] & _ & Hslices).
  destruct (Hslices 0%nat "A" 3%float eq_refl) as (a & Ha & _ & _ & _ & Hpa & _).
  destruct (Hslices 1%nat "B" 1%float eq_refl) as (b & Hb & _ & _ & _ & Hpb & _).
  injection Ha as <-. injection Hb as <-.
  simpl fmap. unfold fmap, list_fmap.
  rewrite (Hpa _ eq_refl eq_refl), (Hpb _ eq_refl eq_refl). reflexivity.
Defined.

(** C8, as stated, fails: the share of 3 among 2000 is 0.15 exactly,
    which rounds to 0.2, but the quotient of the numbers lies below
    0.15 and 0.1 is shown. *)
Lemma binary_share_rounds_down : ~ percentage_is_exact_rounding.
Proof.
  intros Hexact.
  specialize (Hexact plain_runtime small_slice _ _
                ltac:(repeat constructor) eq_refl eq_refl eq_refl).
  vm_compute in Hexact. discriminate.
Qed.

End DashboardRuns.


(** * Further properties *)

(** ** Text *)

Section TextFacts.
Import JSText.

Lemma split_nonempty (sep : ascii) (s : string) : split sep s <> [].
Proof.
  destruct s as [|c s]; simpl; [discriminate|].
  destruct (Ascii.eqb c sep); [discriminate|].
  destruct (split sep s); discriminate.
Qed.

Lemma split_without_separator (sep : ascii) (s : string) :
  occurs sep s = false -> split sep s = [s].
Proof.
  induction s as [|c s IH]; simpl; [reflexivity|].
  intros Hn. apply orb_false_iff in Hn as [Hc Hs].
  now rewrite Hc, (IH Hs).
Qed.

Lemma last_cons_nonempty (x : string) (l : list string) :
  l <> [] -> List.last (x :: l) "" = List.last l "".
Proof. now destruct l. Qed.

Lemma split_with_separator (sep : ascii) (s : string) :
  occurs sep s = true -> exists a b r, split sep s = a :: b :: r.
Proof.
  induction s as [|c s IH]; simpl; [discriminate|].
  destruct (Ascii.eqb c sep); simpl.
  - intros _. destruct (split sep s) as [|b r] eqn:E.
    + now apply split_nonempty in E.
    + now exists "", b, r.
  - intros Hs. destruct (IH Hs) as (a & b & r & ->). now exists (String c a), b, r.
Qed.

Lemma occurs_app_separator (sep : ascii) (stem ext : string) :
  occurs sep (stem ++ String sep ext) = true.
Proof.
  induction stem as [|c stem IH].
  - change ("" ++ String sep ext) with (String sep ext). simpl.
    now rewrite Ascii.eqb_refl.
  - change (String c stem ++ String sep ext) with (String c (stem ++ String sep ext)).
    simpl. rewrite IH. apply orb_true_r.
Qed.

(** The last piece of a split is what follows the last separator. *)
Lemma pop_split_app (sep : ascii) (stem ext : string) :
  occurs sep ext = false ->
  pop (split sep (stem ++ String sep ext)) = ext.
Proof.
  intros Hext. unfold pop. induction stem as [|c stem IH].
  - change ("" ++ String sep ext) with (String sep ext). simpl.
    rewrite Ascii.eqb_refl, (split_without_separator _ _ Hext). reflexivity.
  - change (String c stem ++ String sep ext) with (String c (stem ++ String sep ext)).
    simpl. destruct (Ascii.eqb c sep).
    + rewrite last_cons_nonempty by apply split_nonempty. exact IH.
    + destruct (split_with_separator sep _ (occurs_app_separator sep stem ext))
        as (a & b & r & E).
      rewrite E in *. rewrite last_cons_nonempty in * by discriminate. exact IH.
Qed.

Lemma toLowerCase_toUpperCase_char (c : ascii) :
  toLowerCase_char (JS.toUpperCase_char c) = toLowerCase_char c.
Proof. destruct c as [[] [] [] [] [] [] [] []]; reflexivity. Qed.

Lemma toLowerCase_toUpperCase (s : string) :
  toLowerCase (JS.toUpperCase s) = toLowerCase s.
Proof.
  induction s as [|c s IH]; simpl; [reflexivity|].
  now rewrite toLowerCase_toUpperCase_char, IH.
Qed.

Lemma toUpperCase_char_dot (c : ascii) :
  Ascii.eqb (JS.toUpperCase_char c) "." = Ascii.eqb c ".".
Proof. destruct c as [[] [] [] [] [] [] [] []]; reflexivity. Qed.

(** Putting a name in upper case puts its pieces in upper case. *)
Lemma split_toUpperCase (s : string) :
  split "." (JS.toUpperCase s) = JS.toUpperCase <$> split "." s.
Proof.
  induction s as [|c s IH]; simpl; [reflexivity|].
  rewrite toUpperCase_char_dot, IH.
  destruct (Ascii.eqb c "."); [reflexivity|].
  destruct (split "." s); reflexivity.
Qed.

Lemma last_fmap (f : string -> string) (l : list string) :
  l <> [] -> List.last (f <$> l) "" = f (List.last l "").
Proof.
  induction l as [|x l IH]; [congruence|]. intros _.
  destruct l as [|y l]; [reflexivity|].
  change (f <$> x :: y :: l) with (f x :: (f <$> y :: l)).
  rewrite !last_cons_nonempty by discriminate. now apply IH.
Qed.

Lemma array_includes_elem (l : list string) (x : string) :
  array_includes l x = true <-> x ∈ l.
Proof.
  unfold array_includes. rewrite existsb_exists. split.
  - intros (y & Hin & Heq). apply String.eqb_eq in Heq as ->.
    now apply list_elem_of_In.
  - intros Hin. exists x. split; [now apply list_elem_of_In | apply String.eqb_refl].
Qed.

End TextFacts.

(** ** File upload: file checks *)

Section UploadCheckFacts.
Import FileUpload Uploads JSText.
Variable formatFileSize : Z -> string.

Lemma allowedTypes_kind (kind : string) (allowed : list string) :
  allowedTypes !! kind = Some allowed -> JS.truthy_string kind = true.
Proof. destruct kind; [discriminate | reflexivity]. Qed.

(** When a kind has a policy, a file passes exactly when it is within
    the size limit and its extension is allowed. *)
Lemma validateFile_accepts (file : File) (kind : string) (allowed : list string) :
  allowedTypes !! kind = Some allowed ->
  (validateFile formatFileSize file (Some kind)).1 = true
  <-> file_size file <= maxFileSize /\ extension_of (file_name file) ∈ allowed.
Proof.
  intros Hk. unfold validateFile. simpl JS.truthy_opt.
  rewrite (allowedTypes_kind _ _ Hk). simpl default. rewrite Hk.
  destruct (maxFileSize <? file_size file) eqn:Hs.
  - apply Z.ltb_lt in Hs. simpl. split; [discriminate | lia].
  - apply Z.ltb_ge in Hs. rewrite <- array_includes_elem.
    destruct (array_includes allowed (extension_of (file_name file))); simpl.
    + tauto.
    + split; [discriminate | intros [_ ?]; discriminate].
Qed.

Lemma extension_of_toUpperCase (n : string) :
  extension_of (JS.toUpperCase n) = extension_of n.
Proof.
  unfold extension_of, pop. rewrite split_toUpperCase.
  rewrite last_fmap by apply split_nonempty.
  now rewrite toLowerCase_toUpperCase.
Qed.

(** X1. For a kind of input that has a policy and a file within the
    size limit, the type check looks only at what follows the last dot
    of the file name (the whole name when it has no dot), whatever its
    case: the file passes exactly when that text, in lower case and
    after a dot, is an allowed extension.  Writing the name in upper
    case changes nothing. *)
Theorem validateFile_reads_last_extension (file : File) (kind : string)
    (allowed : list string) (stem ext : string) :
  allowedTypes !! kind = Some allowed ->
  file_size file <= maxFileSize ->
  occurs "." ext = false ->
  file_name file = stem ++ "." ++ ext \/ file_name file = ext ->
  ((validateFile formatFileSize file (Some kind)).1 = true
   <-> "." ++ toLowerCase ext ∈ allowed) /\
  validateFile formatFileSize
    {| file_name := JS.toUpperCase (file_name file); file_size := file_size file |}
    (Some kind)
  = validateFile formatFileSize file (Some kind).
Proof.
  intros Hk Hsize Hext Hname. split.
  - rewrite (validateFile_accepts _ _ _ Hk).
    assert (Hx : extension_of (file_name file) = "." ++ toLowerCase ext).
    { unfold extension_of. f_equal. f_equal.
      destruct Hname as [-> | ->].
      - apply (pop_split_app "." stem ext Hext).
      - now rewrite (split_without_separator _ _ Hext). }
    rewrite Hx. tauto.
  - unfold validateFile. simpl file_size. simpl file_name.
    now rewrite extension_of_toUpperCase.
Qed.

(** X2. Every kind that [getFileTypeFromInput] gives to an input has a
    policy in the table of allowed types, so a recognised input is
    always type-checked: a file passes exactly when it is within the
    size limit and has an allowed extension.  For an input that is not
    recognised only the size limit counts. *)
Theorem recognised_input_is_type_checked (input_id input_name : string) :
  (forall kind, getFileTypeFromInput input_id input_name = Some kind ->
     exists allowed, allowedTypes !! kind = Some allowed /\
       forall file,
         (validateFile formatFileSize file (Some kind)).1 = true
         <-> file_size file <= maxFileSize
             /\ extension_of (file_name file) ∈ allowed) /\
  (getFileTypeFromInput input_id input_name = None ->
     forall file,
       (validateFile formatFileSize file None).1 = true
       <-> file_size file <= maxFileSize).
Proof.
  split.
  - intros kind Hkind.
    assert (Hpolicy : exists allowed, allowedTypes !! kind = Some allowed).
    { unfold getFileTypeFromInput in Hkind.
      repeat match type of Hkind with
             | (if ?b then _ else _) = _ => destruct b
             end; try discriminate; injection Hkind as <-; eexists; reflexivity. }
    destruct Hpolicy as (allowed & Hk). exists allowed. split; [exact Hk|].
    intros file. now apply validateFile_accepts.
  - intros _ file. unfold validateFile. simpl.
    destruct (maxFileSize <? file_size file) eqn:Hs; simpl.
    + apply Z.ltb_lt in Hs. split; [discriminate | lia].
    + apply Z.ltb_ge in Hs. tauto.
Qed.

End UploadCheckFacts.

Section UploadCheckRuns.
Import FileUpload Uploads JSText.

Lemma validateFile_reads_last_extension_witness :
  (validateFile (fun _ => "10 MB")
     {| file_name := "method.v2.DOCX"; file_size := 2048 |} (Some "stp_file")).1 = true /\
  (validateFile (fun _ => "10 MB")
     {| file_name := "docx"; file_size := 2048 |} (Some "stp_file")).1 = true.
Proof.
  split.
  - apply (validateFile_reads_last_extension (fun _ => "10 MB")
             {| file_name := "method.v2.DOCX"; file_size := 2048 |}
             "stp_file" [".doc"; ".docx"] "method.v2" "DOCX");
      [reflexivity | unfold maxFileSize; simpl; lia | reflexivity
      | left; reflexivity | ].
    apply list_elem_of_In. simpl. tauto.
  - apply (validateFile_reads_last_extension (fun _ => "10 MB")
             {| file_name := "docx"; file_size := 2048 |}
             "stp_file" [".doc"; ".docx"] "" "docx");
      [reflexivity | unfold maxFileSize; simpl; lia | reflexivity
      | right; reflexivity | ].
    apply list_elem_of_In. simpl. tauto.
Defined.

Lemma recognised_input_is_type_checked_witness :
  exists allowed, allowedTypes !! "raw_data_file" = Some allowed /\
    ((validateFile (fun _ => "10 MB")
        {| file_name := "results.xlsx"; file_size := 4096 |} (Some "raw_data_file")).1 = true
     <-> 4096 <= maxFileSize /\ extension_of "results.xlsx" ∈ allowed).
Proof.
  destruct (recognised_input_is_type_checked (fun _ => "10 MB") "metadata_upload" "")
    as [Hrecognised _].
  destruct (Hrecognised "raw_data_file" eq_refl) as (allowed & Hk & Hfile).
  exists allowed. split; [exact Hk|].
  apply (Hfile {| file_name := "results.xlsx"; file_size := 4096 |}).
Defined.

End UploadCheckRuns.

Section UploadKindFacts.
Import FileUpload Uploads JSText.

Lemma prefix_split (p s : string) :
  String.prefix p s = true -> exists rest, s = p ++ rest.
Proof.
  revert s. induction p as [|c p IH]; intros s Hp.
  - now exists s.
  - destruct s as [|d s]; [discriminate|]. simpl in Hp.
    destruct (ascii_dec c d) as [->|]; [|discriminate].
    destruct (IH s Hp) as (rest & ->). now exists rest.
Qed.

Lemma append_assoc (a b c : string) : (a ++ b) ++ c = a ++ (b ++ c).
Proof.
  induction a as [|x a IH]; [reflexivity|].
  change (String x ((a ++ b) ++ c) = String x (a ++ (b ++ c))). now rewrite IH.
Qed.

(** A text that contains [a ++ b] contains [b]. *)
Lemma includes_tail (s a b : string) :
  JS.includes s (a ++ b) = true -> JS.includes s b = true.
Proof.
  induction s as [|c s IH]; rewrite includes_unfold; intros Hs.
  - rewrite orb_false_r in Hs. apply prefix_split in Hs as (rest & E).
    rewrite E, append_assoc. apply includes_skip, includes_prefix.
  - apply orb_true_iff in Hs as [Hp|Hs].
    + apply prefix_split in Hp as (rest & E).
      rewrite E, append_assoc. apply includes_skip, includes_prefix.
    + rewrite (includes_unfold (String c s)), (IH Hs). apply orb_true_r.
Qed.

(** X3. An input is typed by the first of the tokens [stp], [data],
    [logo], [signature] that its identifier ([id], or [name] when the
    [id] is empty) contains: the separate test for [raw_data] never
    decides, and an identifier with [data] in it is a raw-data input
    even when it also names a logo or a signature. *)
Theorem getFileTypeFromInput_first_token (input_id input_name : string) :
  let id := if JS.truthy_string input_id then input_id else input_name in
  getFileTypeFromInput input_id input_name
  = if JS.includes id "stp" then Some "stp_file"
    else if JS.includes id "data" then Some "raw_data_file"
    else if JS.includes id "logo" then Some "logo"
    else if JS.includes id "signature" then Some "signature"
    else None.
Proof.
  intros id. unfold getFileTypeFromInput. fold id.
  destruct (JS.includes id "stp"); [reflexivity|].
  destruct (JS.includes id "raw_data") eqn:Hraw; [|reflexivity].
  now rewrite (includes_tail id "raw_" "data" Hraw).
Qed.

End UploadKindFacts.

(** ** File upload: the selected files *)

Section UploadedFacts.
Import FileUpload Uploads MoreSamples.

Lemma label_of_clear_value (i : FileInput) : label_of (clear_value i) = label_of i.
Proof. reflexivity. Qed.

Lemma no_file_clear_value (i : FileInput) : no_file (clear_value i) = true.
Proof. unfold no_file, clear_value. simpl. now destruct (FileUpload.files i). Qed.

Lemma resetAllFiles_inputs (document : list FileElement) :
  input <$> resetAllFiles document = clear_value <$> (input <$> document).
Proof.
  induction document as [|el document IH]; [reflexivity|].
  simpl resetAllFiles. rewrite !fmap_cons. f_equal; [|exact IH].
  destruct el as [[n c r fs g] i]. simpl.
  destruct c; [reflexivity|]. now destruct fs.
Qed.

(** What [validateRequiredFiles] answers, from the inputs it finds
    missing. *)
Lemma validateRequiredFiles_by_missing (inputs : list FileInput) :
  validateRequiredFiles inputs
  = match missing_inputs inputs with
    | [] => (true, [])
    | _ :: _ =>
        (false, ["Please upload the following required files: "
                   ++ JS.join ", " (label_of <$> missing_inputs inputs)])
    end.
Proof.
  unfold validateRequiredFiles.
  rewrite push_missing_labels, required_without_file. simpl app.
  now destruct (missing_inputs inputs).
Qed.

Lemma missing_inputs_cleared (inputs : list FileInput) :
  missing_inputs (clear_value <$> inputs)
  = clear_value
      <$> filter (fun i => file_input_class i && required i = true) inputs.
Proof.
  unfold missing_inputs. induction inputs as [|i inputs IH]; [reflexivity|].
  rewrite fmap_cons, !filter_cons, IH, no_file_clear_value, andb_true_r.
  change (file_input_class (clear_value i)) with (file_input_class i).
  change (required (clear_value i)) with (required i).
  destruct (decide (file_input_class i && required i = true)); reflexivity.
Qed.

Lemma getUploadedFiles_step_cleared (document : list FileElement)
    (files : gmap string string) :
  fold_left add_uploaded (resetAllFiles document) files = files.
Proof.
  revert files. induction document as [|el document IH]; intros files; [reflexivity|].
  simpl. rewrite IH. destruct el as [[n c r fs g] i]. unfold add_uploaded. simpl.
  destruct c; simpl; now destruct fs.
Qed.

(** X4. After [resetAllFiles] no file is left selected: the uploaded
    files are empty, and [validateRequiredFiles] fails naming every
    required input of the page, or passes when the page has none. *)
Theorem resetAllFiles_leaves_nothing_selected (document : list FileElement) :
  let required_inputs :=
    filter (fun i => file_input_class i && required i = true) (input <$> document) in
  getUploadedFiles (resetAllFiles document) = ∅ /\
  validateRequiredFiles (input <$> resetAllFiles document)
  = match required_inputs with
    | [] => (true, [])
    | _ :: _ =>
        (false, ["Please upload the following required files: "
                   ++ JS.join ", " (label_of <$> required_inputs)])
    end.
Proof.
  intros required_inputs. split.
  - apply getUploadedFiles_step_cleared.
  - rewrite validateRequiredFiles_by_missing, resetAllFiles_inputs, missing_inputs_cleared.
    fold required_inputs. destruct required_inputs as [|i l]; [reflexivity|].
    rewrite fmap_cons. do 3 f_equal.
    rewrite <- !fmap_cons, <- list_fmap_compose. f_equal.
Qed.




End UploadedFacts.

(** ** Document creation: validation of the form *)

Section CreationFormFacts.
Import CreationForm MoreSamples.







(** The loop over the parameters pushes one message per blank required
    control, in document order. *)
Lemma push_type_errors (currentDocumentType : string) (els : list Element)
    (errors : list string) :
  fold_left
    (fun (errors : list string) field =>
       if required_parameter field && blank field then
         app errors [label_of field ++ " is required for "
                       ++ currentDocumentType ++ " documents"]
       else errors)
    els errors
  = app errors
      ((fun field => label_of field ++ " is required for "
                       ++ currentDocumentType ++ " documents")
         <$> filter (fun field => required_parameter field && blank field = true) els).
Proof.
  revert errors. induction els as [|e els IH]; intros errors; simpl.
  - now rewrite app_nil_r.
  - rewrite IH, filter_cons. destruct (required_parameter e && blank e).
    + rewrite decide_True by reflexivity. simpl. now rewrite <- app_assoc.
    + rewrite decide_False by discriminate. reflexivity.
Qed.




(** The names of the controls of the container. *)
Lemma container_names_map (g : Element -> Element) (els : list Element) :
  (forall e, in_parameters (g e) = in_parameters e /\ name (g e) = name e) ->
  name <$> filter (fun e => in_parameters e = true) (map g els)
  = name <$> filter (fun e => in_parameters e = true) els.
Proof.
  intros Hg. induction els as [|e els IH]; [reflexivity|].
  simpl map. rewrite !filter_cons. destruct (Hg e) as [Hp Hn]. rewrite Hp.
  destruct (decide (in_parameters e = true)); [|exact IH].
  rewrite !fmap_cons, Hn. now f_equal.
Qed.

(** With distinct names in the container, marking the first control
    of a name marks the only one. *)
Lemma update_first_by_name (n : string) (f : Element -> Element) (els : list Element) :
  NoDup (name <$> filter (fun e => in_parameters e = true) els) ->
  update_first (fun e => in_parameters e && String.eqb (name e) n) f els
  = map (fun e => if in_parameters e && String.eqb (name e) n then f e else e) els.
Proof.
  induction els as [|e els IH]; [reflexivity|].
  rewrite filter_cons. intros Hnd. simpl.
  destruct (in_parameters e) eqn:Hp; simpl.
  - rewrite decide_True in Hnd by reflexivity. rewrite fmap_cons in Hnd.
    apply NoDup_cons in Hnd as [Hnotin Hnd].
    destruct (String.eqb (name e) n) eqn:Hn.
    + apply String.eqb_eq in Hn. f_equal.
      clear IH Hnd. induction els as [|e' els IH]; [reflexivity|].
      rewrite filter_cons in Hnotin. simpl.
      destruct (in_parameters e') eqn:Hp'; simpl.
      * rewrite decide_True in Hnotin by reflexivity. rewrite fmap_cons in Hnotin.
        apply not_elem_of_cons in Hnotin as [Hne Hnotin].
        assert (Hn' : String.eqb (name e') n = false)
          by (apply String.eqb_neq; congruence).
        rewrite Hn'. f_equal. now apply IH.
      * rewrite decide_False in Hnotin by discriminate. f_equal. now apply IH.
    + f_equal. now apply IH.
  - rewrite decide_False in Hnd by discriminate. f_equal. now apply IH.
Qed.

Lemma set_requirements_loop (reqs : list string) (els : list Element) :
  NoDup (name <$> filter (fun e => in_parameters e = true) els) ->
  fold_left
    (fun els fieldName =>
       update_first (fun e => in_parameters e && String.eqb (name e) fieldName)
                    (set_required true) els)
    reqs els
  = map (fun e => if in_parameters e && bool_decide (name e ∈ reqs)
                  then set_required true e else e) els.
Proof.
  revert els. induction reqs as [|n reqs IH]; intros els Hnd.
  - cbn [fold_left]. rewrite <- (map_id els) at 1. apply map_ext. intros e.
    rewrite (bool_decide_eq_false_2 (name e ∈ [])) by apply not_elem_of_nil.
    now rewrite andb_false_r.
  - cbn [fold_left]. rewrite (update_first_by_name n _ els Hnd), IH.
    + rewrite map_map. apply map_ext. intros e.
      destruct (in_parameters e) eqn:Hp; simpl.
      * destruct (String.eqb (name e) n) eqn:Hn.
        -- apply String.eqb_eq in Hn. simpl. rewrite Hp. simpl.
           rewrite (bool_decide_eq_true_2 (name e ∈ n :: reqs))
             by (rewrite Hn; left).
           now destruct (bool_decide (name e ∈ reqs)).
        -- apply String.eqb_neq in Hn. rewrite Hp. simpl.
           rewrite (bool_decide_ext (name e ∈ n :: reqs) (name e ∈ reqs)); [reflexivity|].
           rewrite elem_of_cons. tauto.
      * now rewrite Hp.
    + rewrite container_names_map; [exact Hnd|].
      intros e. now destruct (in_parameters e && String.eqb (name e) n).
Qed.

Lemma fmap_filter_map (h : Element -> Element) (p q : Element -> bool)
    (g : Element -> string) (els : list Element) :
  (forall e, p (h e) = q e) ->
  (forall e, q e = true -> g (h e) = g e) ->
  g <$> filter (fun e => p e = true) (map h els)
  = g <$> filter (fun e => q e = true) els.
Proof.
  intros Hp Hg. induction els as [|e els IH]; [reflexivity|].
  simpl map. rewrite !filter_cons, Hp.
  destruct (decide (q e = true)) as [Hq|]; [|exact IH].
  rewrite !fmap_cons, IH. f_equal. now apply Hg.
Qed.

(** X7. On a page whose container has controls of distinct names,
    [setDocumentTypeRequirements] replaces the requirements: a control
    of the container named by the rule of the current type becomes
    required, any other input or select of the container stops being
    required, and nothing else changes.  The type-specific validation
    that follows then reports exactly the blank inputs and selects the
    rule names, in document order; for a type without a rule it
    reports nothing. *)
Theorem setDocumentTypeRequirements_replaces (currentDocumentType : string)
    (page : FormPage) :
  parameters_container page = true ->
  NoDup (name <$> filter (fun e => in_parameters e = true) page.(elements)) ->
  let reqs := default [] (requirements !! currentDocumentType) in
  let page' := setDocumentTypeRequirements currentDocumentType page in
  elements page' = map (apply_requirements reqs) (elements page) /\
  (validateDocumentTypeFields currentDocumentType page').1
  = (fun field => label_of field ++ " is required for "
                    ++ currentDocumentType ++ " documents")
      <$> filter (fun e => in_parameters e && is_input_or_select e
                           && bool_decide (name e ∈ reqs) && blank e = true)
                 (elements page) /\
  (requirements !! currentDocumentType = None ->
   (validateDocumentTypeFields currentDocumentType page').1 = []).
Proof.
  intros Hc Hnd reqs page'.
  assert (Hels : elements page' = map (apply_requirements reqs) (elements page)).
  { subst page'. unfold setDocumentTypeRequirements. rewrite Hc. cbn [negb elements].
    fold reqs. rewrite set_requirements_loop.
    - rewrite map_map. apply map_ext. intros e. unfold apply_requirements.
      destruct (in_parameters e) eqn:Hp; simpl.
      + destruct (is_input_or_select e); simpl; rewrite ?Hp; simpl;
          now destruct (bool_decide (name e ∈ reqs)).
      + now rewrite Hp.
    - rewrite container_names_map; [exact Hnd|].
      intros e. now destruct (in_parameters e && is_input_or_select e). }
  assert (Herrors : (validateDocumentTypeFields currentDocumentType page').1
    = (fun field => label_of field ++ " is required for "
                      ++ currentDocumentType ++ " documents")
        <$> filter (fun e => in_parameters e && is_input_or_select e
                             && bool_decide (name e ∈ reqs) && blank e = true)
                   (elements page)).
  { unfold validateDocumentTypeFields.
    assert (Hc' : parameters_container page' = true) by (subst page';
      unfold setDocumentTypeRequirements; now rewrite Hc).
    rewrite Hc'. cbn [negb fst]. rewrite push_type_errors, Hels. cbn [app].
    apply (fmap_filter_map (apply_requirements reqs)
             (fun e => required_parameter e && blank e)
             (fun e => in_parameters e && is_input_or_select e
                       && bool_decide (name e ∈ reqs) && blank e)).
    - intros e.
      unfold apply_requirements, required_parameter, is_input_or_select, blank.
      destruct (in_parameters e) eqn:Hp; simpl.
      + destruct (bool_decide (name e ∈ reqs)); simpl; rewrite ?Hp; simpl.
        * now destruct (tag e).
        * destruct (tag e) eqn:Ht; simpl; rewrite ?Hp, ?Ht; simpl;
            now rewrite ?andb_false_r.
      + now rewrite Hp.
    - intros e _. unfold apply_requirements, label_of.
      destruct (in_parameters e); [|reflexivity].
      destruct (bool_decide (name e ∈ reqs)); [reflexivity|].
      now destruct (is_input_or_select e). }
  split; [exact Hels|]. split; [exact Herrors|].
  intros Hnone. rewrite Herrors. subst reqs. rewrite Hnone. simpl default.
  clear. induction (elements page) as [|e els IH]; [reflexivity|].
  rewrite filter_cons, decide_False; [exact IH|].
  rewrite bool_decide_eq_false_2 by apply not_elem_of_nil.
  rewrite andb_false_r. discriminate.
Qed.

Lemma setDocumentTypeRequirements_replaces_witness :
  (validateDocumentTypeFields "PV"
     (setDocumentTypeRequirements "PV" creation_page)).1
  = ["Process Name is required for PV documents"].
Proof.
  destruct (setDocumentTypeRequirements_replaces "PV" creation_page) as (_ & Herrors & _).
  - reflexivity.
  - apply NoDup_ListNoDup. simpl. repeat constructor; simpl; intuition discriminate.
  - rewrite Herrors. reflexivity.
Defined.

End CreationFormFacts.

(** ** Document creation: drafts, saved and loaded *)

Section DraftRoundTrip.
Import DocumentCreation Samples.



End DraftRoundTrip.

(** ** Document creation: submission *)

Section SubmissionFacts.
Import DocumentCreation Submission MoreSamples.








End SubmissionFacts.

(** ** AMV form: e-mail addresses *)

Section RegexFacts.
Import AMVForm JSText.

Lemma regex_test_end (s : string) : regex_test [] s = true <-> s = "".
Proof. destruct s; simpl; split; congruence. Qed.

Lemma regex_test_lit (c : ascii) (rest : list Piece) (s : string) :
  regex_test (Lit c :: rest) s = true
  <-> exists t, s = String c t /\ regex_test rest t = true.
Proof.
  destruct s as [|c' s]; simpl.
  - split; [discriminate | intros (t & ? & _); discriminate].
  - rewrite andb_true_iff, Ascii.eqb_eq. split.
    + intros [-> Ht]. now exists s.
    + intros (t & [= -> ->] & Ht). auto.
Qed.

(** One or more characters of a class, then the rest: some non-empty
    prefix within the class is followed by a match of the rest. *)
Lemma regex_test_plus (p : ascii -> bool) (rest : list Piece) (s : string) :
  regex_test (Plus p :: rest) s = true
  <-> exists a t, s = a ++ t /\ a <> "" /\ every p a = true
                  /\ regex_test rest t = true.
Proof.
  induction s as [|c s IH].
  - simpl. split; [discriminate|].
    intros (a & t & Hs & Ha & _). destruct a; [congruence | discriminate].
  - change (regex_test (Plus p :: rest) (String c s))
      with (p c && (regex_test rest s || regex_test (Plus p :: rest) s)).
    rewrite andb_true_iff, orb_true_iff, IH. split.
    + intros [Hc [Hs | (a & t & -> & Ha & Hp & Ht)]].
      * exists (String c ""), s. repeat split; [discriminate | | exact Hs].
        simpl. now rewrite Hc.
      * exists (String c a), t. repeat split; [discriminate | | exact Ht].
        simpl. now rewrite Hc, Hp.
    + intros (a & t & Hs & Ha & Hp & Ht). destruct a as [|c' a]; [congruence|].
      change (String c' a ++ t) with (String c' (a ++ t)) in Hs.
      injection Hs as <- ->. simpl in Hp. apply andb_true_iff in Hp as [Hc Hp].
      split; [exact Hc|]. destruct a as [|c'' a].
      * left. exact Ht.
      * right. exists (String c'' a), t. repeat split; [discriminate | exact Hp | exact Ht].
Qed.

Lemma count_app (c : ascii) (a b : string) : count c (a ++ b) = (count c a + count c b)%nat.
Proof.
  induction a as [|x a IH]; [reflexivity|].
  change (String x a ++ b) with (String x (a ++ b)). simpl. rewrite IH. lia.
Qed.

Lemma every_app (p : ascii -> bool) (a b : string) :
  every p (a ++ b) = every p a && every p b.
Proof.
  induction a as [|x a IH]; [reflexivity|].
  change (String x a ++ b) with (String x (a ++ b)). simpl.
  now rewrite IH, andb_assoc.
Qed.

Lemma class_without_at (a : string) :
  every not_space_or_at a = true ->
  count "@" a = 0%nat /\ every (fun c => negb (JS.is_white_space c)) a = true.
Proof.
  induction a as [|c a IH]; [now split|].
  simpl. intros Hc. apply andb_true_iff in Hc as [Hc Ha].
  destruct (IH Ha) as [Hn Hw]. unfold not_space_or_at in Hc.
  apply negb_true_iff, orb_false_iff in Hc as [Hs Hat].
  now rewrite Hat, Hn, Hs, Hw.
Qed.

(** X11. The e-mail pattern accepts exactly the texts of the shape
    [local@domain.tail] whose three parts are non-empty and free of
    white space and of [@]; the domain and the tail may contain dots.
    So an accepted address has no white space and exactly one [@]. *)
Theorem emailRegex_accepts (s : string) :
  (regex_test emailRegex s = true
   <-> exists a b c,
         s = a ++ "@" ++ b ++ "." ++ c /\
         a <> "" /\ b <> "" /\ c <> "" /\
         every not_space_or_at a = true /\
         every not_space_or_at b = true /\
         every not_space_or_at c = true) /\
  (regex_test emailRegex s = true ->
   count "@" s = 1%nat /\ every (fun c => negb (JS.is_white_space c)) s = true).
Proof.
  assert (Hiff : regex_test emailRegex s = true
    <-> exists a b c,
          s = a ++ "@" ++ b ++ "." ++ c /\
          a <> "" /\ b <> "" /\ c <> "" /\
          every not_space_or_at a = true /\
          every not_space_or_at b = true /\
          every not_space_or_at c = true).
  { unfold emailRegex. rewrite regex_test_plus. split.
    - intros (a & t & -> & Ha & Hpa & Ht).
      apply regex_test_lit in Ht as (t1 & -> & Ht).
      apply regex_test_plus in Ht as (b & t2 & -> & Hb & Hpb & Ht).
      apply regex_test_lit in Ht as (t3 & -> & Ht).
      apply regex_test_plus in Ht as (c & t4 & -> & Hc & Hpc & Ht).
      apply regex_test_end in Ht as ->.
      exists a, b, c. rewrite append_empty_r. repeat split; assumption.
    - intros (a & b & c & -> & Ha & Hb & Hc & Hpa & Hpb & Hpc).
      exists a, ("@" ++ b ++ "." ++ c). repeat split; try assumption.
      apply regex_test_lit. exists (b ++ "." ++ c). split; [reflexivity|].
      apply regex_test_plus. exists b, ("." ++ c). repeat split; try assumption.
      apply regex_test_lit. exists c. split; [reflexivity|].
      apply regex_test_plus. exists c, "". rewrite append_empty_r.
      repeat split; try assumption. }
  split; [exact Hiff|].
  intros Hs. apply Hiff in Hs as (a & b & c & -> & _ & _ & _ & Hpa & Hpb & Hpc).
  apply class_without_at in Hpa as [Ha Hwa].
  apply class_without_at in Hpb as [Hb Hwb].
  apply class_without_at in Hpc as [Hc Hwc].
  rewrite !count_app, !every_app, Ha, Hb, Hc, Hwa, Hwb, Hwc. split; reflexivity.
Qed.

Lemma emailRegex_accepts_witness :
  count "@" "qa.lab@pharma.example.org" = 1%nat /\
  every (fun c => negb (JS.is_white_space c)) "qa.lab@pharma.example.org" = true.
Proof.
  destruct (emailRegex_accepts "qa.lab@pharma.example.org") as [_ Hone].
  apply Hone. reflexivity.
Defined.

End RegexFacts.

(** ** AMV form: validation of one field *)

Section FieldFacts.
Import AMV AMVForm.

(** X12. [validateField] accepts a field exactly when: it is not both
    required and blank; if it is a number field that is not blank, its
    text starts with a number, and a negative one only under a name
    that contains [weight] or [volume]; and if it is an e-mail field
    that is not blank, the pattern accepts its trimmed text.  A blank
    field that is not required is always accepted. *)
Theorem validateField_accepts (field : TypedField) :
  let value := JS.trim field.(t_value) in
  let num := JS.parseFloat value in
  ((validateField field).1 = true
   <-> (t_required field = true -> value <> "") /\
       (t_type field = "number" -> value <> "" ->
          JS.isNaN num = false /\
          ((num <? 0)%float = true ->
             JS.includes field.(t_name) "weight" = true
             \/ JS.includes field.(t_name) "volume" = true)) /\
       (t_type field = "email" -> value <> "" ->
          regex_test emailRegex value = true)) /\
  (t_required field = false -> value = "" ->
     validateField field = (true, [clearFieldError])).
Proof.
  intros value num. unfold validateField. fold value. fold num.
  split.
  - destruct (t_required field) eqn:Hreq; destruct (JS.truthy_string value) eqn:Hv;
      cbn [andb negb].
    2: { split; [discriminate|]. intros (Hr & _).
         apply truthy_string_false in Hv. now specialize (Hr eq_refl). }
    all: try (apply truthy_string_true in Hv).
    all: try (apply truthy_string_false in Hv).
    all: rewrite ?andb_true_r, ?andb_false_r; cbn [andb].
    all: destruct (String.eqb (t_type field) "number") eqn:Hnum;
      [apply String.eqb_eq in Hnum | apply String.eqb_neq in Hnum];
      destruct (String.eqb (t_type field) "email") eqn:Hmail;
      [apply String.eqb_eq in Hmail | apply String.eqb_neq in Hmail
      |apply String.eqb_eq in Hmail | apply String.eqb_neq in Hmail];
      try congruence; cbn [andb].
    all: try (destruct (JS.isNaN num) eqn:Hnan;
              [split; [discriminate | intros (_ & Hn & _);
                 now destruct (Hn Hnum Hv)] |]).
    all: try (destruct (num <? 0)%float eqn:Hneg;
              destruct (JS.includes (t_name field) "weight") eqn:Hw;
              destruct (JS.includes (t_name field) "volume") eqn:Hvol;
              cbn [andb negb]).
    all: try (destruct (regex_test emailRegex value) eqn:Hre; cbn [negb]).
    all: try (split; [discriminate|]; intros (_ & Hn & Hm)).
    all: try (now destruct (Hn Hnum Hv) as [_ [?|?]]).
    all: try (now specialize (Hm Hmail Hv)).
    all: try (split; [intros _|reflexivity]).
    all: repeat split; try congruence; try (intros; congruence); auto.
  - intros Hreq Hblank. rewrite Hreq, Hblank. cbn. now rewrite !andb_false_r.
Qed.

Lemma validateField_accepts_witness :
  validateField {| t_value := "  "; t_name := "contact_email";
                   t_type := "email"; t_required := false |}
  = (true, [clearFieldError]).
Proof.
  apply (validateField_accepts
           {| t_value := "  "; t_name := "contact_email";
              t_type := "email"; t_required := false |}); reflexivity.
Defined.

End FieldFacts.

(** ** AMV form: extracted parameters *)

Section ExtractionFacts.
Context `{JSRuntime}.
Variable assigned : string -> string -> string.
Import AMV AMVForm.

(** The fields the mapping can name. *)
Lemma getFieldMapping_range (currentInstrument : option string) (key fieldName : string) :
  getFieldMapping currentInstrument !! key = Some fieldName ->
  fieldName ∈ ["hplc_wavelength"; "uv_wavelength"; "hplc_flow_rate";
               "hplc_injection_volume"; "hplc_weight_standard"; "uv_weight_standard";
               "hplc_weight_sample"; "uv_weight_sample";
               "hplc_final_concentration_standard"; "uv_final_concentration_standard"]
  /\ (currentInstrument <> Some "hplc" ->
      fieldName ∈ ["uv_wavelength"; "hplc_flow_rate"; "hplc_injection_volume";
                   "uv_weight_standard"; "uv_weight_sample";
                   "uv_final_concentration_standard"]).
Proof.
  unfold getFieldMapping. intros Hk. apply elem_of_list_to_map_2 in Hk.
  destruct (bool_decide (currentInstrument = Some "hplc")) eqn:Hh.
  - apply bool_decide_eq_true in Hh.
    repeat (apply elem_of_cons in Hk as [Hk|Hk];
            [injection Hk as -> ->;
             split; [apply list_elem_of_In; simpl; tauto | congruence]|]).
    now apply elem_of_nil in Hk.
  - repeat (apply elem_of_cons in Hk as [Hk|Hk];
            [injection Hk as -> ->;
             split; [|intros _]; apply list_elem_of_In; simpl; tauto|]).
    now apply elem_of_nil in Hk.
Qed.

(** One entry: what it can do to a field. *)
Lemma populate_entry_lookup (currentInstrument : option string)
    (doc : gmap string string) (entry : string * ParamValue) (n : string) :
  populate_entry assigned currentInstrument doc entry !! n = doc !! n
  \/ (doc !! n = Some ""
      /\ exists text, value_text entry.2 = Some text
           /\ getFieldMapping currentInstrument !! entry.1 = Some n
           /\ populate_entry assigned currentInstrument doc entry = <[n := assigned n text]> doc).
Proof.
  unfold populate_entry.
  destruct (value_text entry.2) as [text|]; [|now left].
  destruct (getFieldMapping currentInstrument !! entry.1) as [fieldName|] eqn:Hm;
    [|now left].
  destruct (doc !! fieldName) as [v|] eqn:Hv; [|now left].
  destruct (JS.truthy_string v) eqn:Ht; [now left|]. cbn [negb].
  apply truthy_string_false in Ht as ->.
  destruct (decide (fieldName = n)) as [->|Hne].
  - right. split; [exact Hv|]. exists text. auto.
  - left. now rewrite lookup_insert_ne.
Qed.

Lemma populate_keeps_filled (currentInstrument : option string)
    (parameters : list (string * ParamValue)) (doc : gmap string string)
    (n v : string) :
  doc !! n = Some v -> v <> "" ->
  populateExtractedParameters assigned currentInstrument parameters doc !! n = Some v.
Proof.
  unfold populateExtractedParameters. revert doc.
  induction parameters as [|entry parameters IH]; intros doc Hn Hv; [exact Hn|].
  simpl. apply IH; [|exact Hv].
  destruct (populate_entry_lookup currentInstrument doc entry n) as [-> | [Hempty _]];
    [exact Hn | congruence].
Qed.

Lemma populate_keeps_fields (currentInstrument : option string)
    (parameters : list (string * ParamValue)) (doc : gmap string string) (n : string) :
  is_Some (populateExtractedParameters assigned currentInstrument parameters doc !! n)
  <-> is_Some (doc !! n).
Proof.
  unfold populateExtractedParameters. revert doc.
  induction parameters as [|entry parameters IH]; intros doc; [reflexivity|].
  simpl. rewrite IH.
  destruct (populate_entry_lookup currentInstrument doc entry n)
    as [-> | (Hempty & text & _ & _ & ->)]; [reflexivity|].
  rewrite lookup_insert_eq, Hempty. split; eauto.
Qed.

(** Every entry leaves the final form as it is. *)
Lemma populate_entry_settled (currentInstrument : option string)
    (parameters : list (string * ParamValue)) (doc : gmap string string)
    (entry : string * ParamValue) :
  entry ∈ parameters ->
  populate_entry assigned currentInstrument
    (populateExtractedParameters assigned currentInstrument parameters doc) entry
  = populateExtractedParameters assigned currentInstrument parameters doc.
Proof.
  unfold populateExtractedParameters. revert doc.
  induction parameters as [|e parameters IH]; intros doc Hin.
  - now apply elem_of_nil in Hin.
  - apply elem_of_cons in Hin as [->|Hin]; [|now apply IH].
    simpl. set (doc1 := populate_entry assigned currentInstrument doc e).
    set (final := fold_left (populate_entry assigned currentInstrument) parameters doc1).
    unfold populate_entry at 1.
    destruct (value_text e.2) as [text|] eqn:Htext; [|reflexivity].
    destruct (getFieldMapping currentInstrument !! e.1) as [fieldName|] eqn:Hm;
      [|reflexivity].
    destruct (final !! fieldName) as [v|] eqn:Hfinal; [|reflexivity].
    destruct (JS.truthy_string v) eqn:Hv; [reflexivity|]. cbn [negb].
    apply truthy_string_false in Hv as ->.
    assert (Hdoc1 : doc1 !! fieldName = Some "").
    { destruct (doc1 !! fieldName) as [w|] eqn:Hw.
      - destruct (decide (w = "")) as [->|Hne]; [reflexivity|].
        pose proof (populate_keeps_filled currentInstrument parameters doc1
                      fieldName w Hw Hne) as Hkept.
        unfold populateExtractedParameters in Hkept. fold final in Hkept. congruence.
      - assert (Hsome : is_Some (final !! fieldName)) by eauto.
        apply (populate_keeps_fields currentInstrument parameters doc1) in Hsome.
        rewrite Hw in Hsome. now destruct Hsome. }
    assert (Htext' : assigned fieldName text = "").
    { subst doc1. unfold populate_entry in Hdoc1. rewrite Htext, Hm in Hdoc1.
      destruct (doc !! fieldName) as [w|] eqn:Hw; [|congruence].
      destruct (JS.truthy_string w) eqn:Htw; cbn [negb] in Hdoc1.
      - rewrite Hw in Hdoc1. injection Hdoc1 as ->. discriminate.
      - rewrite lookup_insert_eq in Hdoc1. congruence. }
    rewrite Htext'. now apply insert_id.
Qed.

(** X13. [populateExtractedParameters] only fills in blanks: a field
    that holds a value keeps it, no field is created, and only fields
    named by the mapping can change, so that unless the instrument is
    [hplc] the HPLC wavelength, weights and concentration are never
    written.  Running the same extraction again changes nothing. *)
Theorem populateExtractedParameters_fills_blanks (currentInstrument : option string)
    (parameters : list (string * ParamValue)) (doc : gmap string string) :
  let doc' := populateExtractedParameters assigned currentInstrument parameters doc in
  (forall n v, doc !! n = Some v -> v <> "" -> doc' !! n = Some v) /\
  (forall n, is_Some (doc' !! n) <-> is_Some (doc !! n)) /\
  (forall n, doc' !! n <> doc !! n ->
     exists key, key ∈ parameters.*1
       /\ getFieldMapping currentInstrument !! key = Some n) /\
  (currentInstrument <> Some "hplc" ->
   forall n, n ∈ ["hplc_wavelength"; "hplc_weight_standard"; "hplc_weight_sample";
                  "hplc_final_concentration_standard"] ->
     doc' !! n = doc !! n) /\
  populateExtractedParameters assigned currentInstrument parameters doc' = doc'.
Proof.
  intros doc'. subst doc'.
  assert (Hframe : forall n,
    populateExtractedParameters assigned currentInstrument parameters doc !! n <> doc !! n ->
    exists key, key ∈ parameters.*1
      /\ getFieldMapping currentInstrument !! key = Some n).
  { intros n. unfold populateExtractedParameters. revert doc.
    induction parameters as [|entry parameters IH]; intros doc Hne;
      [now contradiction Hne|].
    simpl in Hne.
    destruct (populate_entry_lookup currentInstrument doc entry n)
      as [Hsame | (_ & text & _ & Hm & _)].
    - rewrite <- Hsame in Hne. destruct (IH _ Hne) as (key & Hk & Hm).
      exists key. split; [|exact Hm]. rewrite fmap_cons. now right.
    - exists entry.1. split; [|exact Hm]. rewrite fmap_cons. now left. }
  split; [|split; [|split; [|split]]].
  - intros n v. apply populate_keeps_filled.
  - intros n. apply populate_keeps_fields.
  - exact Hframe.
  - intros Hnot n Hn.
    destruct (decide (populateExtractedParameters assigned currentInstrument parameters doc !! n
                      = doc !! n)) as [Heq|Hne]; [exact Heq|].
    destruct (Hframe n Hne) as (key & _ & Hm).
    apply getFieldMapping_range in Hm as [_ Hm]. specialize (Hm Hnot).
    exfalso. apply list_elem_of_In in Hn, Hm. simpl in Hn, Hm.
    repeat (destruct Hn as [<-|Hn];
            [repeat (destruct Hm as [Hm|Hm]; [discriminate|]); exact Hm|]).
    exact Hn.
  - set (final := populateExtractedParameters assigned currentInstrument parameters doc).
    assert (Hall : forall entry, entry ∈ parameters ->
              populate_entry assigned currentInstrument final entry = final)
      by (intros entry; apply populate_entry_settled).
    unfold populateExtractedParameters at 1. clearbody final. clear Hframe.
    induction parameters as [|e parameters IH]; [reflexivity|].
    simpl. rewrite Hall by left. apply IH.
    intros entry Hin. apply Hall. now right.
Qed.

End ExtractionFacts.

Section ExtractionRuns.
Import AMV AMVForm MoreSamples.

Lemma populateExtractedParameters_fills_blanks_witness :
  @populateExtractedParameters plain_runtime (fun _ text => text) (Some "hplc") extracted hplc_form
    !! "hplc_flow_rate" = Some "0.8" /\
  @populateExtractedParameters plain_runtime (fun _ text => text) (Some "gc") extracted hplc_form
    !! "hplc_wavelength" = Some "".
Proof.
  split.
  - destruct (@populateExtractedParameters_fills_blanks plain_runtime
                (fun _ text => text) (Some "hplc") extracted hplc_form) as (Hkept & _).
    apply Hkept; [reflexivity | discriminate].
  - destruct (@populateExtractedParameters_fills_blanks plain_runtime
                (fun _ text => text) (Some "gc") extracted hplc_form) as (_ & _ & _ & Hgc & _).
    rewrite Hgc; [reflexivity | discriminate |].
    apply list_elem_of_In. simpl. tauto.
Defined.

End ExtractionRuns.

(** ** AMV form: instrument parameters *)

Section InstrumentFacts.
Context `{JSRuntime}.
Import AMV AMVForm.

(** One turn of the loop adds no error exactly when there was none and
    the field, if it is there and visible, is in order. *)
Lemma check_parameter_pass (instrumentType : string)
    (paramSection : gmap string ParamField)
    (st : list string * list (string * Feedback)) (fieldName : string) :
  (check_parameter instrumentType paramSection st fieldName).1 = []
  <-> st.1 = []
      /\ forall field, paramSection !! fieldName = Some field ->
           hidden field = false ->
           if JS.includes fieldName "wavelength"
           then (validateWavelengthField (Some (input field))).1 = true
           else JS.trim (el_value (input field)) <> "".
Proof.
  unfold check_parameter. destruct st as [errors shown].
  destruct (paramSection !! fieldName) as [field|]; cbn [fst].
  2: { split; [intros ->; split; [reflexivity | discriminate] | tauto]. }
  destruct (hidden field) eqn:Hh; cbn [fst].
  { split; [intros ->; split; [reflexivity|] | tauto].
    intros f Hf. injection Hf as <-. congruence. }
  destruct (JS.includes fieldName "wavelength").
  - destruct (validateWavelengthField (Some (input field))) as [valid fb] eqn:Hw.
    destruct valid; cbn [negb fst].
    + split; [intros ->; split; [reflexivity|] | tauto].
      intros f Hf _. injection Hf as <-. now rewrite Hw.
    + split.
      * intros Happ. apply app_eq_nil in Happ as [_ Hnil]. discriminate.
      * intros [_ Hf]. specialize (Hf field eq_refl Hh).
        rewrite Hw in Hf. discriminate.
  - destruct (JS.truthy_string (JS.trim (el_value (input field)))) eqn:Hv;
      cbn [negb fst].
    + apply truthy_string_true in Hv.
      split; [intros ->; split; [reflexivity|] | tauto].
      intros f Hf _. now injection Hf as <-.
    + apply truthy_string_false in Hv. split.
      * intros Happ. apply app_eq_nil in Happ as [_ Hnil]. discriminate.
      * intros [_ Hf]. now specialize (Hf field eq_refl Hh).
Qed.

Lemma check_parameters_pass (instrumentType : string)
    (paramSection : gmap string ParamField) (requiredFields : list string)
    (st : list string * list (string * Feedback)) :
  (fold_left (check_parameter instrumentType paramSection) requiredFields st).1 = []
  <-> st.1 = []
      /\ forall fieldName field, fieldName ∈ requiredFields ->
           paramSection !! fieldName = Some field -> hidden field = false ->
           if JS.includes fieldName "wavelength"
           then (validateWavelengthField (Some (input field))).1 = true
           else JS.trim (el_value (input field)) <> "".
Proof.
  revert st. induction requiredFields as [|fieldName requiredFields IH]; intros st.
  - simpl. split; [intros Hst; split; [exact Hst|] | tauto].
    intros fieldName field Hin. now apply elem_of_nil in Hin.
  - simpl. rewrite IH, check_parameter_pass. split.
    + intros [[Hst Hfirst] Hrest]. split; [exact Hst|].
      intros n field Hin. apply elem_of_cons in Hin as [->|Hin].
      * apply Hfirst.
      * now apply Hrest.
    + intros [Hst Hall]. split; [split; [exact Hst|] |].
      * intros field. apply Hall. now left.
      * intros n field Hin. apply Hall. now right.
Qed.

(** X14. For an instrument whose section is on the page,
    [validateInstrumentParameters] reports nothing exactly when every
    required field that is in the section and visible is in order: a
    wavelength passes [validateWavelengthField], any other field is
    not blank.  Required fields that are hidden or not in the section
    are never reported, and a blank wavelength is in order, although
    the field is listed as required. *)
Theorem validateInstrumentParameters_passes_iff (instrumentType : string)
    (sections : gmap string (gmap string ParamField))
    (paramSection : gmap string ParamField) (requiredFields : list string) :
  sections !! (instrumentType ++ "-params") = Some paramSection ->
  getRequiredFieldsForInstrument instrumentType = Some requiredFields ->
  exists errors shown,
    validateInstrumentParameters instrumentType sections = Some (errors, shown) /\
    (errors = []
     <-> forall fieldName field, fieldName ∈ requiredFields ->
           paramSection !! fieldName = Some field -> hidden field = false ->
           if JS.includes fieldName "wavelength"
           then (validateWavelengthField (Some (input field))).1 = true
           else JS.trim (el_value (input field)) <> "") /\
    ((forall fieldName field, fieldName ∈ requiredFields ->
        paramSection !! fieldName = Some field -> hidden field = false ->
        JS.includes fieldName "wavelength" = true
        /\ JS.trim (el_value (input field)) = "") ->
     errors = []).
Proof.
  intros Hsection Hrequired. unfold validateInstrumentParameters.
  rewrite Hsection, Hrequired.
  destruct (fold_left (check_parameter instrumentType paramSection)
              requiredFields ([], [])) as [errors shown] eqn:Hloop.
  exists errors, shown. split; [reflexivity|].
  assert (Hiff : errors = []
    <-> forall fieldName field, fieldName ∈ requiredFields ->
          paramSection !! fieldName = Some field -> hidden field = false ->
          if JS.includes fieldName "wavelength"
          then (validateWavelengthField (Some (input field))).1 = true
          else JS.trim (el_value (input field)) <> "").
  { pose proof (check_parameters_pass instrumentType paramSection requiredFields
                  ([], [])) as Hpass.
    rewrite Hloop in Hpass. cbn [fst] in Hpass. tauto. }
  split; [exact Hiff|].
  intros Hblank. apply Hiff. intros fieldName field Hin Hfield Hvisible.
  destruct (Hblank fieldName field Hin Hfield Hvisible) as [-> Hvalue].
  now rewrite (wavelength_blank _ Hvalue).
Qed.

End InstrumentFacts.

Section InstrumentRuns.
Import AMV AMVForm MoreSamples.

Lemma validateInstrumentParameters_passes_iff_witness :
  exists shown,
    @validateInstrumentParameters plain_runtime "uv" uv_sections = Some ([], shown).
Proof.
  destruct (@validateInstrumentParameters_passes_iff plain_runtime "uv" uv_sections
              {[ "uv_wavelength" :=
                   {| input := {| el_value := "";
                                  el_attributes := {["min" := "190"; "max" := "800"]} |};
                      hidden := false |} ]}
              ["uv_wavelength"] eq_refl eq_refl)
    as (errors & shown & Hresult & _ & Hblank).
  exists shown. rewrite Hresult. do 2 f_equal. apply Hblank.
  intros fieldName field Hin Hfield _.
  apply list_elem_of_In in Hin. destruct Hin as [<-|[]].
  apply lookup_singleton_Some in Hfield as [_ <-]. split; reflexivity.
Defined.

End InstrumentRuns.

(** ** AMV form: chosen files *)

Section ChosenFileFacts.
Variable formatFileSize : Z -> string.
Import AMV AMVForm Uploads JSText.

(** X15. [handleFileUpload] looks at the first file only.  The files
    stay in the input, and the form data is saved, exactly when the
    MIME type or the extension of that file is among the types allowed
    for the input and its size is at most 10 MB; otherwise the input
    is emptied and an error is shown, the type being checked before
    the size.  An input whose name has no list of types refuses every
    file. *)
Theorem handleFileUpload_keeps_valid_files (input_name : string)
    (f : ChosenFile) (rest : list ChosenFile) (allowedTypes : list string) :
  getAllowedFileTypes input_name = Some allowedTypes ->
  let typed := mime f ∈ allowedTypes
               \/ extension_of (file_name (file f)) ∈ allowedTypes in
  exists r,
    handleFileUpload input_name (f :: rest) = Some r /\
    (saved r = true <-> typed /\ file_size (file f) <= 10485760) /\
    files_after r = (if saved r then f :: rest else []) /\
    placeholder r = (if saved r then Some f else None) /\
    (saved r = true -> feedback r = [clearFieldError]) /\
    (~ typed -> feedback r = [showFieldError "Invalid file type"]) /\
    (typed -> 10485760 < file_size (file f) ->
       feedback r = [showFieldError "File size must be less than 10MB"]) /\
    (allowedTypes = [] -> saved r = false).
Proof.
  intros Hallowed typed. subst typed. unfold handleFileUpload. rewrite Hallowed.
  unfold isAllowedExtension.
  destruct (array_includes allowedTypes (mime f)) eqn:Hmime;
    [apply array_includes_elem in Hmime
    |apply not_true_iff_false in Hmime; rewrite array_includes_elem in Hmime];
    (destruct (array_includes allowedTypes (extension_of (file_name (file f))))
       eqn:Hext;
     [apply array_includes_elem in Hext
     |apply not_true_iff_false in Hext; rewrite array_includes_elem in Hext]);
    cbn [negb andb].
  4: { eexists. split; [reflexivity|]. cbn [saved files_after placeholder feedback].
       repeat split; try discriminate; try reflexivity; tauto. }
  all: change (10 * 1024 * 1024) with 10485760.
  all: destruct (10485760 <? file_size (file f)) eqn:Hsize;
    [apply Z.ltb_lt in Hsize | apply Z.ltb_ge in Hsize].
  all: eexists; (split; [reflexivity|]);
    cbn [saved files_after placeholder feedback].
  all: repeat split; try discriminate; try reflexivity; try tauto; try lia.
  all: try (intros ->; discriminate).
  all: try (intros [_ ?]; lia).
  all: try (intros Hno; exfalso; apply Hno; tauto).
  all: intros ->;
    first [now apply elem_of_nil in Hmime | now apply elem_of_nil in Hext].
Qed.

(** X16. For an input named [stp_file] or [raw_data_file], the check
    of the AMV form and the check of the upload manager agree on every
    file whose MIME type is not itself written like an allowed
    extension exactly when the upload manager types the input as its
    name: [getFileTypeFromInput], which reads the id of the input
    before its name, gives the name.  It does when the id is empty or
    equal to the name.  For an input typed otherwise, or not typed,
    there is a file that one check keeps and the other refuses. *)
Theorem upload_checks_agree (input_id input_name : string) :
  input_name = "stp_file" \/ input_name = "raw_data_file" ->
  ((forall (f : ChosenFile) (rest : list ChosenFile) (allowedTypes : list string),
      getAllowedFileTypes input_name = Some allowedTypes ->
      mime f ∉ allowedTypes ->
      exists r,
        handleFileUpload input_name (f :: rest) = Some r /\
        saved r
        = (validateFile formatFileSize (file f)
             (getFileTypeFromInput input_id input_name)).1)
   <-> getFileTypeFromInput input_id input_name = Some input_name) /\
  (input_id = "" \/ input_id = input_name ->
   getFileTypeFromInput input_id input_name = Some input_name).
Proof.
  intros Hname. split; [split|].
  - intros Hagree.
    assert (Hkinds : getFileTypeFromInput input_id input_name
                     ∈ [Some "stp_file"; Some "raw_data_file"; Some "logo";
                        Some "signature"; None]).
    { unfold getFileTypeFromInput.
      repeat match goal with
             | |- context [if ?b then _ else _] => destruct b
             end; apply list_elem_of_In; simpl; tauto. }
    set (kind := getFileTypeFromInput input_id input_name) in *. clearbody kind.
    assert (Hplain : forall allowed : list string,
              (forall x, x ∈ allowed -> String.prefix "." x = true) ->
              "image/png" ∉ allowed).
    { intros allowed Hdots Hin. now apply Hdots in Hin. }
    assert (Hrefuted :
      getAllowedFileTypes input_name = Some [".doc"; ".docx"]
      \/ getAllowedFileTypes input_name = Some [".csv"; ".xls"; ".xlsx"] ->
      forall name' : string,
        (exists r,
           handleFileUpload input_name
             [{| file := {| file_name := name'; file_size := 1 |}; mime := "image/png" |}]
           = Some r
           /\ saved r
              = (validateFile formatFileSize {| file_name := name'; file_size := 1 |}
                   kind).1)).
    { intros Hallowed name'.
      destruct Hallowed as [Hallowed|Hallowed];
        apply (Hagree {| file := {| file_name := name'; file_size := 1 |};
                         mime := "image/png" |} [] _ Hallowed);
        apply Hplain; intros x Hx; apply list_elem_of_In in Hx; simpl in Hx;
        repeat (destruct Hx as [<-|Hx]; [reflexivity|]); contradiction. }
    apply list_elem_of_In in Hkinds. simpl in Hkinds.
    destruct Hname as [-> | ->];
      destruct Hkinds as [<-|[<-|[<-|[<-|[<-|[]]]]]]; try reflexivity; exfalso.
    all: first
      [ destruct (Hrefuted (or_introl eq_refl) "a.png") as (r & Hr & Hs);
        vm_compute in Hr; injection Hr as <-; vm_compute in Hs; discriminate
      | destruct (Hrefuted (or_intror eq_refl) "a.png") as (r & Hr & Hs);
        vm_compute in Hr; injection Hr as <-; vm_compute in Hs; discriminate
      | destruct (Hrefuted (or_introl eq_refl) "a.csv") as (r & Hr & Hs);
        vm_compute in Hr; injection Hr as <-; vm_compute in Hs; discriminate
      | destruct (Hrefuted (or_intror eq_refl) "a.doc") as (r & Hr & Hs);
        vm_compute in Hr; injection Hr as <-; vm_compute in Hs; discriminate ].
  - intros Htyped f rest allowedTypes Hallowed Hmime. rewrite Htyped.
    assert (Hkind : exists allowed,
      Uploads.allowedTypes !! input_name = Some allowed
      /\ forall x, x ∈ allowed <-> x ∈ allowedTypes).
    { destruct Hname as [-> | ->]; vm_compute in Hallowed; injection Hallowed as <-;
        [exists [".doc"; ".docx"] | exists [".csv"; ".xlsx"; ".xls"]];
        (split; [reflexivity|]);
        intros x; rewrite !list_elem_of_In; simpl; tauto. }
    destruct Hkind as (allowed & Hpolicy & Hsame).
    pose proof (validateFile_accepts formatFileSize (file f) _ _ Hpolicy) as Haccepts.
    unfold handleFileUpload. rewrite Hallowed. unfold isAllowedExtension.
    rewrite <- array_includes_elem in Hmime.
    destruct (array_includes allowedTypes (mime f)); [now contradiction Hmime|].
    cbn [negb andb].
    destruct (array_includes allowedTypes (extension_of (file_name (file f))))
      eqn:Hext; cbn [negb].
    + apply array_includes_elem, Hsame in Hext.
      change (10 * 1024 * 1024) with maxFileSize.
      destruct (maxFileSize <? file_size (file f)) eqn:Hsize;
        [apply Z.ltb_lt in Hsize | apply Z.ltb_ge in Hsize];
        eexists; (split; [reflexivity|]); cbn [saved].
      * destruct (validateFile _ _ _).1; [|reflexivity].
        destruct Haccepts as [Haccepts _]. specialize (Haccepts eq_refl). lia.
      * symmetry. apply Haccepts. tauto.
    + eexists. split; [reflexivity|]. cbn [saved].
      destruct (validateFile _ _ _).1; [|reflexivity].
      destruct Haccepts as [Haccepts _]. destruct (Haccepts eq_refl) as [_ Hin].
      apply Hsame, array_includes_elem in Hin. congruence.
  - intros Hid. unfold getFileTypeFromInput.
    destruct Hname as [-> | ->]; destruct Hid as [-> | ->]; reflexivity.
Qed.

End ChosenFileFacts.

Section ChosenFileRuns.
Import AMV AMVForm Uploads.

Lemma handleFileUpload_keeps_valid_files_witness :
  exists r,
    handleFileUpload "method_analysis_file"
      [ {| file := {| file_name := "Method.PDF"; file_size := 2048 |};
           mime := "application/pdf" |} ] = Some r
    /\ saved r = true.
Proof.
  destruct (handleFileUpload_keeps_valid_files "method_analysis_file"
              {| file := {| file_name := "Method.PDF"; file_size := 2048 |};
                 mime := "application/pdf" |} [] [".pdf"] eq_refl)
    as (r & Hr & Hsaved & _).
  exists r. split; [exact Hr|]. apply Hsaved. split.
  - right. apply list_elem_of_In. vm_compute. tauto.
  - simpl. lia.
Defined.

Lemma upload_checks_agree_witness :
  (exists r,
     handleFileUpload "stp_file"
       [ {| file := {| file_name := "notes.txt"; file_size := 2048 |};
            mime := "text/plain" |} ] = Some r
     /\ saved r = false) /\
  ~ (forall (f : ChosenFile) (rest : list ChosenFile) (allowedTypes : list string),
       getAllowedFileTypes "stp_file" = Some allowedTypes ->
       mime f ∉ allowedTypes ->
       exists r,
         handleFileUpload "stp_file" (f :: rest) = Some r /\
         saved r
         = (validateFile (fun _ => "10 MB") (file f)
              (getFileTypeFromInput "logo_upload" "stp_file")).1).
Proof.
  split.
  - destruct (upload_checks_agree (fun _ => "10 MB") "" "stp_file" (or_introl eq_refl))
      as [[_ Hagree] _].
    destruct (Hagree eq_refl
                {| file := {| file_name := "notes.txt"; file_size := 2048 |};
                   mime := "text/plain" |} [] [".doc"; ".docx"] eq_refl)
      as (r & Hr & Hsaved).
    + intros Hin. apply list_elem_of_In in Hin. simpl in Hin.
      destruct Hin as [?|[?|[]]]; discriminate.
    + exists r. split; [exact Hr|]. rewrite Hsaved. reflexivity.
  - intros Hagree.
    destruct (upload_checks_agree (fun _ => "10 MB") "logo_upload" "stp_file"
                (or_introl eq_refl)) as [[Htyped _] _].
    specialize (Htyped Hagree). vm_compute in Htyped. discriminate.
Defined.

End ChosenFileRuns.

(** ** AMV form: the two concentration calculations *)

Section CalculationFacts.
Context `{JSRuntime}.
Import AMV.

(** Each calculation leaves the form as it is or fills its own empty
    sample field. *)
Lemma calculateUVConcentrations_writes (doc : gmap string string) :
  calculateUVConcentrations doc = doc
  \/ doc !! "uv_final_concentration_sample" = Some ""
     /\ exists text,
          calculateUVConcentrations doc
          = <["uv_final_concentration_sample" := text]> doc.
Proof.
  unfold calculateUVConcentrations.
  destruct (_ && _); [|now left].
  destruct (doc !! "uv_final_concentration_sample") as [v|]; [|now left].
  destruct (JS.truthy_string v) eqn:Hv; [now left|].
  apply truthy_string_false in Hv as ->. right. split; [reflexivity|]. eauto.
Qed.

Lemma calculateHPLCConcentrations_writes (doc : gmap string string) :
  calculateHPLCConcentrations doc = doc
  \/ doc !! "hplc_final_concentration_sample" = Some ""
     /\ exists text,
          calculateHPLCConcentrations doc
          = <["hplc_final_concentration_sample" := text]> doc.
Proof.
  unfold calculateHPLCConcentrations.
  destruct (_ && _); [|now left].
  destruct (doc !! "hplc_final_concentration_sample") as [v|]; [|now left].
  destruct (JS.truthy_string v) eqn:Hv; [now left|].
  apply truthy_string_false in Hv as ->. right. split; [reflexivity|]. eauto.
Qed.

(** Neither calculation reads the sample field of the other. *)
Lemma calculateUVConcentrations_insert (doc : gmap string string) (text : string) :
  calculateUVConcentrations (<["hplc_final_concentration_sample" := text]> doc)
  = <["hplc_final_concentration_sample" := text]> (calculateUVConcentrations doc).
Proof.
  unfold calculateUVConcentrations.
  rewrite !lookup_insert_ne by discriminate.
  destruct (_ && _); [|reflexivity].
  destruct (doc !! "uv_final_concentration_sample") as [v|]; [|reflexivity].
  destruct (JS.truthy_string v); [reflexivity|]. cbn [negb].
  apply insert_insert_ne. discriminate.
Qed.

Lemma calculateHPLCConcentrations_insert (doc : gmap string string) (text : string) :
  calculateHPLCConcentrations (<["uv_final_concentration_sample" := text]> doc)
  = <["uv_final_concentration_sample" := text]> (calculateHPLCConcentrations doc).
Proof.
  unfold calculateHPLCConcentrations.
  rewrite !lookup_insert_ne by discriminate.
  destruct (_ && _); [|reflexivity].
  destruct (doc !! "hplc_final_concentration_sample") as [v|]; [|reflexivity].
  destruct (JS.truthy_string v); [reflexivity|]. cbn [negb].
  apply insert_insert_ne. discriminate.
Qed.

(** X17. The UV and the HPLC calculation do not interfere: each can
    change only its own sample-concentration field, and only when
    that field is there and empty; neither adds or removes a field;
    and running them in either order gives the same form. *)
Theorem concentration_calculations_independent (doc : gmap string string) :
  (forall n, calculateUVConcentrations doc !! n <> doc !! n ->
     n = "uv_final_concentration_sample" /\ doc !! n = Some "") /\
  (forall n, calculateHPLCConcentrations doc !! n <> doc !! n ->
     n = "hplc_final_concentration_sample" /\ doc !! n = Some "") /\
  (forall n, is_Some (calculateUVConcentrations doc !! n) <-> is_Some (doc !! n)) /\
  (forall n, is_Some (calculateHPLCConcentrations doc !! n) <-> is_Some (doc !! n)) /\
  calculateUVConcentrations (calculateHPLCConcentrations doc)
  = calculateHPLCConcentrations (calculateUVConcentrations doc).
Proof.
  destruct (calculateUVConcentrations_writes doc) as [Hu | (Hue & x & Hu)];
    destruct (calculateHPLCConcentrations_writes doc) as [Hh | (Hhe & y & Hh)].
  all: split; [|split; [|split; [|split]]].
  all: try (intros n; rewrite ?Hu, ?Hh; clear Hu Hh).
  all: try (intros Hne; now contradiction Hne).
  all: try reflexivity.
  all: try (intros Hne;
            match goal with
            | |- context [<[?k := _]> _] =>
                destruct (decide (k = n)) as [<-|Hk];
                [now split | now rewrite lookup_insert_ne in Hne]
            end).
  all: try (match goal with
            | |- context [<[?k := _]> _] =>
                destruct (decide (k = n)) as [<-|Hk];
                [rewrite lookup_insert_eq, ?Hue, ?Hhe; split; eauto
                |now rewrite lookup_insert_ne]
            end).
  - now rewrite Hh, Hu, Hh.
  - rewrite Hh, Hu, calculateUVConcentrations_insert. now rewrite Hu.
  - rewrite Hh, Hu, calculateHPLCConcentrations_insert. now rewrite Hh.
  - rewrite Hh, Hu, calculateUVConcentrations_insert,
      calculateHPLCConcentrations_insert, Hu, Hh.
    apply insert_insert_ne. discriminate.
Qed.

End CalculationFacts.

Section CalculationRuns.
Import AMV.

Lemma concentration_calculations_independent_witness :
  @calculateUVConcentrations plain_runtime (Samples.uv_form "")
    !! "uv_final_concentration_sample"
  <> Samples.uv_form "" !! "uv_final_concentration_sample" /\
  Samples.uv_form "" !! "uv_final_concentration_sample" = Some "".
Proof.
  assert (Hchanged :
    @calculateUVConcentrations plain_runtime (Samples.uv_form "")
      !! "uv_final_concentration_sample"
    <> Samples.uv_form "" !! "uv_final_concentration_sample")
    by (vm_compute; discriminate).
  split; [exact Hchanged|].
  destruct (@concentration_calculations_independent plain_runtime
              (Samples.uv_form "")) as (Hframe & _).
  exact (proj2 (Hframe _ Hchanged)).
Defined.

End CalculationRuns.

(** ** The login page *)

Section LoginFacts.
Import Login.

Lemma shown_message_nonempty (message : option string) :
  (if JS.truthy_opt message then default "" message
   else "Login failed. Please try again.") <> "".
Proof.
  destruct (JS.truthy_opt message) eqn:Hm; [|discriminate].
  apply truthy_opt_true in Hm as (s & -> & Hs). exact Hs.
Qed.

(** X18. Whatever the end of a login through the form, the button is
    left enabled with its label.  The browser is sent to the dashboard
    exactly when the server has verified the token; then no error is
    visible, and otherwise the error box is shown with a message that
    is never empty.  A token is posted only to [/auth/verify].  The
    Google button navigates on the same condition, but on any failure
    shows one fixed message, whatever the server answered, and never
    touches the login button. *)
Theorem login_outcome (email password : string) (attempt : Attempt) (page : Page) :
  let r := loginForm_submit email password attempt page in
  let g := googleLogin_click attempt page in
  let verified :=
    match attempt with Answer _ result => success result | _ => false end in
  loginBtn r.1 = ready /\
  (forall url, Navigate url ∈ r.2 <-> url = "/dashboard/" /\ verified = true) /\
  loginError_hidden r.1 = verified /\
  (verified = false -> errorMessage r.1 <> "") /\
  (verified = true -> errorMessage r.1 = errorMessage page) /\
  (forall url idToken, Post url idToken ∈ r.2 -> url = "/auth/verify") /\
  (forall url, Navigate url ∈ g.2 <-> url = "/dashboard/" /\ verified = true) /\
  (verified = false ->
     loginError_hidden g.1 = false
     /\ errorMessage g.1 = "Google login failed. Please try again.") /\
  (verified = true -> g.1 = page) /\
  loginBtn g.1 = loginBtn page.
Proof.
  intros r g verified. subst r g verified.
  unfold loginForm_submit, googleLogin_click.
  destruct attempt as [m | m | t m | t m | t [[] e]];
    cbn [verify success error fst snd loginBtn loginError_hidden errorMessage].
  all: repeat split; try reflexivity; try discriminate.
  all: try (intros _; apply shown_message_nonempty).
  all: try (intros [-> _]; apply list_elem_of_In; simpl; tauto).
  all: try (intros [_ ?]; discriminate).
  all: intros.
  all: repeat match goal with
              | Hin : _ ∈ _ |- _ => apply list_elem_of_In in Hin; simpl in Hin
              | Hin : _ \/ _ |- _ => destruct Hin
              | Hin : False |- _ => contradiction
              end.
  all: congruence.
Qed.

Lemma login_outcome_witness :
  errorMessage
    (loginForm_submit "analyst@example.com" "secret"
       (Answer "token" {| success := false; error := Some "Account disabled" |})
       {| loginBtn := ready; loginError_hidden := true; errorMessage := "" |}).1
  <> "".
Proof.
  destruct (login_outcome "analyst@example.com" "secret"
              (Answer "token" {| success := false; error := Some "Account disabled" |})
              {| loginBtn := ready; loginError_hidden := true; errorMessage := "" |})
    as (_ & _ & _ & Hmessage & _).
  apply Hmessage. reflexivity.
Defined.

End LoginFacts.
